(** * claude-terminal-bot: the session registry, the terminal bridge and the
      command router, embedded from the Python sources

    The development follows the three modules of the bot:
    - [terminal_bridge.py]: the security gate [is_command_allowed] and the
      text processing that [execute_command] applies to a captured pane;
    - [session_manager.py]: the registry of sessions, over a model of the
      session store on disk and of the tmux server;
    - [claude_bot.py]: the natural-language aliases and [handle_command].

    Text is a Rocq [string], one [ascii] for each character of the Python
    [str].  The character classes of Python ([str.isspace], [str.lower],
    the regular-expression class of word characters) are given on the ASCII
    range; a character above 127 belongs to no class and has no lower case. *)

From Stdlib Require Import Bool Arith Lia List Ascii String.
From Stdlib Require Import Numbers.DecimalString.
Import ListNotations.

Local Open Scope string_scope.
Local Open Scope list_scope.

(* ================================================================== *)
(** * Python strings *)
(* ================================================================== *)

Module Py.

(** [c.isspace()] on the ASCII range: tab, line feed, vertical tab, form
    feed, carriage return, the four separators 28..31 and the space. *)
Definition isspace (c : ascii) : bool :=
  let n := nat_of_ascii c in
  (Nat.leb 9 n && Nat.leb n 13) || (Nat.leb 28 n && Nat.leb n 32).

(** [s.lstrip()], [s.rstrip()] and [s.strip()]. *)
Fixpoint lstrip (s : string) : string :=
  match s with
  | String c s' => if isspace c then lstrip s' else s
  | EmptyString => EmptyString
  end.

Fixpoint rstrip (s : string) : string :=
  match s with
  | String c s' =>
      match rstrip s' with
      | EmptyString => if isspace c then EmptyString else String c EmptyString
      | r => String c r
      end
  | EmptyString => EmptyString
  end.

Definition strip (s : string) : string := rstrip (lstrip s).

(** [s.split(sep)] for a separator of one character: the pieces between
    the separators, an empty piece included; never the empty list. *)
Fixpoint split_on (sep : ascii) (s : string) : list string :=
  match s with
  | EmptyString => [EmptyString]
  | String c s' =>
      if Ascii.eqb c sep then EmptyString :: split_on sep s'
      else match split_on sep s' with
           | w :: ws => String c w :: ws
           | [] => [String c EmptyString]
           end
  end.

Definition newline : ascii := ascii_of_nat 10.

Definition splitlines_n (s : string) : list string := split_on newline s.

(** [s.split()]: the maximal runs of characters that are not white space.
    The accumulator [w] is the run being read, last character first. *)
Fixpoint rev_string (acc s : string) : string :=
  match s with
  | EmptyString => acc
  | String c s' => rev_string (String c acc) s'
  end.

Definition flush (w : string) (out : list string) : list string :=
  match w with
  | EmptyString => out
  | _ => rev_string EmptyString w :: out
  end.

Fixpoint split_ws_from (w : string) (s : string) : list string :=
  match s with
  | EmptyString => flush w []
  | String c s' =>
      if isspace c then flush w (split_ws_from EmptyString s')
      else split_ws_from (String c w) s'
  end.

Definition split (s : string) : list string := split_ws_from EmptyString s.

(** [sep.join(l)]. *)
Fixpoint join (sep : string) (l : list string) : string :=
  match l with
  | [] => EmptyString
  | [x] => x
  | x :: rest => x ++ sep ++ join sep rest
  end.

(** [s.startswith(p)], [s.endswith(p)] and [p in s]. *)
Fixpoint startswith (s p : string) : bool :=
  match p, s with
  | EmptyString, _ => true
  | String a p', String b s' => Ascii.eqb a b && startswith s' p'
  | String _ _, EmptyString => false
  end.

Fixpoint contains (s p : string) : bool :=
  startswith s p ||
  match s with
  | EmptyString => false
  | String _ s' => contains s' p
  end.

Definition endswith (s p : string) : bool :=
  startswith (rev_string EmptyString s) (rev_string EmptyString p).

(** [c in s] for a character [c]. *)
Fixpoint has_char (c : ascii) (s : string) : bool :=
  match s with
  | EmptyString => false
  | String b s' => Ascii.eqb b c || has_char c s'
  end.

(** [s.lower()]. *)
Definition lower_char (c : ascii) : ascii :=
  let n := nat_of_ascii c in
  if Nat.leb 65 n && Nat.leb n 90 then ascii_of_nat (n + 32) else c.

Fixpoint lower (s : string) : string :=
  match s with
  | EmptyString => EmptyString
  | String c s' => String (lower_char c) (lower s')
  end.

(** [s[1:]]. *)
Definition drop1 (s : string) : string :=
  match s with
  | EmptyString => EmptyString
  | String _ s' => s'
  end.

(** [x in l] for a list of strings. *)
Fixpoint mem (x : string) (l : list string) : bool :=
  match l with
  | [] => false
  | y :: l' => String.eqb y x || mem x l'
  end.

(** [l[:n]] and [l[-n:]] for [n > 0]. *)
Definition slice_to {A} (n : nat) (l : list A) : list A := firstn n l.
Definition slice_last {A} (n : nat) (l : list A) : list A :=
  skipn (List.length l - n) l.

(** [str(n)] for a natural number and the format [f"{n:03d}"]. *)
Definition str_of_nat (n : nat) : string :=
  NilZero.string_of_uint (Nat.to_uint n).

Definition fmt_03d (n : nat) : string :=
  let s := str_of_nat n in
  match String.length s with
  | 1 => "00" ++ s
  | 2 => "0" ++ s
  | _ => s
  end.

End Py.

(* ================================================================== *)
(** * Exceptions *)
(* ================================================================== *)

(** The exceptions the modelled code can raise, and the outcome of a call:
    a value or a raised exception. *)
Inductive exn : Type :=
| IndexError
| CalledProcessError
| FileNotFoundError (path : string)
| FileExistsError (path : string)
| NotADirectoryError (path : string)
| IsADirectoryError (path : string)
| OSError_ENOTEMPTY (path : string)
| JSONDecodeError
| TooManySessions
| FailedToCreateTmuxSession.

Inductive outcome (A : Type) : Type :=
| Ok (a : A)
| Raise (e : exn).

Arguments Ok {A} a.
Arguments Raise {A} e.

Definition bind_outcome {A B} (x : outcome A) (f : A -> outcome B) : outcome B :=
  match x with
  | Ok a => f a
  | Raise e => Raise e
  end.

(** [l[0]]. *)
Definition index0 {A} (l : list A) : outcome A :=
  match l with
  | x :: _ => Ok x
  | [] => Raise IndexError
  end.

(* ================================================================== *)
(** * terminal_bridge.py *)
(* ================================================================== *)

Module TerminalBridge.

(** ** [execute_command], lines 50-90: from the captured pane to the reply *)

Definition truncation_marker : string := "... (output truncated) ...".

Definition nonempty (s : string) : bool :=
  match s with
  | EmptyString => false
  | String _ _ => true
  end.

(** One turn of the loop [for line in lines] of lines 57-73, on the pair
    [(command_found, output_lines)]. *)
Definition scan_line (command : string) (st : bool * list string) (raw : string)
  : bool * list string :=
  let '(command_found, output_lines) := st in
  let line := Py.strip raw in
  if negb (nonempty line) then st
  else if String.eqb line command then (true, output_lines)
  else if negb command_found && (Py.has_char "$" line || Py.has_char ">" line) then st
  else if command_found then (command_found, output_lines ++ [line])
  else st.

Definition scan_lines (command : string) (lines : list string) : bool * list string :=
  fold_left (scan_line command) lines (false, []).

(** The loop [for line in reversed(lines)] of lines 78-83; [todo] is what is
    left of the reversed list, [meaningful_lines] what was collected. *)
Fixpoint collect_meaningful (command : string) (todo meaningful_lines : list string)
  : list string :=
  match todo with
  | [] => meaningful_lines
  | raw :: todo' =>
      let line := Py.strip raw in
      if nonempty line && negb (String.eqb line command) && negb (Py.endswith line "$")
      then
        let meaningful_lines' := meaningful_lines ++ [line] in
        if Nat.leb 3 (List.length meaningful_lines') then meaningful_lines'
        else collect_meaningful command todo' meaningful_lines'
      else collect_meaningful command todo' meaningful_lines
  end.

(** Lines 75-84: the fallback when the scan kept nothing. *)
Definition with_fallback (command : string) (lines output_lines : list string)
  : list string :=
  match output_lines with
  | [] => rev (collect_meaningful command (rev lines) [])
  | _ => output_lines
  end.

(** Lines 86-88: the cap on the number of lines. *)
Definition limit_output (output_lines : list string) : list string :=
  if Nat.ltb 15 (List.length output_lines)
  then Py.slice_to 10 output_lines ++ [truncation_marker] ++ Py.slice_last 3 output_lines
  else output_lines.

(** Line 90. *)
Definition render (command : string) (output_lines : list string) : string :=
  match output_lines with
  | [] => "Command '" ++ command ++ "' executed (no output)"
  | _ => Py.join (String Py.newline EmptyString) output_lines
  end.

(** Lines 53-90, from the list [lines]. *)
Definition scrape_lines (command : string) (lines : list string) : string :=
  let output_lines := snd (scan_lines command lines) in
  let output_lines := with_fallback command lines output_lines in
  render command (limit_output output_lines).

(** Lines 51-90, from [result.stdout]. *)
Definition scrape (command stdout : string) : string :=
  scrape_lines command (Py.splitlines_n (Py.strip stdout)).

(** ** [is_command_allowed] *)

(** [self.security_config], the [security] section of the configuration: a
    dict.  [blocked_commands] and [allowed_commands] are the two keys the
    gate reads, [None] for a key that is absent; [other_keys] names the
    other keys of the section. *)
Record SecurityConfig : Type := {
  blocked_commands : option (list string);
  allowed_commands : option (list string);
  other_keys : list string
}.

(** [not self.security_config]: the dict has no key. *)
Definition config_is_empty (cfg : SecurityConfig) : bool :=
  match blocked_commands cfg, allowed_commands cfg, other_keys cfg with
  | None, None, [] => true
  | _, _, _ => false
  end.

(** [d.get(key, [])]. *)
Definition get_list (entry : option (list string)) : list string :=
  match entry with
  | Some l => l
  | None => []
  end.

(** The loop [for blocked_cmd in blocked] of lines 273-275: [true] when it
    leaves through [return False]. *)
Fixpoint hits_blocked (blocked : list string) (command : string) : bool :=
  match blocked with
  | [] => false
  | blocked_cmd :: blocked' =>
      if Py.contains command blocked_cmd then true
      else hits_blocked blocked' command
  end.

(** Line 280: the first piece of [command.split()] when there is one, else
    the empty string. *)
Definition cmd_start (command : string) : outcome string :=
  match Py.split command with
  | [] => Ok EmptyString
  | _ :: _ => index0 (Py.split command)
  end.

Definition is_command_allowed (cfg : SecurityConfig) (command : string)
  : outcome bool :=
  if config_is_empty cfg then Ok true
  else if hits_blocked (get_list (blocked_commands cfg)) command then Ok false
  else
    match get_list (allowed_commands cfg) with
    | [] => Ok true
    | allowed =>
        bind_outcome (cmd_start command) (fun start =>
        if negb (Py.mem start allowed) then Ok false else Ok true)
    end.

End TerminalBridge.


(* ================================================================== *)
(** * The regular expressions of the router *)
(* ================================================================== *)

(** The fragment of Python's [re] that [claude_bot.py] uses: literals,
    character classes, greedy [+] on a class, greedy [?], sequence,
    alternation and one capturing group.  Matching backtracks in the order
    of [re]: the longest repetition first, the optional part first, the
    left alternative first. *)
Module Re.

Inductive regex : Type :=
| Lit (text : string)
| Class (p : ascii -> bool)
| Plus (p : ascii -> bool)
| Opt (r : regex)
| Seq (r1 r2 : regex)
| Alt (r1 r2 : regex)
| Group (r : regex).

(** The state of a match in progress is the text still to read and the
    text of group 1, if the group took part.  A finished match gives the
    group. *)
Definition found : Type := option string.

Definition or_else {A} (x : option A) (y : option A) : option A :=
  match x with
  | Some _ => x
  | None => y
  end.

Fixpoint drop (n : nat) (s : string) : string :=
  match n, s with
  | S n', String _ s' => drop n' s'
  | _, _ => s
  end.

(** The repetitions after the first of [Plus p]: as many as possible, one
    less on each failure of the continuation. *)
Fixpoint more (p : ascii -> bool) (s : string) (k : string -> option found)
  : option found :=
  match s with
  | String c s' => if p c then or_else (more p s' k) (k s) else k s
  | EmptyString => k s
  end.

Fixpoint run (r : regex) (s : string) (g : found)
    (k : string -> found -> option found) : option found :=
  match r with
  | Lit text =>
      if Py.startswith s text then k (drop (String.length text) s) g else None
  | Class p =>
      match s with
      | String c s' => if p c then k s' g else None
      | EmptyString => None
      end
  | Plus p =>
      match s with
      | String c s' => if p c then more p s' (fun rest => k rest g) else None
      | EmptyString => None
      end
  | Opt r' => or_else (run r' s g k) (k s g)
  | Seq r1 r2 => run r1 s g (fun rest g' => run r2 rest g' k)
  | Alt r1 r2 => or_else (run r1 s g k) (run r2 s g k)
  | Group r' =>
      run r' s g (fun rest _ =>
        k rest (Some (String.substring 0 (String.length s - String.length rest) s)))
  end.

(** [re.search(r, s)]: the match at the leftmost position that has one;
    [Some g] carries [match.group(1)]. *)
Fixpoint search (r : regex) (s : string) : option found :=
  or_else (run r s None (fun _ g => Some g))
    match s with
    | String _ s' => search r s'
    | EmptyString => None
    end.

(** The classes: white space, its complement, word characters, the two
    quote characters (codes 34 and 39), and the complement of these. *)
Definition space : ascii -> bool := Py.isspace.
Definition not_space (c : ascii) : bool := negb (Py.isspace c).
Definition word (c : ascii) : bool :=
  let n := nat_of_ascii c in
  (Nat.leb 48 n && Nat.leb n 57) || (Nat.leb 65 n && Nat.leb n 90)
  || (Nat.leb 97 n && Nat.leb n 122) || Nat.eqb n 95.
Definition quote (c : ascii) : bool :=
  let n := nat_of_ascii c in Nat.eqb n 34 || Nat.eqb n 39.
Definition not_quote (c : ascii) : bool := negb (quote c).

End Re.

(* ================================================================== *)
(** * Python dicts with string keys *)
(* ================================================================== *)

(** A dict keeps its keys in the order of their first insertion, and
    [list_sessions] shows that order: the model is an association list.
    [set] on a key that is present replaces the value where it stands. *)
Module Dict.

Section Ops.
Context {V : Type}.

Definition t : Type := list (string * V).

Fixpoint get (k : string) (d : t) : option V :=
  match d with
  | [] => None
  | (k', v) :: d' => if String.eqb k' k then Some v else get k d'
  end.

Definition mem (k : string) (d : t) : bool :=
  match get k d with
  | Some _ => true
  | None => false
  end.

Fixpoint set (k : string) (v : V) (d : t) : t :=
  match d with
  | [] => [(k, v)]
  | (k', v') :: d' =>
      if String.eqb k' k then (k, v) :: d' else (k', v') :: set k v d'
  end.

Fixpoint del (k : string) (d : t) : t :=
  match d with
  | [] => []
  | (k', v') :: d' =>
      if String.eqb k' k then del k d' else (k', v') :: del k d'
  end.

Definition keys (d : t) : list string := map fst d.
Definition values (d : t) : list V := map snd d.

End Ops.

Arguments t V : clear implicits.

End Dict.

(* ================================================================== *)
(** * session_manager.py *)
(* ================================================================== *)

Module SessionManager.

(** ** The session record

    [session_data] as [create_session] writes it.  [topic] is [None] for
    Python's [None]; [status] is [None] until [sleep_session] adds the key.
    The two time stamps are readings of the clock. *)
Record Session : Type := {
  id : string;
  name : string;
  working_dir : string;
  tmux_session : string;
  claude_code_active : bool;
  created_at : nat;
  last_active : nat;
  context_files : list string;
  environment : list (string * string);
  topic : option string;
  status : option string
}.

Definition with_last_active (now : nat) (s : Session) : Session :=
  {| id := id s; name := name s; working_dir := working_dir s;
     tmux_session := tmux_session s;
     claude_code_active := claude_code_active s;
     created_at := created_at s; last_active := now;
     context_files := context_files s; environment := environment s;
     topic := topic s; status := status s |}.

Definition with_status (st : string) (s : Session) : Session :=
  {| id := id s; name := name s; working_dir := working_dir s;
     tmux_session := tmux_session s;
     claude_code_active := claude_code_active s;
     created_at := created_at s; last_active := last_active s;
     context_files := context_files s; environment := environment s;
     topic := topic s; status := Some st |}.

(** ** The world outside the process

    The session store is the content of [base_dir]: entries by name, in
    the order [iterdir] yields them.  A directory of the store holds items
    by name.  What [json.load] makes of a file is [Unreadable] (the load
    raises), [WithoutId] (a dict with no key [id]) or a session record: a
    stored dict that has the key [id] is taken to have the other keys that
    [create_session] and [save_session] write.

    The tmux server is the list of its live sessions, each with its start
    directory.  [faults] says of each coming [tmux new-session] whether the
    server refuses it ([true]); past the end of the list none is refused. *)
Inductive json_file : Type :=
| Unreadable
| WithoutId
| Stored (s : Session).

Inductive item : Type :=
| ItemDir
| ItemFile (content : json_file).

Inductive entry : Type :=
| EntryFile
| EntryDir (items : Dict.t item).

Record World : Type := {
  store : Dict.t entry;
  tmux : list (string * string);
  faults : list bool;
  clock : nat
}.

Definition set_store (st : Dict.t entry) (w : World) : World :=
  {| store := st; tmux := tmux w; faults := faults w; clock := clock w |}.
Definition set_tmux (tm : list (string * string)) (w : World) : World :=
  {| store := store w; tmux := tm; faults := faults w; clock := clock w |}.
Definition set_faults (f : list bool) (w : World) : World :=
  {| store := store w; tmux := tmux w; faults := f; clock := clock w |}.
Definition set_clock (c : nat) (w : World) : World :=
  {| store := store w; tmux := tmux w; faults := faults w; clock := c |}.

(** ** The registry *)
Record Registry : Type := {
  base_dir : string;
  tmux_prefix : string;
  sessions : Dict.t Session;
  topic_sessions : Dict.t string;
  global_active_session : option string
}.

Definition set_sessions (ss : Dict.t Session) (r : Registry) : Registry :=
  {| base_dir := base_dir r; tmux_prefix := tmux_prefix r; sessions := ss;
     topic_sessions := topic_sessions r;
     global_active_session := global_active_session r |}.
Definition set_topic_sessions (ts : Dict.t string) (r : Registry) : Registry :=
  {| base_dir := base_dir r; tmux_prefix := tmux_prefix r;
     sessions := sessions r; topic_sessions := ts;
     global_active_session := global_active_session r |}.
Definition set_global_active (g : option string) (r : Registry) : Registry :=
  {| base_dir := base_dir r; tmux_prefix := tmux_prefix r;
     sessions := sessions r; topic_sessions := topic_sessions r;
     global_active_session := g |}.

(** ** Computations

    A method runs on the registry and the world and leaves both behind,
    also when it raises: what it changed before the exception stays. *)
Definition state : Type := (Registry * World)%type.
Definition M (A : Type) : Type := state -> outcome A * state.

Definition ret {A} (a : A) : M A := fun st => (Ok a, st).
Definition raise {A} (e : exn) : M A := fun st => (Raise e, st).
Definition bind {A B} (m : M A) (f : A -> M B) : M B :=
  fun st =>
    match m st with
    | (Ok a, st') => f a st'
    | (Raise e, st') => (Raise e, st')
    end.
(** [try: m except Exception: h]. *)
Definition try_except {A} (m : M A) (h : exn -> M A) : M A :=
  fun st =>
    match m st with
    | (Ok a, st') => (Ok a, st')
    | (Raise e, st') => h e st'
    end.

Definition registry : M Registry := fun st => (Ok (fst st), st).
Definition world : M World := fun st => (Ok (snd st), st).
Definition update_registry (f : Registry -> Registry) : M unit :=
  fun st => (Ok tt, (f (fst st), snd st)).
Definition update_world (f : World -> World) : M unit :=
  fun st => (Ok tt, (fst st, f (snd st))).

Declare Scope sm_scope.
Delimit Scope sm_scope with sm.
Notation "x <- m ;; k" := (bind m (fun x => k))
  (at level 61, m at next level, right associativity) : sm_scope.
Notation "m ;;; k" := (bind m (fun _ => k))
  (at level 61, right associativity) : sm_scope.
Local Open Scope sm_scope.

(** Python's truth value of a string-or-[None]. *)
Definition truthy (x : option string) : bool :=
  match x with
  | Some (String _ _) => true
  | _ => false
  end.

(** [datetime.now().isoformat()]: a reading of the clock, which ticks. *)
Definition now : M nat :=
  w <- world ;;
  update_world (set_clock (S (clock w))) ;;;
  ret (clock w).

(** ** tmux *)

(** [tmux has-session -t name]: whether the command exits with 0. *)
Definition is_live (tmux_name : string) (w : World) : bool :=
  existsb (fun p => String.eqb (fst p) tmux_name) (tmux w).

Definition tmux_has_session (tmux_name : string) : M bool :=
  w <- world ;; ret (is_live tmux_name w).

(** [tmux kill-session -t name]. *)
Definition tmux_kill_session (tmux_name : string) : M bool :=
  w <- world ;;
  update_world
    (set_tmux (filter (fun p => negb (String.eqb (fst p) tmux_name)) (tmux w))) ;;;
  ret (is_live tmux_name w).

(** [tmux new-session -d -s name -c dir]: refused on a scheduled fault and
    on a name that is already live. *)
Definition tmux_new_session (tmux_name dir : string) : M bool :=
  w <- world ;;
  update_world (set_faults (tl (faults w))) ;;;
  match faults w with
  | true :: _ => ret false
  | _ =>
      if is_live tmux_name w then ret false
      else update_world (fun w' => set_tmux (tmux w' ++ [(tmux_name, dir)]) w') ;;;
           ret true
  end.

(** ** The store *)

Definition path_join (dir name : string) : string := dir ++ "/" ++ name.

Definition session_json : string := "session.json".

(** [session_dir.mkdir(exist_ok=True)] for [session_dir = base_dir / name]. *)
Definition mkdir_entry (base name : string) : M unit :=
  w <- world ;;
  match Dict.get name (store w) with
  | Some (EntryDir _) => ret tt
  | Some EntryFile => raise (FileExistsError (path_join base name))
  | None => update_world (set_store (Dict.set name (EntryDir []) (store w)))
  end.

(** [(session_dir / sub).mkdir(exist_ok=True)]. *)
Definition mkdir_item (base name sub : string) : M unit :=
  w <- world ;;
  match Dict.get name (store w) with
  | Some (EntryDir items) =>
      match Dict.get sub items with
      | Some ItemDir => ret tt
      | Some (ItemFile _) => raise (FileExistsError (path_join (path_join base name) sub))
      | None =>
          update_world
            (set_store (Dict.set name (EntryDir (Dict.set sub ItemDir items)) (store w)))
      end
  | Some EntryFile => raise (NotADirectoryError (path_join (path_join base name) sub))
  | None => raise (FileNotFoundError (path_join (path_join base name) sub))
  end.

(** [with open(session_dir / "session.json", 'w') as f: json.dump(data, f)]. *)
Definition write_session_json (base name : string) (data : Session) : M unit :=
  w <- world ;;
  let path := path_join (path_join base name) session_json in
  match Dict.get name (store w) with
  | Some (EntryDir items) =>
      match Dict.get session_json items with
      | Some ItemDir => raise (IsADirectoryError path)
      | _ =>
          update_world
            (set_store
               (Dict.set name
                  (EntryDir (Dict.set session_json (ItemFile (Stored data)) items))
                  (store w)))
      end
  | Some EntryFile => raise (NotADirectoryError path)
  | None => raise (FileNotFoundError path)
  end.

(** [session_dir.exists()] and [session_dir.rmdir()]. *)
Definition entry_exists (name : string) : M bool :=
  w <- world ;; ret (Dict.mem name (store w)).

Definition rmdir_entry (base name : string) : M unit :=
  w <- world ;;
  match Dict.get name (store w) with
  | Some (EntryDir []) => update_world (set_store (Dict.del name (store w)))
  | Some (EntryDir (_ :: _)) => raise (OSError_ENOTEMPTY (path_join base name))
  | Some EntryFile => raise (NotADirectoryError (path_join base name))
  | None => raise (FileNotFoundError (path_join base name))
  end.

(** ** The methods of [SessionManager] *)

Definition lift {A} (x : outcome A) : M A := fun st => (x, st).

(** The loop of [generate_session_id]: [i] runs over [range(1, 1000)],
    [left] counts the values still to try. *)
Fixpoint first_unused (existing_ids : list string) (i left : nat) : outcome string :=
  match left with
  | 0 => Raise TooManySessions
  | S left' =>
      let session_id := Py.fmt_03d i in
      if negb (Py.mem session_id existing_ids) then Ok session_id
      else first_unused existing_ids (S i) left'
  end.

Definition generate_session_id : M string :=
  r <- registry ;;
  let existing_ids := Dict.keys (sessions r) in
  lift (first_unused existing_ids 1 999).

Definition save_session (session_id : string) : M unit :=
  r <- registry ;;
  match Dict.get session_id (sessions r) with
  | None => ret tt
  | Some session_data => write_session_json (base_dir r) session_id session_data
  end.

Definition create_session (name : string) (topic : option string) : M string :=
  session_id <- generate_session_id ;;
  r <- registry ;;
  mkdir_entry (base_dir r) session_id ;;;
  mkdir_item (base_dir r) session_id "context" ;;;
  t_created <- now ;;
  t_active <- now ;;
  let session_data :=
    {| id := session_id;
       name := name;
       working_dir := path_join (base_dir r) session_id;
       tmux_session := tmux_prefix r ++ session_id;
       claude_code_active := false;
       created_at := t_created;
       last_active := t_active;
       context_files := [];
       environment := [];
       topic := topic;
       status := None |} in
  write_session_json (base_dir r) session_id session_data ;;;
  let tmux_name := tmux_session session_data in
  tmux_kill_session tmux_name ;;;
  created <- tmux_new_session tmux_name (working_dir session_data) ;;
  (if created then ret tt
   else
     present <- entry_exists session_id ;;
     (if present then rmdir_entry (base_dir r) session_id else ret tt) ;;;
     raise FailedToCreateTmuxSession) ;;;
  update_registry (fun r' => set_sessions (Dict.set session_id session_data (sessions r')) r') ;;;
  (match topic with
   | Some (String c t) =>
       update_registry (fun r' =>
         set_topic_sessions (Dict.set (String c t) session_id (topic_sessions r')) r')
   | _ => ret tt
   end) ;;;
  ret session_id.

Definition switch_session (session_id topic : string) : M bool :=
  r <- registry ;;
  if negb (Dict.mem session_id (sessions r)) then ret false
  else
    update_registry (fun r' =>
      set_topic_sessions (Dict.set topic session_id (topic_sessions r')) r') ;;;
    update_registry (set_global_active (Some session_id)) ;;;
    t <- now ;;
    update_registry (fun r' =>
      match Dict.get session_id (sessions r') with
      | Some s => set_sessions (Dict.set session_id (with_last_active t s) (sessions r')) r'
      | None => r'
      end) ;;;
    save_session session_id ;;;
    ret true.

(** [get_current_session] reads the registry only. *)
Definition get_current_session (topic : string) (r : Registry) : option Session :=
  let session_id := Dict.get topic (topic_sessions r) in
  match (if truthy session_id
         then match session_id with
              | Some sid => Dict.get sid (sessions r)
              | None => None
              end
         else None) with
  | Some s => Some s
  | None =>
      if truthy (global_active_session r)
      then match global_active_session r with
           | Some gid => Dict.get gid (sessions r)
           | None => None
           end
      else None
  end.

Definition list_sessions (r : Registry) : list Session := Dict.values (sessions r).

Definition sleep_session (session_id : string) : M bool :=
  r <- registry ;;
  match Dict.get session_id (sessions r) with
  | None => ret false
  | Some s =>
      update_registry
        (set_sessions (Dict.set session_id (with_status "sleeping" s) (sessions r))) ;;;
      save_session session_id ;;;
      ret true
  end.

Definition kill_session (session_id : string) : M bool :=
  r <- registry ;;
  match Dict.get session_id (sessions r) with
  | None => ret false
  | Some session =>
      let tmux_name := tmux_session session in
      tmux_kill_session tmux_name ;;;
      update_registry (fun r' => set_sessions (Dict.del session_id (sessions r')) r') ;;;
      (match topic session with
       | Some (String c t) =>
           r' <- registry ;;
           match Dict.get (String c t) (topic_sessions r') with
           | Some sid =>
               if String.eqb sid session_id
               then update_registry
                      (set_topic_sessions (Dict.del (String c t) (topic_sessions r')))
               else ret tt
           | None => ret tt
           end
       | _ => ret tt
       end) ;;;
      ret true
  end.

Definition recreate_tmux_session (session_data : Session) : M unit :=
  let tmux_name := tmux_session session_data in
  let working_dir := working_dir session_data in
  tmux_new_session tmux_name working_dir ;;;
  ret tt.

(** The body of the loop of [load_sessions] for one entry of [base_dir]. *)
Definition load_entry (dir_name : string) (e : entry) : M unit :=
  match e with
  | EntryFile => ret tt
  | EntryDir items =>
      match Dict.get session_json items with
      | None => ret tt
      | Some file =>
          try_except
            (match file with
             | ItemDir => raise (IsADirectoryError dir_name)
             | ItemFile Unreadable => raise JSONDecodeError
             | ItemFile WithoutId => ret tt
             | ItemFile (Stored session_data) =>
                 let session_id := id session_data in
                 update_registry (fun r =>
                   set_sessions (Dict.set session_id session_data (sessions r)) r) ;;;
                 let tmux_name := tmux_session session_data in
                 alive <- tmux_has_session tmux_name ;;
                 (if alive then ret tt else recreate_tmux_session session_data) ;;;
                 (match topic session_data with
                  | Some (String c t) =>
                      update_registry (fun r =>
                        set_topic_sessions
                          (Dict.set (String c t) session_id (topic_sessions r)) r)
                  | _ => ret tt
                  end) ;;;
                 r <- registry ;;
                 if negb (truthy (global_active_session r))
                 then update_registry (set_global_active (Some session_id))
                 else ret tt
             end)
            (fun _ => ret tt)
      end
  end.

Fixpoint load_entries (entries : Dict.t entry) : M unit :=
  match entries with
  | [] => ret tt
  | (dir_name, e) :: entries' => load_entry dir_name e ;;; load_entries entries'
  end.

Definition load_sessions : M unit :=
  w <- world ;; load_entries (store w).

(** [SessionManager(config)]: the empty registry, then [load_sessions]. *)
Definition empty_registry (base prefix : string) : Registry :=
  {| base_dir := base; tmux_prefix := prefix; sessions := [];
     topic_sessions := []; global_active_session := None |}.

Definition init (base prefix : string) (w : World) : state :=
  snd (load_sessions (empty_registry base prefix, w)).

End SessionManager.

(* ================================================================== *)
(** * claude_bot.py: the natural-language aliases *)
(* ================================================================== *)

Module Aliases.

Import Re.

(** [any(phrase in text for phrase in phrases)]. *)
Definition any_in (text : string) (phrases : list string) : bool :=
  existsb (fun phrase => Py.contains text phrase) phrases.

Definition natural_commands : list string :=
  [ "start claude"; "claude start"; "start claude code";
    "stop claude"; "claude stop"; "stop claude code";
    "list sessions"; "show sessions"; "list all sessions";
    "new session"; "create session"; "create new session";
    "switch session"; "change session"; "switch to session";
    "help"; "show help"; "bot help" ].

Definition is_natural_command (content : string) : bool :=
  let content_lower := Py.lower content in
  any_in content_lower natural_commands.

(** [r'cd\s+([^\s]+)'] *)
Definition re_cd : regex :=
  Seq (Lit "cd") (Seq (Plus space) (Group (Plus not_space))).

(** [(?:new|create) session(?:\s+(?:called\s+)?Q?(N+)Q?)?], where [Q] is
    the class of the two quote characters and [N] its complement. *)
Definition re_new_session : regex :=
  Seq (Alt (Lit "new") (Lit "create"))
   (Seq (Lit " session")
     (Opt (Seq (Plus space)
            (Seq (Opt (Seq (Lit "called") (Plus space)))
              (Seq (Opt (Class quote))
                (Seq (Group (Plus not_quote)) (Opt (Class quote)))))))).

(** [r'session\s+(\w+)'] *)
Definition re_switch : regex :=
  Seq (Lit "session") (Seq (Plus space) (Group (Plus word))).

(** [f"{match.group(1)}"]. *)
Definition fmt_group (g : found) : string :=
  match g with
  | Some text => text
  | None => "None"
  end.

Definition dquote : string := String (ascii_of_nat 34) EmptyString.

Definition convert_natural_command (content : string) : string :=
  let content_lower := Py.lower content in
  if any_in content_lower ["start claude"; "claude start"] then "/claude-start"
  else if any_in content_lower ["stop claude"; "claude stop"] then "/claude-stop"
  else if Py.contains content_lower "change directory" || Py.contains content "cd " then
    if Py.contains content "cd " then
      match search re_cd content with
      | Some g => "/working-dir " ++ fmt_group g
      | None => content
      end
    else content
  else if any_in content_lower ["list sessions"; "show sessions"] then "/list-sessions"
  else if Py.contains content_lower "new session"
          || Py.contains content_lower "create session" then
    match search re_new_session content_lower with
    | Some (Some (String c name)) =>
        "/new-session " ++ dquote ++ Py.strip (String c name) ++ dquote
    | _ => "/new-session"
    end
  else if Py.contains content_lower "switch" && Py.contains content_lower "session" then
    match search re_switch content_lower with
    | Some g => "/switch-session " ++ fmt_group g
    | None => "/list-sessions"
    end
  else if Py.contains content_lower "help" then "/help"
  else "/help".

(** [handle_message], lines 130-137: where the content of a message goes. *)
Inductive route : Type :=
| ToHandleCommand (command : string)
| ToHandleCommandAsAlias (bot_command : string)
| ToTerminalInput (content : string).

Definition route_message (content : string) : route :=
  if Py.startswith content "/" then ToHandleCommand content
  else if is_natural_command content
       then ToHandleCommandAsAlias (convert_natural_command content)
       else ToTerminalInput content.

End Aliases.

(* ================================================================== *)
(** * claude_bot.py: [handle_command] *)
(* ================================================================== *)

Module ClaudeBot.

Import SessionManager.
Local Open Scope sm_scope.

(** What [handle_command] returns: a text, or the text that the handler
    [except Exception as e] builds from the exception, [f"Command failed:
    {str(e)}"]. *)
Inductive reply : Type :=
| Say (text : string)
| CommandFailed (e : exn).

Definition get_help_text : string := "
**Claude Terminal Bot Commands:**

**Session Management:**
- `/new-session [name]` - Create a new terminal session
- `/list-sessions` - Show all active sessions  
- `/switch-session <id>` - Switch to a session
- `/sleep-session <id>` - Background a session
- `/kill-session <id>` - Terminate a session

**Claude Code:**
- `/claude-start` - Initialize Claude Code in current session
- `/claude-stop` - Stop Claude Code
- `/claude-status` - Check Claude Code status

**Context:**
- `/context upload <file>` - Upload file to session context
- `/context list` - Show session context files
- `/working-dir <path>` - Change session working directory

**Other:**
- `/help` - Show this help message

Send any other message to execute as a terminal command.
".

Definition nl : string := String Py.newline EmptyString.

Section Router.

(** Two operations reach beyond the session store and the tmux sessions
    (the file system at large, the assistant process):
    [SessionManager.set_working_directory] and
    [TerminalBridge.start_claude_code].  The router takes them as given. *)
Variable set_working_directory : string -> string -> M bool.
Variable start_claude_code : Session -> M string.

(** The [try] block of [handle_command]. *)
Definition run_command (cmd : string) (args : list string) (topic : string) : M string :=
  if String.eqb cmd "new-session" then
    r <- registry ;;
    let name : string :=
      match args with
      | [] => ("session-" ++ Py.str_of_nat (List.length (sessions r) + 1))%string
      | _ => Py.join " " args
      end in
    session_id <- create_session name (Some topic) ;;
    ret ("Created session " ++ session_id ++ ": " ++ name)%string
  else if String.eqb cmd "list-sessions" then
    r <- registry ;;
    match list_sessions r with
    | [] => ret "No active sessions"
    | all =>
        ret ("Active sessions:" ++ nl
             ++ Py.join nl (map (fun s => ("- " ++ id s ++ ": " ++ name s)%string) all))%string
    end
  else if String.eqb cmd "switch-session" then
    match args with
    | [] => ret "Usage: /switch-session <session_id>"
    | session_id :: _ =>
        switched <- switch_session session_id topic ;;
        if switched then ret ("Switched to session " ++ session_id)%string
        else ret ("Session " ++ session_id ++ " not found")%string
    end
  else if String.eqb cmd "claude-start" then
    r <- registry ;;
    match get_current_session topic r with
    | Some current_session => start_claude_code current_session
    | None => ret "No active session. Use /new-session first."
    end
  else if String.eqb cmd "working-dir" then
    match args with
    | [] => ret "Usage: /working-dir <path>"
    | _ =>
        r <- registry ;;
        match get_current_session topic r with
        | Some current_session =>
            let new_dir := Py.join " " args in
            let new_dir : string :=
              if Py.startswith new_dir "git/"
              then ("/Users/dgoo2308/git/" ++ Re.drop 4 new_dir)%string
              else if String.eqb new_dir "odoo18" then "/Users/dgoo2308/git/odoo18"
              else new_dir in
            changed <- set_working_directory (id current_session) new_dir ;;
            if changed then ret ("✅ Working directory changed to: " ++ new_dir)%string
            else ret ("❌ Directory not found: " ++ new_dir)%string
        | None => ret "No active session. Use /new-session first."
        end
    end
  else if String.eqb cmd "help" then ret get_help_text
  else ret ("Unknown command: " ++ cmd ++ ". Use /help for available commands.")%string.

Definition handle_command (command topic sender : string) (st : state)
  : reply * state :=
  let parts := Py.split (Py.drop1 command) in
  let cmd := match parts with
             | [] => EmptyString
             | first :: _ => first
             end in
  let args := if Nat.ltb 1 (List.length parts) then tl parts else [] in
  match run_command cmd args topic st with
  | (Ok text, st') => (Say text, st')
  | (Raise e, st') => (CommandFailed e, st')
  end.

End Router.

End ClaudeBot.

(* ================================================================== *)
(** * Notions used to state the properties *)
(* ================================================================== *)

Module Notions.

(** [p] occurs in [s]: some text stands before it and some after. *)
Definition occurs_in (p s : string) : Prop :=
  exists before after : string, s = (before ++ p ++ after)%string.

(** The first white-space-delimited token of a command, if it has one. *)
Definition first_token (command : string) : option string :=
  hd_error (Py.split command).

(** The same, with the empty string for a command that has no token. *)
Definition first_token_or_empty (command : string) : string :=
  match first_token command with
  | Some token => token
  | None => EmptyString
  end.

(** Every character of [s] is white space; true of the empty string. *)
Fixpoint all_space (s : string) : bool :=
  match s with
  | EmptyString => true
  | String c s' => Py.isspace c && all_space s'
  end.

(** Every registered session has a live tmux session. *)
Definition handles_live (st : SessionManager.state) : Prop :=
  forall sid s,
    Dict.get sid (SessionManager.sessions (fst st)) = Some s ->
    SessionManager.is_live (SessionManager.tmux_session s) (snd st) = true.

(** [p] is the tmux session that [recreate_tmux_session] makes for a
    record stored in a directory among [entries]: the handle name and the
    working directory of the record. *)
Definition recreated_from (entries : Dict.t SessionManager.entry)
    (p : string * string) : Prop :=
  exists dir_name items s,
    In (dir_name, SessionManager.EntryDir items) entries
    /\ Dict.get SessionManager.session_json items
       = Some (SessionManager.ItemFile (SessionManager.Stored s))
    /\ p = (SessionManager.tmux_session s, SessionManager.working_dir s).

(** What a run of [load_sessions] over [entries] keeps and establishes,
    from the state [st] to the state [st'], on a server without faults. *)
Record load_step_ok (entries : Dict.t SessionManager.entry)
    (st st' : SessionManager.state) : Prop := {
  step_faults : SessionManager.faults (snd st') = [];
  step_store : SessionManager.store (snd st') = SessionManager.store (snd st);
  step_kept : forall p, In p (SessionManager.tmux (snd st)) ->
                        In p (SessionManager.tmux (snd st'));
  step_new : forall p, In p (SessionManager.tmux (snd st')) ->
                       In p (SessionManager.tmux (snd st))
                       \/ recreated_from entries p;
  step_live : handles_live st -> handles_live st'
}.

(** The record that [create_session] builds for the id [sid], on the
    registry [r], when the clock of the world shows [c]. *)
Definition new_record (r : SessionManager.Registry) (c : nat)
    (sid name : string) (topic : option string) : SessionManager.Session :=
  {| SessionManager.id := sid;
     SessionManager.name := name;
     SessionManager.working_dir :=
       SessionManager.path_join (SessionManager.base_dir r) sid;
     SessionManager.tmux_session := SessionManager.tmux_prefix r ++ sid;
     SessionManager.claude_code_active := false;
     SessionManager.created_at := c;
     SessionManager.last_active := S c;
     SessionManager.context_files := [];
     SessionManager.environment := [];
     SessionManager.topic := topic;
     SessionManager.status := None |}.

(** No session is registered under the empty string. *)
Definition ids_nonempty (r : SessionManager.Registry) : Prop :=
  forall sid s,
    Dict.get sid (SessionManager.sessions r) = Some s -> sid <> EmptyString.

(** No record of the store has the empty string as its id. *)
Definition stored_ids_nonempty (entries : Dict.t SessionManager.entry) : Prop :=
  forall dir_name items s,
    In (dir_name, SessionManager.EntryDir items) entries ->
    Dict.get SessionManager.session_json items
    = Some (SessionManager.ItemFile (SessionManager.Stored s)) ->
    SessionManager.id s <> EmptyString.

(** The reply of [handle_command] to a token it has no branch for. *)
Definition unknown_reply (cmd : string) : string :=
  "Unknown command: " ++ cmd ++ ". Use /help for available commands.".

(** The six tokens that [handle_command] has a branch for. *)
Definition handled_tokens : list string :=
  ["new-session"; "list-sessions"; "switch-session"; "claude-start";
   "working-dir"; "help"].

End Notions.

(* ================================================================== *)
(** * Scenarios *)
(* ================================================================== *)

Module Scenarios.

Import TerminalBridge SessionManager.

(** The pane of the scraper scenario of the specification. *)
Definition echo_hi_pane : list string :=
  ["user@host:~$ echo hi"; "hi"; "user@host:~$"].

Definition twenty_lines : list string :=
  ["l01"; "l02"; "l03"; "l04"; "l05"; "l06"; "l07"; "l08"; "l09"; "l10";
   "l11"; "l12"; "l13"; "l14"; "l15"; "l16"; "l17"; "l18"; "l19"; "l20"].

Definition only_allow (allowed : list string) : SecurityConfig :=
  {| blocked_commands := None; allowed_commands := Some allowed; other_keys := [] |}.

Definition rm_rf_config : SecurityConfig :=
  {| blocked_commands := Some ["rm -rf"];
     allowed_commands := Some ["rm"; "ls"];
     other_keys := [] |}.

Definition empty_config : SecurityConfig :=
  {| blocked_commands := None; allowed_commands := None; other_keys := [] |}.

Definition demo_session (sid : string) (t : option string) : Session :=
  {| id := sid; name := "demo"; working_dir := "/srv/sessions/" ++ sid;
     tmux_session := "claude_" ++ sid; claude_code_active := false;
     created_at := 0; last_active := 0; context_files := [];
     environment := []; topic := t; status := None |}.

Definition demo_dir (s : Session) : string * entry :=
  (id s, EntryDir [("context", ItemDir); (session_json, ItemFile (Stored s))]).

(** Two sessions, both alive; the first owns the topic [general]. *)
Definition two_sessions : state :=
  let s1 := demo_session "001" (Some "general") in
  let s2 := demo_session "002" None in
  ({| base_dir := "/srv/sessions"; tmux_prefix := "claude_";
      sessions := [("001", s1); ("002", s2)];
      topic_sessions := [("general", "001")];
      global_active_session := Some "001" |},
   {| store := [demo_dir s1; demo_dir s2];
      tmux := [("claude_001", "/srv/sessions/001");
               ("claude_002", "/srv/sessions/002")];
      faults := []; clock := 5 |}).

(** A store with one session and no tmux session left, as after a reboot;
    [refusing] says whether the server refuses the next creation. *)
Definition after_reboot (refusing : bool) : World :=
  {| store := [demo_dir (demo_session "001" (Some "general"))];
     tmux := [];
     faults := if refusing then [true] else [];
     clock := 0 |}.

(** A new installation: no session stored, none alive. *)
Definition fresh_registry : Registry := empty_registry "/srv/sessions" "claude_".

Definition fresh_world (refusing : bool) : World :=
  {| store := []; tmux := []; faults := if refusing then [true] else [];
     clock := 0 |}.

End Scenarios.


(* ================================================================== *)
(** * session_manager.py: the other methods *)
(* ================================================================== *)

Module SessionOps.

Import SessionManager.
Local Open Scope sm_scope.

Definition with_context_files (files : list string) (s : Session) : Session :=
  {| id := id s; name := name s; working_dir := working_dir s;
     tmux_session := tmux_session s;
     claude_code_active := claude_code_active s;
     created_at := created_at s; last_active := last_active s;
     context_files := files; environment := environment s;
     topic := topic s; status := status s |}.

Definition with_working_dir (dir : string) (s : Session) : Session :=
  {| id := id s; name := name s; working_dir := dir;
     tmux_session := tmux_session s;
     claude_code_active := claude_code_active s;
     created_at := created_at s; last_active := last_active s;
     context_files := context_files s; environment := environment s;
     topic := topic s; status := status s |}.

Definition with_claude_code_active (active : bool) (s : Session) : Session :=
  {| id := id s; name := name s; working_dir := working_dir s;
     tmux_session := tmux_session s;
     claude_code_active := active;
     created_at := created_at s; last_active := last_active s;
     context_files := context_files s; environment := environment s;
     topic := topic s; status := status s |}.

(** [add_context_file]: [context_files] is the list object of the record,
    so the [append] changes the record where it is registered. *)
Definition add_context_file (session_id filename : string) : M bool :=
  r <- registry ;;
  match Dict.get session_id (sessions r) with
  | None => ret false
  | Some s =>
      (if negb (Py.mem filename (context_files s)) then
         update_registry
           (set_sessions
              (Dict.set session_id
                 (with_context_files (context_files s ++ [filename]) s)
                 (sessions r))) ;;;
         save_session session_id
       else ret tt) ;;;
      ret true
  end.

(** [tmux send-keys -t name ...]: the command exits with 0 when the session
    is there; what the keys do inside the session is not part of the
    world. *)
Definition tmux_send_keys (tmux_name : string) : M bool :=
  w <- world ;; ret (is_live tmux_name w).

Section FileSystem.

(** [os.path.expanduser] and [os.path.exists] look at the file system at
    large and at the environment of the process. *)
Variable expanduser : string -> string.
Variable path_exists : string -> bool.

Definition set_working_directory (session_id working_dir : string) : M bool :=
  r <- registry ;;
  match Dict.get session_id (sessions r) with
  | None => ret false
  | Some s =>
      let working_dir := expanduser working_dir in
      if negb (path_exists working_dir) then ret false
      else
        update_registry
          (set_sessions
             (Dict.set session_id (with_working_dir working_dir s) (sessions r))) ;;;
        tmux_send_keys (tmux_session s) ;;;
        save_session session_id ;;;
        ret true
  end.

End FileSystem.

(** [get_session_dir]. *)
Definition get_session_dir (session_id : string) (r : Registry) : string :=
  path_join (base_dir r) session_id.

End SessionOps.

(* ================================================================== *)
(** * terminal_bridge.py: the calls to tmux and the assistant *)
(* ================================================================== *)

Module Bridge.

Import SessionManager SessionOps TerminalBridge.
Local Open Scope string_scope.

(** ** [send_to_claude_code], lines 115-149: from the captured pane to the
    reply *)

(** The box-drawing character of line 135, as the bytes of its UTF-8
    form. *)
Definition border : string := "│".

(** One turn of the loop of lines 122-136, on the pair
    [(found_command, output_lines)]. *)
Definition claude_scan_line (message : string) (st : bool * list string)
    (raw : string) : bool * list string :=
  let '(found_command, output_lines) := st in
  let line := Py.strip raw in
  if negb (nonempty line) then st
  else if Py.contains (Py.lower line) (Py.lower message) then (true, output_lines)
  else if found_command then
    if negb (Py.endswith line "$") && negb (Py.startswith line border)
    then (found_command, (output_lines ++ [line])%list)
    else st
  else st.

Definition claude_scan_lines (message : string) (lines : list string)
  : bool * list string :=
  fold_left (claude_scan_line message) lines (false, []).

(** The loop of lines 141-146 over [reversed(lines[-20:])]. *)
Fixpoint collect_recent (todo meaningful_lines : list string) : list string :=
  match todo with
  | [] => meaningful_lines
  | raw :: todo' =>
      let line := Py.strip raw in
      if nonempty line && negb (Py.endswith line "$")
      then
        let meaningful_lines' := (meaningful_lines ++ [line])%list in
        if Nat.leb 10 (List.length meaningful_lines') then meaningful_lines'
        else collect_recent todo' meaningful_lines'
      else collect_recent todo' meaningful_lines
  end.

Definition claude_with_fallback (lines output_lines : list string) : list string :=
  match output_lines with
  | [] => rev (collect_recent (rev (Py.slice_last 20 lines)) [])
  | _ => output_lines
  end.

Definition claude_render (message : string) (output_lines : list string) : string :=
  match output_lines with
  | [] => "Command '" ++ message ++ "' sent to Claude Code"
  | _ => Py.join (String Py.newline EmptyString) output_lines
  end.

Definition claude_scrape_lines (message : string) (lines : list string) : string :=
  let output_lines := snd (claude_scan_lines message lines) in
  claude_render message (claude_with_fallback lines output_lines).

Definition claude_scrape (message stdout : string) : string :=
  claude_scrape_lines message (Py.splitlines_n (Py.strip stdout)).

(** ** What lies outside

    [pane_text name n] is what [tmux capture-pane -t name -S -n -p] prints
    when it is called; [on_path exe] says whether [which exe] finds the
    program; [path_exists] is [Path.exists]; [str_exn] is the text of an
    exception.  What the keys do once they are typed into a pane is not
    part of the state: it shows in [pane_text] only. *)
Record Outside : Type := {
  pane_text : string -> nat -> string;
  on_path : string -> bool;
  path_exists : string -> bool;
  str_exn : exn -> string
}.

(** ** Computations that call tmux

    The calls are kept, in order, beside the outcome and the state. *)
Inductive call : Type :=
| SendKeys (target : string) (keys : list string)
| CapturePane (target : string) (start : nat)
| HasSession (target : string)
| Which (executable : string).

Definition B (A : Type) : Type := state -> (outcome A * state) * list call.

Definition bret {A} (a : A) : B A := fun st => ((Ok a, st), []).
Definition braise {A} (e : exn) : B A := fun st => ((Raise e, st), []).
Definition bbind {A C} (m : B A) (f : A -> B C) : B C :=
  fun st =>
    match m st with
    | ((Ok a, st'), calls) =>
        let '(res, calls') := f a st' in (res, (calls ++ calls')%list)
    | ((Raise e, st'), calls) => ((Raise e, st'), calls)
    end.
(** [try: m except Exception as e: h e]. *)
Definition btry {A} (m : B A) (h : exn -> B A) : B A :=
  fun st =>
    match m st with
    | ((Ok a, st'), calls) => ((Ok a, st'), calls)
    | ((Raise e, st'), calls) =>
        let '(res, calls') := h e st' in (res, (calls ++ calls')%list)
    end.

Declare Scope bridge_scope.
Delimit Scope bridge_scope with bridge.
Notation "x <- m ;; k" := (bbind m (fun x => k))
  (at level 61, m at next level, right associativity) : bridge_scope.
Notation "m ;;; k" := (bbind m (fun _ => k))
  (at level 61, right associativity) : bridge_scope.
Local Open Scope bridge_scope.

(** [subprocess.run(["tmux", "send-keys", "-t", target, ...], check=...)]:
    tmux exits with 0 when the session is there. *)
Definition send_keys_to (check : bool) (target : string) (keys : list string)
  : B unit :=
  fun st =>
    (if is_live target (snd st) || negb check
     then (Ok tt, st) else (Raise CalledProcessError, st),
     [SendKeys target keys]).

(** [tmux capture-pane -t target -S -start -p], with [check=True]. *)
Definition capture_pane (out : Outside) (target : string) (start : nat) : B string :=
  fun st =>
    (if is_live target (snd st)
     then (Ok (pane_text out target start), st)
     else (Raise CalledProcessError, st),
     [CapturePane target start]).

(** [tmux has-session -t target], with [check=True]. *)
Definition has_session (target : string) : B unit :=
  fun st =>
    (if is_live target (snd st) then (Ok tt, st)
     else (Raise CalledProcessError, st),
     [HasSession target]).

(** [subprocess.run(["which", executable])]: whether the return code is 0. *)
Definition which (out : Outside) (executable : string) : B bool :=
  fun st => ((Ok (on_path out executable), st), [Which executable]).

(** [session["claude_code_active"] = active].  The dict that a caller
    holds is the dict that the registry holds under its id: the change is
    a change of that record. *)
Definition set_claude_code_active (session : Session) (active : bool) : B unit :=
  fun st =>
    ((Ok tt,
      (match Dict.get (id session) (sessions (fst st)) with
       | Some s =>
           set_sessions
             (Dict.set (id session) (with_claude_code_active active s)
                (sessions (fst st))) (fst st)
       | None => fst st
       end, snd st)), []).

(** ** The methods *)

Definition send_to_claude_code (out : Outside) (message : string)
    (session : Session) : B string :=
  btry
    (let tmux_name := tmux_session session in
     send_keys_to true tmux_name [message; "Enter"] ;;;
     stdout <- capture_pane out tmux_name 30 ;;
     bret (claude_scrape message stdout))
    (fun e => bret ("Claude Code communication error: " ++ str_exn out e)).

Definition execute_command (out : Outside) (security_config : SecurityConfig)
    (command : string) (session : Session) : B string :=
  btry
    (match is_command_allowed security_config command with
     | Raise e => braise e
     | Ok false => bret ("Command blocked for security: " ++ command)
     | Ok true =>
         let tmux_name := tmux_session session in
         if claude_code_active session && negb (Py.startswith command "/")
         then send_to_claude_code out command session
         else
           send_keys_to false tmux_name ["C-c"] ;;;
           send_keys_to true tmux_name [command; "Enter"] ;;;
           stdout <- capture_pane out tmux_name 10 ;;
           bret (scrape command stdout)
     end)
    (fun e =>
       match e with
       | CalledProcessError =>
           bret ("Command execution failed: " ++ str_exn out e)
       | _ => bret ("Error: " ++ str_exn out e)
       end).

(** [self.claude_config]: the keys that the bridge reads. *)
Record ClaudeConfig : Type := {
  executable : option string;
  auto_context : option bool;
  project_files : option (list string)
}.

(** [Path(working_dir) / filename], as a string: an absolute [filename]
    replaces the directory. *)
Definition path_under (working_dir filename : string) : string :=
  if Py.startswith filename "/" then filename
  else path_join working_dir filename.

(** The loop of [load_project_context]. *)
Fixpoint load_files (out : Outside) (session : Session) (files : list string)
  : B unit :=
  match files with
  | [] => bret tt
  | filename :: files' =>
      let file_path := path_under (working_dir session) filename in
      (if path_exists out file_path
       then send_to_claude_code out ("@" ++ file_path) session ;;; bret tt
       else bret tt) ;;;
      load_files out session files'
  end.

Definition load_project_context (out : Outside) (cfg : ClaudeConfig)
    (session : Session) : B unit :=
  btry
    (load_files out session
       (match project_files cfg with Some l => l | None => [] end))
    (fun _ => bret tt).

Definition start_claude_code (out : Outside) (cfg : ClaudeConfig)
    (session : Session) : B string :=
  btry
    (let tmux_name := tmux_session session in
     let working_dir := working_dir session in
     let executable := match executable cfg with
                       | Some e => e
                       | None => "claude_code"
                       end in
     found <- which out executable ;;
     if negb found then
       bret ("❌ Claude Code not found. Please install it first:" ++ ClaudeBot.nl
             ++ "Visit: https://claude.ai/claude-code for installation instructions"
             ++ ClaudeBot.nl
             ++ "Or update config.yaml with correct executable path")
     else
       send_keys_to true tmux_name
         [("cd " ++ working_dir ++ " && " ++ executable)%string; "Enter"] ;;;
       send_keys_to true tmux_name ["Enter"] ;;;
       capture_pane out tmux_name 5 ;;;
       set_claude_code_active session true ;;;
       (if match auto_context cfg with Some b => b | None => false end
        then load_project_context out cfg session
        else bret tt) ;;;
       bret ("✅ Claude Code started successfully in session " ++ id session
             ++ ClaudeBot.nl ++ "📁 Working directory: " ++ working_dir
             ++ ClaudeBot.nl ++ "🤖 Ready for AI-assisted development!"))
    (fun e =>
       bret ("❌ Failed to start Claude Code: " ++ str_exn out e ++ ClaudeBot.nl
             ++ "💡 Try: 'which claude_code' to check if it's installed")).

Definition stop_claude_code (out : Outside) (session : Session) : B string :=
  btry
    (let tmux_name := tmux_session session in
     send_keys_to true tmux_name ["exit"; "Enter"] ;;;
     send_keys_to true tmux_name ["C-c"] ;;;
     set_claude_code_active session false ;;;
     bret "Claude Code stopped")
    (fun e => bret ("Error stopping Claude Code: " ++ str_exn out e)).

Definition get_claude_code_status (session : Session) : B string :=
  if negb (claude_code_active session) then bret "Claude Code is not active"
  else
    btry
      (let tmux_name := tmux_session session in
       has_session tmux_name ;;;
       bret "Claude Code is active")
      (fun _ =>
         set_claude_code_active session false ;;;
         bret "Claude Code session appears to be dead").

Definition get_session_history (out : Outside) (session : Session) (lines : nat)
  : B string :=
  btry
    (let tmux_name := tmux_session session in
     stdout <- capture_pane out tmux_name lines ;;
     bret (Py.strip stdout))
    (fun e => bret ("Failed to get history: " ++ str_exn out e)).

Definition send_keys (out : Outside) (session : Session) (keys : string) : B string :=
  btry
    (let tmux_name := tmux_session session in
     send_keys_to true tmux_name [keys] ;;;
     bret "Keys sent successfully")
    (fun e => bret ("Failed to send keys: " ++ str_exn out e)).

End Bridge.

(* ================================================================== *)
(** * claude_bot.py: [handle_message] and [handle_terminal_input] *)
(* ================================================================== *)

Module Bot.

Import SessionManager SessionOps TerminalBridge Bridge Aliases ClaudeBot.
Local Open Scope string_scope.

(** What the bot is configured with: its own address on Zulip, the
    security section, the section on the assistant, and the
    [os.path.expanduser] of the process. *)
Record Config : Type := {
  zulip_email : string;
  security : SecurityConfig;
  claude_code : ClaudeConfig;
  expanduser : string -> string
}.

(** An inbound message: a key that the code reads with [get] is [None]
    when it is absent. *)
Record Message : Type := {
  msg_id : option nat;
  content : string;
  sender_email : string;
  msg_type : option string;
  subject : option string;
  display_recipient : option string
}.

(** What the bot sends to Zulip. *)
Inductive outbound : Type :=
| SendStream (stream topic content : string)
| SendPrivate (recipient content : string).

Record BotState : Type := {
  core : state;
  processed_messages : list (option nat)
}.

(** [re.sub(r'<[^>]+>', '', text)]: each match, from the left, is taken
    out.  [left] bounds the number of steps by the length of the text. *)
Definition not_gt (c : ascii) : bool := negb (Ascii.eqb c ">").

Definition re_tag : Re.regex :=
  Re.Seq (Re.Lit "<") (Re.Seq (Re.Plus not_gt) (Re.Lit ">")).

Fixpoint strip_tags_from (left : nat) (text : string) : string :=
  match left with
  | 0 => text
  | S left' =>
      match Re.run re_tag text None (fun rest _ => Some (Some rest)) with
      | Some (Some rest) => strip_tags_from left' rest
      | _ =>
          match text with
          | EmptyString => EmptyString
          | String c text' => String c (strip_tags_from left' text')
          end
      end
  end.

Definition strip_tags (text : string) : string :=
  strip_tags_from (String.length text) text.

Definition or_default (x : option string) (default : string) : string :=
  match x with
  | Some v => v
  | None => default
  end.

Fixpoint id_in (i : option nat) (l : list (option nat)) : bool :=
  match l with
  | [] => false
  | j :: l' =>
      match i, j with
      | Some a, Some b => Nat.eqb a b
      | None, None => true
      | _, _ => false
      end || id_in i l'
  end.

(** The text of a [reply]: the handler of [handle_command] formats the
    exception with [str]. *)
Definition reply_text (out : Outside) (r : reply) : string :=
  match r with
  | Say text => text
  | CommandFailed e => "Command failed: " ++ str_exn out e
  end.

Section Handlers.

Variable cfg : Config.
Variable out : Outside.

(** [handle_command] with the two operations it was given as parameters:
    [set_working_directory] of the registry and [start_claude_code] of the
    bridge. *)
Definition handle_command (command topic sender : string) (st : state)
  : string * state :=
  let '(r, st') :=
    ClaudeBot.handle_command
      (set_working_directory (expanduser cfg) (path_exists out))
      (fun session st0 => fst (start_claude_code out (claude_code cfg) session st0))
      command topic sender st in
  (reply_text out r, st').

Definition fence : string := "```".

Definition handle_terminal_input (content topic sender : string) (st : state)
  : string * state :=
  match get_current_session topic (fst st) with
  | None => ("No active session. Use /new-session to create one.", st)
  | Some current_session =>
      match fst (execute_command out (security cfg) content current_session st) with
      | (Ok result, st') =>
          (if nonempty result
           then fence ++ nl ++ result ++ nl ++ fence
           else "Command executed (no output)", st')
      | (Raise e, st') => ("Execution failed: " ++ str_exn out e, st')
      end
  end.

Definition handle_message (message : Message) (bot : BotState)
  : BotState * list outbound :=
  let message_id := msg_id message in
  if id_in message_id (processed_messages bot) then (bot, [])
  else
    let seen := message_id :: processed_messages bot in
    let content := Py.strip (content message) in
    let content := Py.strip (strip_tags content) in
    let sender := sender_email message in
    let message_type := or_default (msg_type message) "stream" in
    let is_private := String.eqb message_type "private" in
    let topic :=
      if is_private
      then "pm-" ++ match Py.split_on "@" sender with
                    | first :: _ => first
                    | [] => EmptyString
                    end
      else or_default (subject message) "general" in
    let stream := or_default (display_recipient message) "general" in
    if String.eqb sender (zulip_email cfg)
    then ({| core := core bot; processed_messages := seen |}, [])
    else
      let '(response, st') :=
        if Py.startswith content "/" then handle_command content topic sender (core bot)
        else if is_natural_command content
        then handle_command (convert_natural_command content) topic sender (core bot)
        else handle_terminal_input content topic sender (core bot) in
      ({| core := st'; processed_messages := seen |},
       if nonempty response
       then [if is_private then SendPrivate sender response
             else SendStream stream topic response]
       else []).

End Handlers.

End Bot.

(* ================================================================== *)
(** * Notions on the store and the registry *)
(* ================================================================== *)

Module Stored.

Import SessionManager.

(** The session records that [load_sessions] can read, in the order of the
    entries of the store. *)
Fixpoint readable (entries : Dict.t entry) : list Session :=
  match entries with
  | [] => []
  | (_, EntryDir items) :: entries' =>
      match Dict.get session_json items with
      | Some (ItemFile (Stored s)) => s :: readable entries'
      | _ => readable entries'
      end
  | (_, EntryFile) :: entries' => readable entries'
  end.

(** What reading the record [s] does to the registry. *)
Definition loaded (s : Session) (r : Registry) : Registry :=
  let r1 := set_sessions (Dict.set (id s) s (sessions r)) r in
  let r2 := match topic s with
            | Some (String c t) =>
                set_topic_sessions (Dict.set (String c t) (id s) (topic_sessions r1)) r1
            | _ => r1
            end in
  if negb (truthy (global_active_session r2))
  then set_global_active (Some (id s)) r2
  else r2.

(** The record [s] is what [session.json] holds in the directory [sid]. *)
Definition persisted (sid : string) (s : Session) (w : World) : Prop :=
  exists items,
    Dict.get sid (store w) = Some (EntryDir items)
    /\ Dict.get session_json items = Some (ItemFile (Stored s)).

(** The store as the registry writes it: no two entries of one name, and
    every record in the directory named by its id. *)
Definition consistent (entries : Dict.t entry) : Prop :=
  NoDup (Dict.keys entries)
  /\ forall dir_name items s,
       In (dir_name, EntryDir items) entries ->
       Dict.get session_json items = Some (ItemFile (Stored s)) ->
       id s = dir_name.

(** The last record of the list that satisfies [p]. *)
Fixpoint last_such (p : Session -> bool) (l : list Session) : option Session :=
  match l with
  | [] => None
  | s :: l' =>
      match last_such p l' with
      | Some s' => Some s'
      | None => if p s then Some s else None
      end
  end.

Definition has_id (sid : string) (s : Session) : bool := String.eqb (id s) sid.

Definition has_topic (t : string) (s : Session) : bool :=
  match topic s with
  | Some t' => String.eqb t' t
  | None => false
  end.

(** [create_session] can use the directory of the id: nothing of that name
    is in the store, or a directory in which [context] is not a file and
    [session.json] is not a directory. *)
Definition dir_usable (sid : string) (w : World) : bool :=
  match Dict.get sid (store w) with
  | None => true
  | Some EntryFile => false
  | Some (EntryDir items) =>
      match Dict.get "context" items with
      | Some (ItemFile _) => false
      | _ => match Dict.get session_json items with
             | Some ItemDir => false
             | _ => true
             end
      end
  end.

(** A registry with a session under each of the ids 001 to 999. *)
Definition full_registry : Registry :=
  {| base_dir := "/srv/sessions"; tmux_prefix := "claude_";
     sessions := map (fun i => (Py.fmt_03d i,
                                Scenarios.demo_session (Py.fmt_03d i) None))
                   (seq 1 999);
     topic_sessions := []; global_active_session := None |}.

End Stored.

(* ================================================================== *)
(** * Notions on captured lines *)
(* ================================================================== *)

Module Lines.

(** The lines that the loops of the scrapers look at: stripped, the blank
    ones left out. *)
Definition clean (lines : list string) : list string :=
  filter TerminalBridge.nonempty (map Py.strip lines).

(** What follows the first element that satisfies [p]; [None] when there
    is no such element. *)
Fixpoint after_first (p : string -> bool) (l : list string) : option (list string) :=
  match l with
  | [] => None
  | x :: l' => if p x then Some l' else after_first p l'
  end.

Definition is_command (command line : string) : bool := String.eqb line command.

(** A line that the fallback of shell mode keeps. *)
Definition meaningful (command line : string) : bool :=
  negb (String.eqb line command) && negb (Py.endswith line "$").

(** A line that names the message, in any case of letters. *)
Definition names (message line : string) : bool :=
  Py.contains (Py.lower line) (Py.lower message).

(** A line that assistant mode keeps after the anchor. *)
Definition is_answer (message line : string) : bool :=
  negb (names message line)
  && negb (Py.endswith line "$") && negb (Py.startswith line Bridge.border).

Definition no_dollar (line : string) : bool := negb (Py.endswith line "$").

End Lines.

(** ** A machine to run the bridge on *)

Module Stage.

Import Bridge.
Local Open Scope string_scope.

(** Every pane shows [pane]; [claude_code] is the one program on the path;
    no project file exists. *)
Definition outside (pane : string) : Outside :=
  {| pane_text := fun _ _ => pane;
     on_path := fun exe => String.eqb exe "claude_code";
     path_exists := fun _ => false;
     str_exn := fun e =>
       match e with
       | CalledProcessError => "Command returned non-zero exit status 1."
       | _ => "error"
       end |}.

(** The first session of [two_sessions] with the flag of the assistant
    set, and a state where its tmux session is gone. *)
Definition flagged : SessionManager.Session :=
  SessionOps.with_claude_code_active true
    (Scenarios.demo_session "001" (Some "general")).

Definition stale : SessionManager.state :=
  (SessionManager.set_sessions
     [("001", flagged); ("002", Scenarios.demo_session "002" None)]
     (fst Scenarios.two_sessions),
   Scenarios.after_reboot false).

(** The configured bot of the scenarios. *)
Definition claude_config (auto : bool) : ClaudeConfig :=
  {| executable := None; auto_context := Some auto;
     project_files := Some ["README.md"; "CLAUDE.md"] |}.

Definition bot_config : Bot.Config :=
  {| Bot.zulip_email := "bot@example.com";
     Bot.security := Scenarios.rm_rf_config;
     Bot.claude_code := claude_config true;
     Bot.expanduser := fun p => p |}.

Definition stream_message (i : nat) (text : string) : Bot.Message :=
  {| Bot.msg_id := Some i; Bot.content := text;
     Bot.sender_email := "ann@example.com";
     Bot.msg_type := Some "stream"; Bot.subject := Some "general";
     Bot.display_recipient := Some "ops" |}.

Definition private_message (i : nat) (text : string) : Bot.Message :=
  {| Bot.msg_id := Some i; Bot.content := text;
     Bot.sender_email := "ann@example.com";
     Bot.msg_type := Some "private"; Bot.subject := None;
     Bot.display_recipient := None |}.

End Stage.

(* ================================================================== *)
(** * Python strings: examples and lemmas *)
(* ================================================================== *)

Example strip_ex : Py.strip "  user@host:~$   " = "user@host:~$".
Proof. reflexivity. Qed.

Example split_ex : Py.split "  rm   -rf /tmp " = ["rm"; "-rf"; "/tmp"].
Proof. reflexivity. Qed.

Example split_blank_ex : Py.split "   " = [].
Proof. reflexivity. Qed.

Example split_on_ex : Py.splitlines_n "a

b" = ["a"; EmptyString; "b"].
Proof. reflexivity. Qed.

Example fmt_ex :
  Py.fmt_03d 7 = "007" /\ Py.fmt_03d 42 = "042" /\ Py.fmt_03d 999 = "999".
Proof. repeat split; reflexivity. Qed.

Example endswith_ex :
  Py.endswith "user@host:~$" "$" = true /\ Py.endswith "hi" "$" = false.
Proof. split; reflexivity. Qed.

Section PyFacts.

Import Notions.

Lemma startswith_iff (s p : string) :
  Py.startswith s p = true <-> exists rest, s = (p ++ rest)%string.
Proof.
  revert s; induction p as [|a p IH]; intros s; simpl.
  - destruct s; split; intros; try reflexivity; eexists; reflexivity.
  - destruct s as [|b s].
    + split; [discriminate | intros [rest H]; discriminate].
    + simpl. rewrite andb_true_iff, Ascii.eqb_eq, IH. split.
      * intros [-> [rest ->]]. now exists rest.
      * intros [rest H]. injection H as -> ->. split; [reflexivity | now exists rest].
Qed.

(** [p in s] is the substring relation. *)
Lemma contains_iff (s p : string) :
  Py.contains s p = true <-> occurs_in p s.
Proof.
  unfold occurs_in. induction s as [|c s IH].
  - cbn [Py.contains]. rewrite orb_false_r, startswith_iff. split.
    + intros [rest H]. exists EmptyString, rest. exact H.
    + intros [[|b before] [after H]].
      * now exists after.
      * discriminate.
  - cbn [Py.contains]. rewrite orb_true_iff, startswith_iff, IH. split.
    + intros [[rest H] | [before [after H]]].
      * exists EmptyString, rest. exact H.
      * exists (String c before), after. simpl. now rewrite H.
    + intros [[|b before] [after H]].
      * left. now exists after.
      * right. simpl in H. injection H as -> ->. now exists before, after.
Qed.

Lemma mem_iff (x : string) (l : list string) :
  Py.mem x l = true <-> In x l.
Proof.
  induction l as [|y l IH]; simpl.
  - split; [discriminate | contradiction].
  - rewrite orb_true_iff, String.eqb_eq, IH. reflexivity.
Qed.

Lemma split_all_space (s : string) :
  all_space s = true -> Py.split s = [].
Proof.
  unfold Py.split. induction s as [|c s IH]; simpl; [reflexivity|].
  intros H. apply andb_true_iff in H as [Hc Hs]. rewrite Hc. simpl. auto.
Qed.

End PyFacts.

(* ================================================================== *)
(** * The output scraper *)
(* ================================================================== *)

Section Scraper.

Import TerminalBridge Scenarios.

Example scrape_alone_ex :
  scrape_lines "echo hi" ["user@host:~$"; "echo hi"; "hi"] = "hi".
Proof. reflexivity. Qed.

Example scrape_trailing_prompt_ex :
  scrape_lines "echo hi" ["echo hi"; "hi"; "user@host:~$"] = "hi
user@host:~$".
Proof. reflexivity. Qed.

(** A line is kept by the scan only once a line equal to the command has
    been seen. *)
Lemma scan_line_not_found (command : string) (raw : string) :
  Py.strip raw <> command ->
  scan_line command (false, []) raw = (false, []).
Proof.
  intros Hne. unfold scan_line.
  destruct (nonempty (Py.strip raw)); simpl; [|reflexivity].
  destruct (String.eqb_spec (Py.strip raw) command) as [E|_]; [contradiction|].
  destruct (Py.has_char "$" (Py.strip raw) || Py.has_char ">" (Py.strip raw));
    reflexivity.
Qed.

Lemma scan_lines_not_found (command : string) (lines : list string) :
  (forall raw, In raw lines -> Py.strip raw <> command) ->
  scan_lines command lines = (false, []).
Proof.
  unfold scan_lines. induction lines as [|raw lines IH]; intros H; cbn [fold_left].
  - reflexivity.
  - rewrite scan_line_not_found by (apply H; now left).
    apply IH. intros r Hr. apply H. now right.
Qed.

(** C1.  On the pane of the scenario [execute_command] does not reply
    with the text hi.  No line of the pane is equal to the command: the
    echoed line carries the prompt, so the test [line == command] never
    finds it, [command_found] stays false, the scan keeps nothing, and the
    fallback, whose own filter [line != command] misses the echoed line
    the same way, replies with the echoed line and the output.  The same
    holds from the raw text of the pane.  The scan does what its comments
    say only when the command stands alone on its line.  The scraper of
    [send_to_claude_code], which looks for the message inside the line,
    replies with hi on this pane. *)
Theorem C1_scrape_keeps_the_echo :
  scrape_lines "echo hi" echo_hi_pane <> "hi"
  /\ scan_lines "echo hi" echo_hi_pane = (false, [])
  /\ scrape_lines "echo hi" echo_hi_pane = "user@host:~$ echo hi
hi"
  /\ scrape "echo hi" "user@host:~$ echo hi
hi
user@host:~$ 
" = "user@host:~$ echo hi
hi"
  /\ scrape_lines "echo hi" ["user@host:~$"; "echo hi"; "hi"] = "hi"
  /\ Bridge.claude_scrape_lines "echo hi" echo_hi_pane = "hi".
Proof.
  split; [vm_compute; discriminate|]. repeat split; reflexivity.
Qed.

Lemma length_slice_last {A} (n : nat) (l : list A) :
  n <= List.length l -> List.length (Py.slice_last n l) = n.
Proof.
  intros H. unfold Py.slice_last. rewrite length_skipn. lia.
Qed.

Lemma render_nonempty (command : string) (x : string) (l : list string) :
  render command (x :: l) = Py.join (String Py.newline EmptyString) (x :: l).
Proof. reflexivity. Qed.

(** C8.  More than 15 lines: the reply is made of the first 10 lines, one
    marker line and the last 3 lines, 14 lines in all, joined by line
    feeds.  At most 15 lines: the list is left as it is, and the reply is
    its lines joined by line feeds (when there is a line at all). *)
Theorem C8_limit_output (command : string) (output_lines : list string) :
  (15 < List.length output_lines ->
     limit_output output_lines
       = firstn 10 output_lines ++ [truncation_marker]
         ++ skipn (List.length output_lines - 3) output_lines
     /\ List.length (firstn 10 output_lines) = 10
     /\ List.length (skipn (List.length output_lines - 3) output_lines) = 3
     /\ List.length (limit_output output_lines) = 14
     /\ render command (limit_output output_lines)
        = Py.join (String Py.newline EmptyString)
            (firstn 10 output_lines ++ [truncation_marker]
             ++ skipn (List.length output_lines - 3) output_lines))
  /\ (List.length output_lines <= 15 ->
      limit_output output_lines = output_lines
      /\ (output_lines <> [] ->
          render command (limit_output output_lines)
          = Py.join (String Py.newline EmptyString) output_lines)).
Proof.
  unfold limit_output, Py.slice_to, Py.slice_last. split.
  - intros Hlen.
    destruct (Nat.ltb_spec 15 (List.length output_lines)) as [_|Hle]; [|lia].
    assert (H10 : List.length (firstn 10 output_lines) = 10)
      by (rewrite length_firstn; lia).
    assert (H3 : List.length (skipn (List.length output_lines - 3) output_lines) = 3)
      by (rewrite length_skipn; lia).
    repeat split; try assumption.
    + rewrite !length_app, H10, H3. reflexivity.
    + destruct (firstn 10 output_lines) as [|x l] eqn:E; [discriminate|].
      reflexivity.
  - intros Hlen.
    destruct (Nat.ltb_spec 15 (List.length output_lines)) as [Hlt|_]; [lia|].
    split; [reflexivity|]. intros Hne.
    destruct output_lines; [contradiction | reflexivity].
Qed.

Lemma C8_limit_output_witness :
  limit_output twenty_lines
  = ["l01"; "l02"; "l03"; "l04"; "l05"; "l06"; "l07"; "l08"; "l09"; "l10";
     truncation_marker; "l18"; "l19"; "l20"]
  /\ limit_output ["a"; "b"] = ["a"; "b"].
Proof.
  split.
  - apply (proj1 (C8_limit_output "seq 20" twenty_lines)). simpl. lia.
  - apply (proj1 (proj2 (C8_limit_output "ls" ["a"; "b"]) ltac:(simpl; lia))).
Defined.

(** The scenario of the specification: the command on its own line, then
    20 lines of output. *)
Example scrape_twenty_ex :
  scrape_lines "seq 20" ("user@host:~$" :: "seq 20" :: twenty_lines)
  = Py.join (String Py.newline EmptyString)
      ["l01"; "l02"; "l03"; "l04"; "l05"; "l06"; "l07"; "l08"; "l09"; "l10";
       truncation_marker; "l18"; "l19"; "l20"].
Proof. reflexivity. Qed.

End Scraper.

(* ================================================================== *)
(** * The security gate *)
(* ================================================================== *)

Section Gate.

Import TerminalBridge Notions Scenarios.

Lemma hits_blocked_iff (blocked : list string) (command : string) :
  hits_blocked blocked command = true
  <-> exists entry, In entry blocked /\ occurs_in entry command.
Proof.
  induction blocked as [|b blocked IH]; simpl.
  - split; [discriminate | intros [e [[] _]]].
  - destruct (Py.contains command b) eqn:E.
    + split; [|reflexivity]. intros _. exists b. split; [now left|].
      now apply contains_iff.
    + rewrite IH. split.
      * intros [e [Hin Ho]]. exists e. split; [now right | exact Ho].
      * intros [e [[<-|Hin] Ho]].
        -- apply contains_iff in Ho. congruence.
        -- now exists e.
Qed.

Lemma cmd_start_total (command : string) :
  cmd_start command = Ok (first_token_or_empty command).
Proof.
  unfold cmd_start, first_token_or_empty, first_token.
  destruct (Py.split command); reflexivity.
Qed.

(** The gate past the deny-list, under an allow-list that is not empty. *)
Lemma allowed_by_start (cfg : SecurityConfig) (command : string) :
  hits_blocked (get_list (blocked_commands cfg)) command = false ->
  get_list (allowed_commands cfg) <> [] ->
  is_command_allowed cfg command
  = Ok (Py.mem (first_token_or_empty command) (get_list (allowed_commands cfg))).
Proof.
  intros Hb Ha. unfold is_command_allowed.
  assert (Hne : config_is_empty cfg = false).
  { unfold config_is_empty. destruct (blocked_commands cfg); [reflexivity|].
    destruct (allowed_commands cfg); [reflexivity|]. now elim Ha. }
  rewrite Hne, Hb.
  destruct (get_list (allowed_commands cfg)) as [|a l] eqn:E; [now elim Ha|].
  rewrite cmd_start_total. cbn [bind_outcome].
  destruct (Py.mem (first_token_or_empty command) (a :: l)); reflexivity.
Qed.

(** C2, as stated, fails: a command of blanks has no first token, and the
    gate lets it pass when the empty string is on the allow-list. *)
Lemma C2_blank_command_passes :
  let cfg := only_allow [EmptyString; "ls"] in
  let command := "   " in
  hits_blocked (get_list (blocked_commands cfg)) command = false
  /\ get_list (allowed_commands cfg) <> []
  /\ ~ (is_command_allowed cfg command = Ok true
        <-> exists token, first_token command = Some token
                          /\ In token (get_list (allowed_commands cfg))).
Proof.
  simpl. repeat split; try discriminate.
  intros [H _]. destruct (H eq_refl) as [token [Ht _]]. discriminate.
Qed.

(** C2, amended.  For every command and every configuration the gate
    returns and does not raise.  A deny-list entry that occurs in the
    command makes it return false, whatever the allow-list.  Otherwise,
    under an allow-list that is not empty, it returns true exactly when the
    first token of the command, or the empty string when the command has no
    token, is on the allow-list.  With no deny-list entry in the command
    and no allow-list, or an empty one, the command passes; an empty
    configuration lets every command pass. *)
Theorem C2_is_command_allowed (cfg : SecurityConfig) (command : string) :
  (exists answer, is_command_allowed cfg command = Ok answer)
  /\ ((exists entry, In entry (get_list (blocked_commands cfg))
                     /\ occurs_in entry command) ->
      is_command_allowed cfg command = Ok false)
  /\ ((forall entry, In entry (get_list (blocked_commands cfg)) ->
                     ~ occurs_in entry command) ->
      get_list (allowed_commands cfg) <> [] ->
      (is_command_allowed cfg command = Ok true
       <-> In (first_token_or_empty command) (get_list (allowed_commands cfg))))
  /\ ((forall entry, In entry (get_list (blocked_commands cfg)) ->
                     ~ occurs_in entry command) ->
      get_list (allowed_commands cfg) = [] ->
      is_command_allowed cfg command = Ok true)
  /\ (config_is_empty cfg = true -> is_command_allowed cfg command = Ok true).
Proof.
  assert (Hclear : (forall entry, In entry (get_list (blocked_commands cfg)) ->
                                  ~ occurs_in entry command) ->
                   hits_blocked (get_list (blocked_commands cfg)) command = false).
  { intros Hno. destruct (hits_blocked _ command) eqn:E; [|reflexivity].
    apply hits_blocked_iff in E as [e [Hin Ho]]. now elim (Hno e). }
  split; [|split; [|split; [|split]]].
  - unfold is_command_allowed.
    destruct (config_is_empty cfg); [now eexists|].
    destruct (hits_blocked _ command); [now eexists|].
    destruct (get_list (allowed_commands cfg)); [now eexists|].
    rewrite cmd_start_total. cbn [bind_outcome]. destruct (negb _); now eexists.
  - intros Hdeny. apply hits_blocked_iff in Hdeny.
    unfold is_command_allowed. rewrite Hdeny.
    destruct (config_is_empty cfg) eqn:E; [|reflexivity].
    unfold config_is_empty in E.
    destruct (blocked_commands cfg); [discriminate|]. discriminate Hdeny.
  - intros Hno Ha. rewrite allowed_by_start by auto.
    rewrite <- mem_iff. split; [now intros [= ->] | now intros ->].
  - intros Hno Ha. unfold is_command_allowed. rewrite (Hclear Hno), Ha.
    now destruct (config_is_empty cfg).
  - intros E. unfold is_command_allowed. now rewrite E.
Qed.

Lemma C2_is_command_allowed_witness :
  is_command_allowed rm_rf_config "rm -rf /tmp" = Ok false
  /\ (is_command_allowed rm_rf_config "ls -l" = Ok true
      <-> In (first_token_or_empty "ls -l") ["rm"; "ls"])
  /\ is_command_allowed empty_config "rm -rf /tmp" = Ok true.
Proof.
  split; [|split].
  - apply (proj1 (proj2 (C2_is_command_allowed rm_rf_config "rm -rf /tmp"))).
    exists "rm -rf". split; [now left|]. exists EmptyString, " /tmp". reflexivity.
  - apply (proj1 (proj2 (proj2 (C2_is_command_allowed rm_rf_config "ls -l")))).
    + intros entry [<-|[]] Ho. apply contains_iff in Ho. discriminate Ho.
    + discriminate.
  - apply (proj2 (proj2 (proj2 (proj2
             (C2_is_command_allowed empty_config "rm -rf /tmp"))))).
    reflexivity.
Defined.

(** C10, as stated, fails: with the empty string on the allow-list the
    empty command is let through. *)
Lemma C10_empty_command_passes :
  let cfg := only_allow [EmptyString] in
  all_space EmptyString = true
  /\ get_list (allowed_commands cfg) <> []
  /\ hits_blocked (get_list (blocked_commands cfg)) EmptyString = false
  /\ is_command_allowed cfg EmptyString <> Ok false.
Proof. simpl. repeat split; discriminate. Qed.

(** C10, amended.  For a command of white space only (the empty command
    included), under an allow-list that is not empty and with no deny-list
    entry in the command, the gate does not raise: its answer is whether
    the empty string is on the allow-list, so false for every allow-list
    without the empty string. *)
Theorem C10_blank_command (cfg : SecurityConfig) (command : string) :
  all_space command = true ->
  get_list (allowed_commands cfg) <> [] ->
  hits_blocked (get_list (blocked_commands cfg)) command = false ->
  cmd_start command = Ok EmptyString
  /\ is_command_allowed cfg command
     = Ok (Py.mem EmptyString (get_list (allowed_commands cfg)))
  /\ (~ In EmptyString (get_list (allowed_commands cfg)) ->
      is_command_allowed cfg command = Ok false).
Proof.
  intros Hblank Ha Hb.
  assert (Hstart : first_token_or_empty command = EmptyString).
  { unfold first_token_or_empty, first_token.
    now rewrite (split_all_space command Hblank). }
  split; [|split].
  - now rewrite cmd_start_total, Hstart.
  - now rewrite allowed_by_start, Hstart.
  - intros Hnot. rewrite allowed_by_start, Hstart by assumption.
    destruct (Py.mem EmptyString _) eqn:E; [|reflexivity].
    apply mem_iff in E. contradiction.
Qed.

Lemma C10_blank_command_witness :
  is_command_allowed (only_allow ["ls"; "pwd"]) "  	 " = Ok false.
Proof.
  apply (proj2 (proj2 (C10_blank_command (only_allow ["ls"; "pwd"]) "  	 "
                         eq_refl ltac:(discriminate) eq_refl))).
  simpl. intros [H|[H|[]]]; discriminate.
Defined.

End Gate.

(* ================================================================== *)
(** * The session registry *)
(* ================================================================== *)

Section DictFacts.
Context {V : Type}.
Implicit Types (d : Dict.t V) (k : string) (v : V).

Lemma get_set_same k v d : Dict.get k (Dict.set k v d) = Some v.
Proof.
  induction d as [|[k' v'] d IH]; simpl.
  - now rewrite String.eqb_refl.
  - destruct (String.eqb_spec k' k) as [->|Hne]; simpl.
    + now rewrite String.eqb_refl.
    + destruct (String.eqb_spec k' k); [contradiction | exact IH].
Qed.

Lemma get_set_other k k' v d : k <> k' -> Dict.get k (Dict.set k' v d) = Dict.get k d.
Proof.
  intros Hne. induction d as [|[k0 v0] d IH]; simpl.
  - destruct (String.eqb_spec k' k); [congruence | reflexivity].
  - destruct (String.eqb_spec k0 k') as [->|Hne']; simpl.
    + destruct (String.eqb_spec k' k); [congruence | reflexivity].
    + destruct (String.eqb_spec k0 k); [reflexivity | exact IH].
Qed.

Lemma get_del_same k d : Dict.get k (Dict.del k d) = None.
Proof.
  induction d as [|[k' v'] d IH]; simpl; [reflexivity|].
  destruct (String.eqb_spec k' k) as [->|Hne]; simpl; [exact IH|].
  destruct (String.eqb_spec k' k); [contradiction | exact IH].
Qed.

Lemma get_del_other k k' d : k <> k' -> Dict.get k (Dict.del k' d) = Dict.get k d.
Proof.
  intros Hne. induction d as [|[k0 v0] d IH]; simpl; [reflexivity|].
  destruct (String.eqb_spec k0 k') as [->|Hne']; simpl.
  - destruct (String.eqb_spec k' k); [congruence | exact IH].
  - destruct (String.eqb_spec k0 k); [reflexivity | exact IH].
Qed.

Lemma del_absent k d : Dict.get k d = None -> Dict.del k d = d.
Proof.
  induction d as [|[k' v'] d IH]; simpl; [reflexivity|].
  destruct (String.eqb_spec k' k); [discriminate|]. intros H. now rewrite IH.
Qed.

Lemma set_nonempty k v d : exists i d', Dict.set k v d = i :: d'.
Proof.
  destruct d as [|[k' v'] d]; cbn; [now eexists _, _|].
  destruct (String.eqb k' k); now eexists _, _.
Qed.

End DictFacts.

(** One step through the store: a look-up after an update, a look-up that
    a hypothesis decides, or a case analysis on what is stored. *)
Ltac step_store :=
  match goal with
  | |- context [Dict.get ?k (Dict.set ?k ?v ?d)] => rewrite (get_set_same k v d)
  | H : Dict.get ?k ?d = _ |- context [Dict.get ?k ?d] => rewrite H
  | |- context [match Dict.get ?k ?d with _ => _ end] =>
      let E := fresh "E" in destruct (Dict.get k d) as [[|?]|] eqn:E
  end.

Section Registry.

Import SessionManager Notions Scenarios.

(** ** The ids that [generate_session_id] makes *)

Lemma str_of_nat_nonempty (n : nat) : Py.str_of_nat n <> EmptyString.
Proof.
  unfold Py.str_of_nat, NilZero.string_of_uint.
  destruct (Nat.to_uint n); cbn; discriminate.
Qed.

Lemma fmt_03d_nonempty (n : nat) : Py.fmt_03d n <> EmptyString.
Proof.
  unfold Py.fmt_03d. pose proof (str_of_nat_nonempty n) as H.
  destruct (Py.str_of_nat n) as [|a [|b [|c s]]]; cbn; try discriminate.
  contradiction.
Qed.

Lemma first_unused_nonempty (l : list string) (i n : nat) (sid : string) :
  first_unused l i n = Ok sid -> sid <> EmptyString.
Proof.
  revert i. induction n as [|n IH]; intros i; cbn; [discriminate|].
  destruct (negb (Py.mem (Py.fmt_03d i) l)); [|apply IH].
  intros [= <-]. apply fmt_03d_nonempty.
Qed.

(** The id that [create_session] returns is not the empty string. *)
Lemma create_session_id_nonempty (name : string) (topic : option string)
    (st : state) (sid : string) :
  fst (create_session name topic st) = Ok sid -> sid <> EmptyString.
Proof.
  destruct st as [r w]. unfold create_session, generate_session_id.
  unfold bind at 1. unfold bind at 1. cbn -[first_unused].
  destruct (first_unused (Dict.keys (sessions r)) 1 999) as [sid0|e] eqn:Hid;
    cbn -[first_unused]; [|discriminate].
  apply first_unused_nonempty in Hid.
  unfold bind, mkdir_entry, mkdir_item, write_session_json, entry_exists,
    rmdir_entry, Dict.mem, world. cbn.
  repeat (first
    [ step_store
    | match goal with
      | |- context [if existsb ?f ?l then _ else _] => destruct (existsb f l)
      | |- context [match faults w with _ => _ end] =>
          destruct (faults w) as [|[|] ?]
      | |- context [match Dict.set ?k ?v ?d with _ => _ end] =>
          let E := fresh "E" in
          destruct (set_nonempty k v d) as [? [? E]]; rewrite E
      end ]; cbn);
  try discriminate;
  destruct topic as [[|c t]|]; cbn; now intros [= <-].
Qed.

Lemma first_unused_raises (l : list string) (i n : nat) (e : exn) :
  first_unused l i n = Raise e -> e = TooManySessions.
Proof.
  revert i. induction n as [|n IH]; intros i; cbn.
  - now intros [= <-].
  - destruct (negb (Py.mem (Py.fmt_03d i) l)); [discriminate | apply IH].
Qed.


Lemma write_session_json_registry (base name : string) (data : Session)
    (r : Registry) (w : World) :
  fst (snd (write_session_json base name data (r, w))) = r.
Proof.
  unfold write_session_json, bind, world. cbn.
  destruct (Dict.get name (store w)) as [[|items]|]; cbn; try reflexivity.
  destruct (Dict.get session_json items) as [[|c]|]; reflexivity.
Qed.

Lemma with_last_active_twice (c c' : nat) (s : Session) :
  with_last_active c (with_last_active c' s) = with_last_active c s.
Proof. reflexivity. Qed.

(** The registry that [switch_session] leaves for a registered id: the
    topic and the global fallback point at the id, the record carries the
    reading of the clock.  Writing the record may raise; the registry is
    the same either way. *)
Definition switched (session_id topic : string) (s : Session) (c : nat)
    (r : Registry) : Registry :=
  set_sessions (Dict.set session_id (with_last_active c s) (sessions r))
    (set_global_active (Some session_id)
       (set_topic_sessions (Dict.set topic session_id (topic_sessions r)) r)).

Lemma switch_session_registered (session_id topic : string) (s : Session)
    (r : Registry) (w : World) :
  Dict.get session_id (sessions r) = Some s ->
  fst (snd (switch_session session_id topic (r, w)))
  = switched session_id topic s (clock w) r.
Proof.
  intros H. unfold switch_session, bind, registry, Dict.mem. cbn.
  rewrite H. cbn. rewrite H. cbn. rewrite get_set_same.
  match goal with
  | |- context [write_session_json ?b ?n ?d ?st] =>
      pose proof (write_session_json_registry b n d (fst st) (snd st)) as Hw;
      cbn [fst snd] in Hw;
      destruct (write_session_json b n d st) as [[u|e] [r' w']]
  end; cbn in *; exact Hw.
Qed.

Lemma switch_session_unknown (session_id topic : string) (st : state) :
  Dict.get session_id (sessions (fst st)) = None ->
  switch_session session_id topic st = (Ok false, st).
Proof.
  intros H. destruct st as [r w]. unfold switch_session, bind, registry, Dict.mem.
  cbn in *. now rewrite H.
Qed.

(** C7.  For a topic and two registered ids, the second not the empty
    string (no id is: [create_session_id_nonempty], [init_ids_nonempty] and
    the lemmas on [ids_nonempty] at the end of this part): after
    [switch_session A t] and then [switch_session B t], the topic index
    maps [t] to [B], the global fallback is [B], and [get_current_session
    t] returns the record registered under [B], which is the record [B]
    had, with a new [last_active]. *)
Theorem C7_switch_twice (r : Registry) (w : World) (t A B : string)
    (sA sB : Session) :
  Dict.get A (sessions r) = Some sA ->
  Dict.get B (sessions r) = Some sB ->
  B <> EmptyString ->
  let st1 := snd (switch_session A t (r, w)) in
  let st2 := snd (switch_session B t st1) in
  Dict.get t (topic_sessions (fst st2)) = Some B
  /\ global_active_session (fst st2) = Some B
  /\ exists c : nat,
       Dict.get B (sessions (fst st2)) = Some (with_last_active c sB)
       /\ get_current_session t (fst st2) = Some (with_last_active c sB).
Proof.
  intros HA HB Hne st1 st2.
  assert (H1 : fst st1 = switched A t sA (clock w) r)
    by (apply switch_session_registered; exact HA).
  assert (HB1 : exists c1, Dict.get B (sessions (fst st1))
                           = Some (with_last_active c1 sB)
                           \/ Dict.get B (sessions (fst st1)) = Some sB).
  { exists (clock w). rewrite H1. cbn.
    destruct (String.eqb_spec B A) as [->|Hd].
    - left. rewrite get_set_same. rewrite HA in HB. now injection HB as ->.
    - right. now rewrite get_set_other. }
  destruct HB1 as [c1 HB1].
  assert (H2 : exists c sB', fst st2 = switched B t sB' c (fst st1)
                             /\ with_last_active c sB' = with_last_active c sB).
  { destruct st1 as [r1 w1]. cbn [fst] in *.
    destruct HB1 as [HB1|HB1]; eexists (clock w1), _; split;
      try (apply switch_session_registered; exact HB1); reflexivity. }
  destruct H2 as [c [sB' [H2 Heq]]].
  rewrite H2. cbn. rewrite !get_set_same.
  split; [reflexivity|]. split; [reflexivity|].
  exists c. rewrite Heq. split; [reflexivity|].
  unfold get_current_session. cbn. rewrite get_set_same.
  destruct B as [|b B']; [contradiction|]. cbn.
  rewrite get_set_same. now rewrite Heq.
Qed.

Lemma C7_switch_twice_witness :
  let st1 := snd (switch_session "001" "ops" two_sessions) in
  let st2 := snd (switch_session "002" "ops" st1) in
  Dict.get "ops" (topic_sessions (fst st2)) = Some "002"
  /\ global_active_session (fst st2) = Some "002"
  /\ exists c : nat,
       Dict.get "002" (sessions (fst st2))
       = Some (with_last_active c (demo_session "002" None))
       /\ get_current_session "ops" (fst st2)
          = Some (with_last_active c (demo_session "002" None)).
Proof.
  apply (C7_switch_twice (fst two_sessions) (snd two_sessions) "ops" "001" "002"
           (demo_session "001" (Some "general")) (demo_session "002" None)
           eq_refl eq_refl).
  discriminate.
Defined.

Example switch_twice_ex :
  let st1 := switch_session "001" "ops" two_sessions in
  let st2 := switch_session "002" "ops" (snd st1) in
  fst st1 = Ok true /\ fst st2 = Ok true
  /\ topic_sessions (fst (snd st2)) = [("general", "001"); ("ops", "002")].
Proof. repeat split; reflexivity. Qed.

Lemma is_live_after_kill (tmux_name : string) (w : World) :
  is_live tmux_name
    (set_tmux (filter (fun p => negb (String.eqb (fst p) tmux_name)) (tmux w)) w)
  = false.
Proof.
  unfold is_live. cbn. induction (tmux w) as [|p l IH]; [reflexivity|]. cbn.
  destruct (String.eqb (fst p) tmux_name) eqn:E; cbn; [exact IH|].
  now rewrite E.
Qed.

Lemma kill_session_unknown (session_id : string) (st : state) :
  Dict.get session_id (sessions (fst st)) = None ->
  kill_session session_id st = (Ok false, st).
Proof.
  intros H. destruct st as [r w]. unfold kill_session, bind, registry.
  cbn in *. now rewrite H.
Qed.

(** What [kill_session] does to a registered id. *)
Lemma kill_session_registered (session_id : string) (s : Session)
    (r : Registry) (w : World) :
  Dict.get session_id (sessions r) = Some s ->
  exists ts,
    kill_session session_id (r, w)
    = (Ok true,
       (set_topic_sessions ts (set_sessions (Dict.del session_id (sessions r)) r),
        set_tmux (filter (fun p => negb (String.eqb (fst p) (tmux_session s)))
                    (tmux w)) w))
    /\ (forall t, t <> EmptyString -> topic s = Some t ->
                  Dict.get t ts <> Some session_id)
    /\ (forall t, topic s <> Some t ->
                  Dict.get t ts = Dict.get t (topic_sessions r)).
Proof.
  intros H. unfold kill_session, bind, registry. cbn. rewrite H. cbn.
  destruct (topic s) as [[|c t0]|] eqn:Et; cbn.
  - exists (topic_sessions r). split; [destruct r; reflexivity|].
    split; [intros t Hne [= <-]; contradiction | reflexivity].
  - destruct (Dict.get (String c t0) (topic_sessions r)) as [sid|] eqn:Eg; cbn.
    + destruct (String.eqb_spec sid session_id) as [->|Hne]; cbn.
      * exists (Dict.del (String c t0) (topic_sessions r)).
        split; [reflexivity|]. split.
        -- intros t _ [= <-]. now rewrite get_del_same.
        -- intros t Ht. apply get_del_other. congruence.
      * exists (topic_sessions r). split; [destruct r; reflexivity|].
        split; [|reflexivity]. intros t _ [= <-]. rewrite Eg. congruence.
    + exists (topic_sessions r). split; [destruct r; reflexivity|].
      split; [|reflexivity]. intros t _ [= <-]. now rewrite Eg.
  - exists (topic_sessions r). split; [destruct r; reflexivity|].
    split; [discriminate | reflexivity].
Qed.

(** [kill_session] twice on the same id.  The second call returns
    [False], raises nothing and leaves the registry and the world as the
    first call left them.  The first call, on a registered id, returns
    [True]; the record is gone from the registry, the tmux session of the
    record is dead, the topic index no longer maps the topic of the record
    to the id, the entries of the index under other topics are as they
    were, and so is the global fallback.  On an id that is not registered
    the first call is already the no-op. *)
Lemma kill_session_twice (session_id : string) (st : state) :
  let first := kill_session session_id st in
  let second := kill_session session_id (snd first) in
  second = (Ok false, snd first)
  /\ match Dict.get session_id (sessions (fst st)) with
     | Some s =>
         fst first = Ok true
         /\ Dict.get session_id (sessions (fst (snd first))) = None
         /\ is_live (tmux_session s) (snd (snd first)) = false
         /\ (forall t, t <> EmptyString -> topic s = Some t ->
               Dict.get t (topic_sessions (fst (snd first))) <> Some session_id)
         /\ (forall t, topic s <> Some t ->
               Dict.get t (topic_sessions (fst (snd first)))
               = Dict.get t (topic_sessions (fst st)))
         /\ global_active_session (fst (snd first))
            = global_active_session (fst st)
     | None => first = (Ok false, st)
     end.
Proof.
  intros first second. subst second first.
  destruct (Dict.get session_id (sessions (fst st))) as [s|] eqn:E.
  - destruct st as [r w]. cbn [fst] in E.
    destruct (kill_session_registered session_id s r w E) as [ts [-> [Ht Ho]]].
    cbn [fst snd]. split.
    + apply kill_session_unknown. cbn. apply get_del_same.
    + split; [reflexivity|]. split; [apply get_del_same|].
      split; [apply is_live_after_kill|]. split; [exact Ht|].
      split; [exact Ho | reflexivity].
  - rewrite (kill_session_unknown _ _ E). cbn [snd]. split; [|reflexivity].
    now apply kill_session_unknown.
Qed.

(** C9.  What the first [kill_session] leaves behind.  For a registered
    session that a topic other than the one in its [topic] field maps to
    (as after [switch_session]): the call returns [True], the record is
    gone from the registry and a second call is the no-op that returns
    [False]; but the topic still maps to the id, the global fallback is as
    it was, and the session store is as it was, the directory of the
    session and its [session.json] included. *)
Theorem C9_kill_leaves_record_and_mapping (session_id t : string) (s : Session)
    (r : Registry) (w : World) :
  Dict.get session_id (sessions r) = Some s ->
  Dict.get t (topic_sessions r) = Some session_id ->
  topic s <> Some t ->
  let first := kill_session session_id (r, w) in
  fst first = Ok true
  /\ Dict.get session_id (sessions (fst (snd first))) = None
  /\ kill_session session_id (snd first) = (Ok false, snd first)
  /\ Dict.get t (topic_sessions (fst (snd first))) = Some session_id
  /\ global_active_session (fst (snd first)) = global_active_session r
  /\ store (snd (snd first)) = store w.
Proof.
  intros Hreg Ht Hother first. subst first.
  destruct (kill_session_registered session_id s r w Hreg) as [ts [-> [_ Ho]]].
  cbn [fst snd]. split; [reflexivity|]. split; [apply get_del_same|].
  split; [apply kill_session_unknown; cbn; apply get_del_same|].
  split; [cbn; rewrite (Ho t Hother); exact Ht|].
  split; reflexivity.
Qed.

Lemma C9_kill_leaves_record_and_mapping_witness :
  let st1 := snd (switch_session "001" "ops" two_sessions) in
  let first := kill_session "001" st1 in
  fst first = Ok true
  /\ Dict.get "001" (sessions (fst (snd first))) = None
  /\ kill_session "001" (snd first) = (Ok false, snd first)
  /\ Dict.get "ops" (topic_sessions (fst (snd first))) = Some "001"
  /\ global_active_session (fst (snd first)) = Some "001"
  /\ store (snd (snd first)) = store (snd st1).
Proof.
  exact (C9_kill_leaves_record_and_mapping "001" "ops"
           (with_last_active 5 (demo_session "001" (Some "general")))
           (fst (snd (switch_session "001" "ops" two_sessions)))
           (snd (snd (switch_session "001" "ops" two_sessions)))
           eq_refl eq_refl ltac:(discriminate)).
Defined.

(** A mapping made by [switch_session] under another topic outlives the
    session, and so does the global fallback. *)
Example kill_after_switch_ex :
  let st1 := snd (switch_session "001" "ops" two_sessions) in
  let st2 := snd (kill_session "001" st1) in
  topic_sessions (fst st2) = [("ops", "001")]
  /\ global_active_session (fst st2) = Some "001"
  /\ get_current_session "ops" (fst st2) = None.
Proof. repeat split; reflexivity. Qed.

(** What follows: the killed session is still in the store, so the next
    start registers it again; and the next session that is created takes
    the freed id, and with it the topic that still maps to that id. *)
Example kill_then_restart_ex :
  let st1 := snd (switch_session "001" "ops" two_sessions) in
  let st2 := snd (kill_session "001" st1) in
  Dict.get "001" (sessions (fst (init "/srv/sessions" "claude_" (snd st2))))
  = Some (with_last_active 5 (demo_session "001" (Some "general"))).
Proof. reflexivity. Qed.

Example kill_then_create_ex :
  let st1 := snd (switch_session "001" "ops" two_sessions) in
  let st2 := snd (kill_session "001" st1) in
  let made := create_session "other" None st2 in
  fst made = Ok "001"
  /\ option_map name (get_current_session "ops" (fst (snd made))) = Some "other".
Proof. split; reflexivity. Qed.

(** ** [create_session] when tmux refuses the new session *)

(** Whatever the store holds: when the server refuses the new session,
    [create_session] registers nothing and raises, but never the exception
    of its last line, which stands behind a [rmdir] of a directory that is
    not empty. *)
Lemma create_session_never_cleans (r : Registry) (w : World) (name : string)
    (topic : option string) (rest : list bool) :
  faults w = true :: rest ->
  exists e w',
    create_session name topic (r, w) = (Raise e, (r, w'))
    /\ e <> FailedToCreateTmuxSession.
Proof.
  intros Hf. unfold create_session, generate_session_id.
  unfold bind at 1. unfold bind at 1. cbn -[first_unused].
  destruct (first_unused (Dict.keys (sessions r)) 1 999) as [sid|e] eqn:Hid;
    cbn -[first_unused].
  2:{ exists e, w. split; [reflexivity|].
      apply first_unused_raises in Hid. now subst. }
  unfold bind, mkdir_entry, mkdir_item, write_session_json, entry_exists,
    rmdir_entry, Dict.mem, world. cbn.
  repeat (step_store; cbn); rewrite ?Hf; cbn;
  repeat (step_store; cbn);
  repeat match goal with
    | |- context [match Dict.set ?k ?v ?d with _ => _ end] =>
        let E := fresh "E" in
        destruct (set_nonempty k v d) as [? [? E]]; rewrite E; cbn
    end;
  eexists _, _; (split; [reflexivity | discriminate]).
Qed.

(** C5, on the code: the id [sid] is free, the store has no entry of that
    name, and the server refuses the new tmux session.  Then
    [create_session] registers nothing, which is as claimed; but the
    directory it made is still in the store, with its [context] directory
    and the [session.json] of the session that was not created, and the
    exception that reaches the caller is the [OSError] of [rmdir] on a
    directory that is not empty, not the failure to create the session. *)
Theorem C5_create_session_refused (r : Registry) (w : World) (name : string)
    (topic : option string) (sid : string) (rest : list bool) :
  first_unused (Dict.keys (sessions r)) 1 999 = Ok sid ->
  Dict.get sid (store w) = None ->
  faults w = true :: rest ->
  exists w',
    create_session name topic (r, w)
    = (Raise (OSError_ENOTEMPTY (path_join (base_dir r) sid)), (r, w'))
    /\ Dict.get sid (store w')
       = Some (EntryDir
                 [("context", ItemDir);
                  (session_json,
                   ItemFile (Stored (new_record r (clock w) sid name topic)))]).
Proof.
  intros Hid Hfresh Hf.
  unfold create_session, generate_session_id.
  unfold bind at 1. unfold bind at 1. cbn -[first_unused]. rewrite Hid.
  cbn -[first_unused].
  unfold bind, mkdir_entry, mkdir_item, write_session_json, entry_exists,
    rmdir_entry, Dict.mem, world. cbn.
  rewrite Hfresh. cbn.
  repeat (rewrite get_set_same; cbn). rewrite Hf. cbn.
  repeat (rewrite get_set_same; cbn).
  eexists. split; [reflexivity|]. cbn. apply get_set_same.
Qed.

Lemma C5_create_session_refused_witness :
  exists w',
    create_session "demo" (Some "general") (fresh_registry, fresh_world true)
    = (Raise (OSError_ENOTEMPTY "/srv/sessions/001"), (fresh_registry, w'))
    /\ Dict.get "001" (store w')
       = Some (EntryDir
                 [("context", ItemDir);
                  (session_json,
                   ItemFile (Stored (new_record fresh_registry 0 "001" "demo"
                                       (Some "general"))))]).
Proof.
  exact (C5_create_session_refused fresh_registry (fresh_world true) "demo"
           (Some "general") "001" [] eq_refl eq_refl eq_refl).
Defined.

(** The same call when the server accepts. *)
Example create_session_ex :
  let '(out, (r, w)) :=
    create_session "demo" (Some "general") (fresh_registry, fresh_world false) in
  out = Ok "001"
  /\ Dict.get "001" (sessions r)
     = Some (new_record fresh_registry 0 "001" "demo" (Some "general"))
  /\ topic_sessions r = [("general", "001")]
  /\ tmux w = [("claude_001", "/srv/sessions/001")].
Proof. repeat split; reflexivity. Qed.

(** After the failed creation the next start of the bot loads the session
    that was never created. *)
Example orphan_is_loaded_ex :
  let w' := snd (snd (create_session "demo" (Some "general")
                        (fresh_registry, fresh_world true))) in
  Dict.keys (sessions (fst (init "/srv/sessions" "claude_" w'))) = ["001"].
Proof. reflexivity. Qed.

(** ** [load_sessions] *)


(** On a dead handle and a server without faults, the new tmux session
    has the handle name and the working directory of the record. *)
Lemma recreate_when_dead (s : Session) (r : Registry) (w : World) :
  faults w = [] ->
  is_live (tmux_session s) w = false ->
  recreate_tmux_session s (r, w)
  = (Ok tt, (r, set_tmux (tmux w ++ [(tmux_session s, working_dir s)])
                  (set_faults [] w))).
Proof.
  intros Hf Hl. unfold recreate_tmux_session, tmux_new_session, bind, world,
    update_world, ret. cbn. rewrite Hf. cbn. now rewrite Hl.
Qed.


(** The registry after [load_entry] has read the record [s]. *)
Lemma handles_live_loaded (s : Session) (r r' : Registry) (w w' : World) :
  sessions r' = Dict.set (id s) s (sessions r) ->
  (forall n, is_live n w = true -> is_live n w' = true) ->
  is_live (tmux_session s) w' = true ->
  handles_live (r, w) -> handles_live (r', w').
Proof.
  intros Hs Hmono Hlive H sid s'. cbn [fst snd]. rewrite Hs.
  destruct (String.eqb_spec sid (id s)) as [->|Hne].
  - rewrite get_set_same. now intros [= <-].
  - rewrite get_set_other by exact Hne. intros Hg. apply Hmono. exact (H sid s' Hg).
Qed.

Lemma load_entry_ok (dir_name : string) (e : entry) (st : state) :
  faults (snd st) = [] ->
  fst (load_entry dir_name e st) = Ok tt
  /\ load_step_ok [(dir_name, e)] st (snd (load_entry dir_name e st)).
Proof.
  destruct st as [r w]. cbn [snd]. intros Hf.
  assert (Hsame : load_step_ok [(dir_name, e)] (r, w) (r, w)).
  { split; auto. }
  destruct e as [|items]; cbn; [now split|].
  destruct (Dict.get session_json items) as [[|[| |s]]|] eqn:Ej; cbn; try now split.
  unfold try_except, bind, update_registry, tmux_has_session, recreate_tmux_session,
    tmux_new_session, bind, world, update_world, registry, ret. cbn.
  destruct (is_live (tmux_session s) w) eqn:El; cbn; rewrite ?Hf; cbn; rewrite ?El; cbn;
    destruct (topic s) as [[|c t]|]; cbn;
    destruct (truthy (global_active_session r)); cbn;
    (split; [reflexivity|]); split; cbn; auto;
    try (intros H; eapply handles_live_loaded; [| | |exact H]; cbn;
         [reflexivity | auto | auto]).
  all: try (intros p Hin; apply in_or_app; now left).
  all: try (intros p Hin; apply in_app_or in Hin as [Hin|[<-|[]]];
            [now left | right; exists dir_name, items, s;
                        split; [now left | now split]]).
  all: try (intros n Hn; unfold is_live in Hn; rewrite existsb_app, Hn; reflexivity).
  all: rewrite existsb_app; cbn; rewrite String.eqb_refl; apply orb_true_r.
Qed.

Lemma load_step_trans (e1 e2 : Dict.t entry) (st1 st2 st3 : state) :
  load_step_ok e1 st1 st2 -> load_step_ok e2 st2 st3 ->
  load_step_ok (e1 ++ e2)%list st1 st3.
Proof.
  intros [f1 s1 k1 n1 l1] [f2 s2 k2 n2 l2]. split; auto.
  - congruence.
  - intros p Hp. destruct (n2 p Hp) as [Hp2|[d [i [s [Hin H]]]]].
    + destruct (n1 p Hp2) as [Hp1|[d [i [s [Hin H]]]]]; [now left|].
      right. exists d, i, s. split; [apply in_or_app; now left | exact H].
    + right. exists d, i, s. split; [apply in_or_app; now right | exact H].
Qed.

Lemma load_entries_ok (entries : Dict.t entry) (st : state) :
  faults (snd st) = [] ->
  fst (load_entries entries st) = Ok tt
  /\ load_step_ok entries st (snd (load_entries entries st)).
Proof.
  revert st. induction entries as [|[dir_name e] entries IH]; intros st Hf.
  - cbn. split; [reflexivity|]. split; auto.
  - cbn [load_entries]. unfold bind.
    destruct (load_entry_ok dir_name e st Hf) as [Hout Hstep].
    destruct (load_entry dir_name e st) as [[[]|ex] st1]; cbn in Hout; [|discriminate].
    cbn [snd] in Hstep.
    destruct (IH st1 (step_faults _ _ _ Hstep)) as [Hout' Hstep'].
    split; [exact Hout'|].
    exact (load_step_trans [(dir_name, e)] entries _ _ _ Hstep Hstep').
Qed.





Example heal_ex :
  tmux (snd (init "/srv/sessions" "claude_" (after_reboot false)))
  = [("claude_001", "/srv/sessions/001")].
Proof. reflexivity. Qed.

(** ** Session ids are never empty

    The registry starts empty or from the store, and grows by
    [create_session] only: no operation registers a session under the
    empty string, as long as no stored record has it as its id. *)

Lemma ids_nonempty_same (r r' : Registry) :
  sessions r' = sessions r -> ids_nonempty r -> ids_nonempty r'.
Proof. intros E H sid s. rewrite E. apply H. Qed.

Lemma ids_nonempty_set (r r' : Registry) (sid0 : string) (d : Session) :
  sid0 <> EmptyString ->
  sessions r' = Dict.set sid0 d (sessions r) ->
  ids_nonempty r -> ids_nonempty r'.
Proof.
  intros Hne E H sid s. rewrite E.
  destruct (String.eqb_spec sid sid0) as [->|Hd]; [now intros _|].
  rewrite get_set_other by exact Hd. apply H.
Qed.

Lemma ids_nonempty_del (r r' : Registry) (sid0 : string) :
  sessions r' = Dict.del sid0 (sessions r) ->
  ids_nonempty r -> ids_nonempty r'.
Proof.
  intros E H sid s. rewrite E.
  destruct (String.eqb_spec sid sid0) as [->|Hd].
  - now rewrite get_del_same.
  - rewrite get_del_other by exact Hd. apply H.
Qed.

Lemma create_session_keeps_ids (name : string) (topic : option string)
    (st : state) :
  ids_nonempty (fst st) ->
  ids_nonempty (fst (snd (create_session name topic st))).
Proof.
  destruct st as [r w]. cbn [fst]. intros Hinv.
  unfold create_session, generate_session_id.
  unfold bind at 1. unfold bind at 1. cbn -[first_unused].
  destruct (first_unused (Dict.keys (sessions r)) 1 999) as [sid0|e] eqn:Hid;
    cbn -[first_unused]; [|exact Hinv].
  apply first_unused_nonempty in Hid.
  unfold bind, mkdir_entry, mkdir_item, write_session_json, entry_exists,
    rmdir_entry, Dict.mem, world. cbn.
  repeat (first
    [ step_store
    | match goal with
      | |- context [if existsb ?f ?l then _ else _] => destruct (existsb f l)
      | |- context [match faults w with _ => _ end] =>
          destruct (faults w) as [|[|] ?]
      | |- context [match Dict.set ?k ?v ?d with _ => _ end] =>
          let E := fresh "E" in
          destruct (set_nonempty k v d) as [? [? E]]; rewrite E
      end ]; cbn);
  try exact Hinv;
  destruct topic as [[|c t]|]; cbn;
  (eapply ids_nonempty_set; [exact Hid | | exact Hinv]); reflexivity.
Qed.

Lemma switch_session_keeps_ids (session_id topic : string) (st : state) :
  ids_nonempty (fst st) ->
  ids_nonempty (fst (snd (switch_session session_id topic st))).
Proof.
  destruct st as [r w]. cbn [fst]. intros Hinv.
  destruct (Dict.get session_id (sessions r)) as [s|] eqn:E.
  - rewrite (switch_session_registered _ _ s _ _ E).
    eapply ids_nonempty_set; [exact (Hinv _ _ E) | reflexivity | exact Hinv].
  - now rewrite switch_session_unknown.
Qed.

Lemma kill_session_keeps_ids (session_id : string) (st : state) :
  ids_nonempty (fst st) ->
  ids_nonempty (fst (snd (kill_session session_id st))).
Proof.
  destruct st as [r w]. cbn [fst]. intros Hinv.
  destruct (Dict.get session_id (sessions r)) as [s|] eqn:E.
  - destruct (kill_session_registered session_id s r w E) as [ts [-> _]].
    eapply ids_nonempty_del; [reflexivity | exact Hinv].
  - now rewrite kill_session_unknown.
Qed.

Lemma load_entry_keeps_ids (dir_name : string) (e : entry) (st : state) :
  stored_ids_nonempty [(dir_name, e)] ->
  ids_nonempty (fst st) ->
  ids_nonempty (fst (snd (load_entry dir_name e st))).
Proof.
  destruct st as [r w]. cbn [fst]. intros Hstored Hinv.
  destruct e as [|items]; cbn; [exact Hinv|].
  destruct (Dict.get session_json items) as [[|[| |s]]|] eqn:Ej; cbn;
    try exact Hinv.
  assert (Hid : id s <> EmptyString)
    by (apply (Hstored dir_name items s); [now left | exact Ej]).
  unfold try_except, bind, update_registry, tmux_has_session, recreate_tmux_session,
    tmux_new_session, bind, world, update_world, registry, ret. cbn.
  destruct (is_live (tmux_session s) w); cbn;
    try (destruct (faults w) as [|[|] ?]; cbn);
    try (destruct (is_live (tmux_session s) w); cbn);
    destruct (topic s) as [[|c t]|]; cbn;
    destruct (truthy (global_active_session r)); cbn;
    (eapply ids_nonempty_set; [exact Hid | | exact Hinv]); reflexivity.
Qed.

Lemma load_entries_keep_ids (entries : Dict.t entry) (st : state) :
  stored_ids_nonempty entries ->
  ids_nonempty (fst st) ->
  ids_nonempty (fst (snd (load_entries entries st))).
Proof.
  revert st. induction entries as [|[dir_name e] entries IH]; intros st Hs Hinv.
  - exact Hinv.
  - cbn [load_entries]. unfold bind.
    assert (H1 : ids_nonempty (fst (snd (load_entry dir_name e st)))).
    { apply load_entry_keeps_ids; [|exact Hinv].
      intros d i s [Hin|[]] Hj. apply (Hs d i s); [left; exact Hin | exact Hj]. }
    assert (Hs' : stored_ids_nonempty entries).
    { intros d i s Hin Hj. apply (Hs d i s); [now right | exact Hj]. }
    destruct (load_entry dir_name e st) as [[[]|ex] st1]; cbn [fst snd] in *.
    + apply IH; assumption.
    + exact H1.
Qed.

Lemma init_ids_nonempty (base prefix : string) (w : World) :
  stored_ids_nonempty (store w) ->
  ids_nonempty (fst (init base prefix w)).
Proof.
  intros Hs. unfold init, load_sessions, bind, world. cbn.
  apply load_entries_keep_ids; [exact Hs|]. intros sid s. cbn. discriminate.
Qed.

End Registry.

(* ================================================================== *)
(** * The router *)
(* ================================================================== *)

Section RouterFacts.

Import SessionManager Aliases ClaudeBot Notions Scenarios.

Example convert_ex :
  convert_natural_command "New Session 'my proj'"
  = ("/new-session " ++ dquote ++ "my proj" ++ dquote)%string
  /\ convert_natural_command "new session" = "/new-session"
  /\ convert_natural_command "switch to session 003 now" = "/switch-session 003"
  /\ convert_natural_command "please help cd   /var/log now" = "/working-dir /var/log"
  /\ convert_natural_command "stop claude" = "/claude-stop".
Proof. repeat split; reflexivity. Qed.

(** No phrase of the alias table is about directories: a text that holds
    none of the eighteen phrases goes to the terminal, whatever
    [convert_natural_command] would make of it. *)
Lemma route_not_natural (content : string) :
  Py.startswith content "/" = false ->
  is_natural_command content = false ->
  route_message content = ToTerminalInput content.
Proof.
  intros Hs Hn. unfold route_message. now rewrite Hs, Hn.
Qed.

(** C6, on the code.  The first input is an alias and is rewritten as
    claimed.  The second is not one: no phrase of [natural_commands]
    occurs in it, so [handle_message] sends it to the terminal as typed;
    [convert_natural_command], which has the branch for it, is not
    called. *)
Theorem C6_aliases :
  is_natural_command "create session called demo" = true
  /\ convert_natural_command "create session called demo"
     = ("/new-session " ++ dquote ++ "demo" ++ dquote)%string
  /\ route_message "create session called demo"
     = ToHandleCommandAsAlias ("/new-session " ++ dquote ++ "demo" ++ dquote)
  /\ is_natural_command "cd /tmp" = false
  /\ route_message "cd /tmp" = ToTerminalInput "cd /tmp"
  /\ convert_natural_command "cd /tmp" = "/working-dir /tmp".
Proof. repeat split; reflexivity. Qed.

Variable set_working_directory : string -> string -> M bool.
Variable start_claude_code : Session -> M string.

Local Abbreviation run := (run_command set_working_directory start_claude_code).
Local Abbreviation handle :=
  (handle_command set_working_directory start_claude_code).

(** Every other token gets the fixed reply that names it, and nothing
    changes. *)
Lemma run_command_unknown (cmd : string) (args : list string) (topic : string)
    (st : state) :
  ~ In cmd handled_tokens ->
  run cmd args topic st = (Ok (unknown_reply cmd), st).
Proof.
  intros Hnot. unfold run_command.
  repeat match goal with
  | |- context [String.eqb cmd ?tok] =>
      destruct (String.eqb_spec cmd tok) as [->|_];
      [exfalso; apply Hnot; cbn; tauto|]
  end.
  reflexivity.
Qed.

(** Each of the six tokens reaches its operation. *)
Lemma run_command_handled (args : list string) (topic : string) (st : state) :
  run "help" args topic st = (Ok get_help_text, st)
  /\ run "list-sessions" args topic st
     = (Ok match list_sessions (fst st) with
           | [] => "No active sessions"
           | all =>
               ("Active sessions:" ++ nl
                ++ Py.join nl
                     (map (fun s => ("- " ++ id s ++ ": " ++ name s)%string) all))%string
           end, st)
  /\ run "new-session" ("my"  :: args) topic st
     = bind (create_session (Py.join " " ("my" :: args)) (Some topic))
         (fun session_id =>
            ret ("Created session " ++ session_id ++ ": "
                 ++ Py.join " " ("my" :: args))%string) st
  /\ run "switch-session" ("002" :: args) topic st
     = bind (switch_session "002" topic)
         (fun switched =>
            if switched then ret "Switched to session 002"
            else ret "Session 002 not found") st
  /\ (forall s, get_current_session topic (fst st) = Some s ->
        run "claude-start" args topic st = start_claude_code s st
        /\ run "working-dir" ("/tmp" :: nil) topic st
           = bind (set_working_directory (id s) "/tmp")
               (fun changed =>
                  if changed then ret "✅ Working directory changed to: /tmp"
                  else ret "❌ Directory not found: /tmp") st).
Proof.
  destruct st as [r w].
  split; [reflexivity|]. split.
  { unfold run_command, bind, registry. cbn.
    destruct (list_sessions r); reflexivity. }
  split; [reflexivity|]. split; [reflexivity|].
  intros s Hs. cbn in Hs. unfold run_command, bind, registry. cbn.
  rewrite Hs. split; reflexivity.
Qed.

(** C3, on the code.  The tokens [claude-stop] and [claude-status], which
    the help text lists and the first of which [convert_natural_command]
    produces, have no branch in [handle_command]: both get the reply for an
    unknown command, and the state is left as it was. *)
Theorem C3_claude_stop_is_unknown (topic sender : string) (st : state) :
  handle "/claude-stop" topic sender st
  = (Say "Unknown command: claude-stop. Use /help for available commands.", st)
  /\ handle "/claude-status" topic sender st
     = (Say "Unknown command: claude-status. Use /help for available commands.", st)
  /\ handle (convert_natural_command "stop claude") topic sender st
     = (Say "Unknown command: claude-stop. Use /help for available commands.", st).
Proof. repeat split; reflexivity. Qed.

(** The vocabulary of [handle_command]: the first token of the command
    after its first character decides, and a token outside the six gets the
    unknown-command reply. *)
Lemma handle_command_unknown (command topic sender : string) (st : state) :
  ~ In (first_token_or_empty (Py.drop1 command)) handled_tokens ->
  handle command topic sender st
  = (Say (unknown_reply (first_token_or_empty (Py.drop1 command))), st).
Proof.
  intros Hnot. unfold handle_command, first_token_or_empty,
    first_token in *.
  destruct (Py.split (Py.drop1 command)) as [|first rest]; cbn [hd_error] in *;
    now rewrite run_command_unknown.
Qed.

End RouterFacts.

(* ================================================================== *)
(** * The session registry: allocation, creation, restart *)
(* ================================================================== *)

Section Allocation.

Import SessionManager Notions Scenarios Stored.

Lemma mem_keys {V} (k : string) (d : Dict.t V) :
  Py.mem k (Dict.keys d) = Dict.mem k d.
Proof.
  unfold Dict.mem. induction d as [|[k' v] d IH]; cbn; [reflexivity|].
  destruct (String.eqb k' k); [reflexivity | exact IH].
Qed.

Lemma first_unused_ok (l : list string) (i n : nat) (sid : string) :
  first_unused l i n = Ok sid ->
  exists j, i <= j < i + n /\ sid = Py.fmt_03d j /\ Py.mem sid l = false
            /\ forall k, i <= k < j -> Py.mem (Py.fmt_03d k) l = true.
Proof.
  revert i. induction n as [|n IH]; intros i; cbn; [discriminate|].
  destruct (Py.mem (Py.fmt_03d i) l) eqn:E; cbn.
  - intros H. destruct (IH _ H) as [j [Hj [-> [Hm Hk]]]].
    exists j. split; [lia|]. split; [reflexivity|]. split; [exact Hm|].
    intros k Hk'. destruct (Nat.eq_dec k i) as [->|Hne]; [exact E|].
    apply Hk. lia.
  - intros [= <-]. exists i. split; [lia|]. split; [reflexivity|].
    split; [exact E|]. intros k Hk. lia.
Qed.

Lemma first_unused_full (l : list string) (i n : nat) :
  first_unused l i n = Raise TooManySessions
  <-> forall k, i <= k < i + n -> Py.mem (Py.fmt_03d k) l = true.
Proof.
  revert i. induction n as [|n IH]; intros i; cbn.
  - split; [intros _ k Hk; lia | reflexivity].
  - destruct (Py.mem (Py.fmt_03d i) l) eqn:E; cbn.
    + rewrite IH. split; intros H k Hk.
      * destruct (Nat.eq_dec k i) as [->|Hne]; [exact E | apply H; lia].
      * apply H. lia.
    + split; [discriminate|]. intros H. rewrite H in E by lia. discriminate.
Qed.

(** X1.  The id that [generate_session_id] returns is registered to no
    session; it is the three-digit form of a number between 1 and 999, and
    every smaller number from 1 on is taken.  The state is not changed. *)
Theorem generate_session_id_fresh (st : state) (sid : string) :
  fst (generate_session_id st) = Ok sid ->
  snd (generate_session_id st) = st
  /\ Dict.get sid (sessions (fst st)) = None
  /\ exists i, 1 <= i <= 999 /\ sid = Py.fmt_03d i
               /\ forall k, 1 <= k < i ->
                            Dict.mem (Py.fmt_03d k) (sessions (fst st)) = true.
Proof.
  destruct st as [r w]. unfold generate_session_id, bind, registry, lift.
  cbn -[first_unused]. intros H.
  destruct (first_unused_ok _ _ _ _ H) as [i [Hi [-> [Hm Hk]]]].
  split; [reflexivity|]. split.
  - rewrite mem_keys in Hm. unfold Dict.mem in Hm.
    now destruct (Dict.get (Py.fmt_03d i) (sessions r)).
  - exists i. split; [lia|]. split; [reflexivity|].
    intros k Hk'. rewrite <- mem_keys. apply Hk. lia.
Qed.

Lemma generate_session_id_fresh_witness :
  Dict.get "003" (sessions (fst two_sessions)) = None.
Proof.
  exact (proj1 (proj2 (generate_session_id_fresh two_sessions "003" eq_refl))).
Defined.

(** X2.  [generate_session_id] raises, for too many sessions, exactly when
    each of the ids 001 to 999 is registered; it raises nothing else. *)
Theorem generate_session_id_exhausted (st : state) :
  (fst (generate_session_id st) = Raise TooManySessions
   <-> forall k, 1 <= k <= 999 ->
                 Dict.mem (Py.fmt_03d k) (sessions (fst st)) = true)
  /\ (forall e, fst (generate_session_id st) = Raise e -> e = TooManySessions).
Proof.
  destruct st as [r w]. unfold generate_session_id, bind, registry, lift.
  cbn -[first_unused]. split.
  - rewrite first_unused_full. split; intros H k Hk.
    + rewrite <- mem_keys. apply H. lia.
    + rewrite mem_keys. apply H. lia.
  - intros e. apply first_unused_raises.
Qed.

Lemma generate_session_id_exhausted_witness :
  Dict.mem "500" (sessions full_registry) = true.
Proof.
  apply (proj1 (proj1 (generate_session_id_exhausted
                         (full_registry, fresh_world false)))
           ltac:(vm_compute; reflexivity) 500).
  lia.
Defined.

End Allocation.

Section Creation.

Import SessionManager Notions Scenarios Stored.

Lemma get_set_get {V} (k k' : string) (v : V) (d : Dict.t V) :
  Dict.get k (Dict.set k' v d) = if String.eqb k' k then Some v else Dict.get k d.
Proof.
  destruct (String.eqb_spec k' k) as [->|Hne].
  - apply get_set_same.
  - apply get_set_other. congruence.
Qed.

Lemma not_live_in_filter (tmux_name : string) (l : list (string * string)) :
  existsb (fun p => String.eqb (fst p) tmux_name)
    (filter (fun p => negb (String.eqb (fst p) tmux_name)) l) = false.
Proof.
  induction l as [|p l IH]; [reflexivity|]. cbn.
  destruct (String.eqb (fst p) tmux_name) eqn:E; cbn; [exact IH|].
  now rewrite E.
Qed.

Lemma create_session_ok_lemma (r : Registry) (w : World) (name : string)
    (topic : option string) (sid : string) :
  first_unused (Dict.keys (sessions r)) 1 999 = Ok sid ->
  dir_usable sid w = true ->
  hd false (faults w) = false ->
  let data := new_record r (clock w) sid name topic in
  let out := create_session name topic (r, w) in
  let r' := fst (snd out) in
  let w' := snd (snd out) in
  fst out = Ok sid
  /\ sessions r' = Dict.set sid data (sessions r)
  /\ topic_sessions r'
     = (if truthy topic
        then Dict.set (match topic with Some t => t | None => EmptyString end)
               sid (topic_sessions r)
        else topic_sessions r)
  /\ global_active_session r' = global_active_session r
  /\ tmux w'
     = filter (fun p => negb (String.eqb (fst p) (tmux_session data))) (tmux w)
       ++ [(tmux_session data, working_dir data)]
  /\ (exists items,
        Dict.get sid (store w') = Some (EntryDir items)
        /\ Dict.get "context" items = Some ItemDir
        /\ Dict.get session_json items = Some (ItemFile (Stored data)))
  /\ (forall other, other <> sid ->
        Dict.get other (store w') = Dict.get other (store w)).
Proof.
  intros Hid Hdir Hf data out r' w'. subst r' w' out data.
  unfold create_session, generate_session_id.
  unfold bind at 1. unfold bind at 1. cbn -[first_unused]. rewrite Hid.
  cbn -[first_unused].
  unfold dir_usable in Hdir.
  unfold bind, mkdir_entry, mkdir_item, write_session_json, entry_exists,
    rmdir_entry, Dict.mem, world. cbn.
  destruct (Dict.get sid (store w)) as [[|items]|] eqn:Es; try discriminate;
    [destruct (Dict.get "context" items) as [[|c]|] eqn:Ec; try discriminate;
     destruct (Dict.get session_json items) as [[|c']|] eqn:Ej; try discriminate | ];
    (destruct (faults w) as [|[|] f] eqn:Ef; [| discriminate Hf |]);
    cbn;
    repeat (first [ rewrite get_set_same | rewrite Es | rewrite Ec | rewrite Ej
                  | rewrite Ef | rewrite not_live_in_filter
                  | rewrite get_set_get ]; cbn);
    destruct topic as [[|c0 t]|]; cbn;
    (split; [reflexivity|]); (split; [reflexivity|]); (split; [reflexivity|]);
    (split; [reflexivity|]); (split; [reflexivity|]);
    (split; [eexists; split; [apply get_set_same|];
             repeat (first [ rewrite get_set_same | rewrite get_set_get ]; cbn);
             auto
            | intros other Hne; repeat rewrite get_set_other by exact Hne;
              reflexivity ]).
Qed.

(** X3.  [create_session] when the id is free, its directory can be used
    and the server accepts the new tmux session: the call returns the id;
    the record is registered under it; a topic that is not empty maps to
    it; the global fallback is as it was; a stale tmux session of the same
    name is gone and the new one is there, in the working directory of the
    record; the directory of the session holds [context] and the record;
    the rest of the store is as it was. *)
Theorem create_session_ok (r : Registry) (w : World) (name : string)
    (topic : option string) (sid : string) :
  first_unused (Dict.keys (sessions r)) 1 999 = Ok sid ->
  dir_usable sid w = true ->
  hd false (faults w) = false ->
  let data := new_record r (clock w) sid name topic in
  let out := create_session name topic (r, w) in
  let r' := fst (snd out) in
  let w' := snd (snd out) in
  fst out = Ok sid
  /\ sessions r' = Dict.set sid data (sessions r)
  /\ topic_sessions r'
     = (if truthy topic
        then Dict.set (match topic with Some t => t | None => EmptyString end)
               sid (topic_sessions r)
        else topic_sessions r)
  /\ global_active_session r' = global_active_session r
  /\ tmux w'
     = filter (fun p => negb (String.eqb (fst p) (tmux_session data))) (tmux w)
       ++ [(tmux_session data, working_dir data)]
  /\ (exists items,
        Dict.get sid (store w') = Some (EntryDir items)
        /\ Dict.get "context" items = Some ItemDir
        /\ Dict.get session_json items = Some (ItemFile (Stored data)))
  /\ (forall other, other <> sid ->
        Dict.get other (store w') = Dict.get other (store w)).
Proof.
  exact (create_session_ok_lemma r w name topic sid).
Qed.
Lemma create_session_ok_witness :
  fst (create_session "demo" (Some "general")
         (Scenarios.fresh_registry, Scenarios.fresh_world false))
  = Ok "001".
Proof.
  exact (proj1 (create_session_ok Scenarios.fresh_registry
                  (Scenarios.fresh_world false) "demo" (Some "general") "001"
                  eq_refl eq_refl eq_refl)).
Defined.

End Creation.


Section Restart.

Import SessionManager Notions Scenarios Stored.

(** The registry after [load_entry] does not depend on tmux. *)
Lemma load_entry_registry (dir_name : string) (e : entry) (r : Registry) (w : World) :
  fst (snd (load_entry dir_name e (r, w)))
  = fold_left (fun r' s => loaded s r') (readable [(dir_name, e)]) r
  /\ store (snd (snd (load_entry dir_name e (r, w)))) = store w
  /\ fst (load_entry dir_name e (r, w)) = Ok tt.
Proof.
  destruct e as [|items]; cbn; [auto|].
  destruct (Dict.get session_json items) as [[|[| |s]]|] eqn:Ej; cbn; auto.
  unfold try_except, bind, update_registry, tmux_has_session, recreate_tmux_session,
    tmux_new_session, bind, world, update_world, registry, ret, loaded. cbn.
  destruct (is_live (tmux_session s) w) eqn:El; cbn;
    try (destruct (faults w) as [|[|] ?]; cbn; rewrite ?El; cbn);
    destruct (topic s) as [[|c t]|]; cbn;
    destruct (truthy (global_active_session r)); cbn; auto.
Qed.

Lemma load_entries_registry (entries : Dict.t entry) (st : state) :
  fst (snd (load_entries entries st))
  = fold_left (fun r' s => loaded s r') (readable entries) (fst st)
  /\ store (snd (snd (load_entries entries st))) = store (snd st)
  /\ fst (load_entries entries st) = Ok tt.
Proof.
  revert st. induction entries as [|[dir_name e] entries IH]; intros [r w].
  - cbn. auto.
  - cbn [load_entries]. unfold bind.
    destruct (load_entry_registry dir_name e r w) as [Hr [Hs Ho]].
    destruct (load_entry dir_name e (r, w)) as [[[]|ex] [r1 w1]];
      cbn [fst snd] in *; [|discriminate].
    destruct (IH (r1, w1)) as [Hr' [Hs' Ho']]. cbn [fst snd] in *.
    rewrite Hr', Hs'. split; [rewrite Hr | split; [exact Hs | exact Ho']].
    destruct e as [|items]; cbn; [reflexivity|].
    destruct (Dict.get session_json items) as [[|[| |s]]|]; reflexivity.
Qed.

(** The registry that [SessionManager(config)] starts with is made of the
    readable records of the store, read in order into the empty registry. *)
Lemma init_registry (base prefix : string) (w : World) :
  fst (init base prefix w)
  = fold_left (fun r' s => loaded s r') (readable (store w))
      (empty_registry base prefix)
  /\ store (snd (init base prefix w)) = store w.
Proof.
  unfold init, load_sessions, bind, world. cbn.
  destruct (load_entries_registry (store w) (empty_registry base prefix, w))
    as [Hr [Hs _]]. auto.
Qed.

Lemma loaded_sessions (s : Session) (r : Registry) :
  sessions (loaded s r) = Dict.set (id s) s (sessions r).
Proof.
  unfold loaded. destruct (topic s) as [[|c t]|]; cbn;
    destruct (truthy _); reflexivity.
Qed.

(** The session under an id, after the records [l] were read: the last
    record with that id, or what the registry had. *)
Lemma fold_loaded_get (l : list Session) (r : Registry) (sid : string) :
  Dict.get sid (sessions (fold_left (fun r' s => loaded s r') l r))
  = match last_such (has_id sid) l with
    | Some s => Some s
    | None => Dict.get sid (sessions r)
    end.
Proof.
  revert r. induction l as [|s l IH]; intros r; cbn; [reflexivity|].
  rewrite IH. destruct (last_such (has_id sid) l); [reflexivity|].
  rewrite loaded_sessions. unfold has_id.
  destruct (String.eqb_spec (id s) sid) as [<-|Hne].
  - apply get_set_same.
  - apply get_set_other. congruence.
Qed.

End Restart.

Section RestartFacts.

Import SessionManager Notions Scenarios Stored.

Lemma readable_in (entries : Dict.t entry) (s : Session) :
  In s (readable entries)
  <-> exists dir_name items,
        In (dir_name, EntryDir items) entries
        /\ Dict.get session_json items = Some (ItemFile (Stored s)).
Proof.
  induction entries as [|[d e] entries IH]; cbn.
  - split; [contradiction | intros [? [? [[] _]]]].
  - destruct e as [|items].
    + rewrite IH. split; intros [d' [i' [Hin Hj]]]; exists d', i'; split; auto.
      destruct Hin as [Heq|Hin]; [discriminate | exact Hin].
    + destruct (Dict.get session_json items) as [[|[| |s0]]|] eqn:Ej;
        cbn; rewrite IH; split.
      all: try (intros [d' [i' [Hin Hj]]]; exists d', i'; split; [now right | exact Hj]).
      all: try (intros [d' [i' [[Heq|Hin] Hj]]];
                [injection Heq as <- <-; congruence | now exists d', i']).
      * intros [<-|[d' [i' [Hin Hj]]]]; [exists d, items; split; [now left | exact Ej]|].
        exists d', i'. split; [now right | exact Hj].
      * intros [d' [i' [[Heq|Hin] Hj]]].
        -- injection Heq as <- <-. left. congruence.
        -- right. now exists d', i'.
Qed.

Lemma in_get_nodup {V} (k : string) (v : V) (d : Dict.t V) :
  NoDup (Dict.keys d) -> (In (k, v) d <-> Dict.get k d = Some v).
Proof.
  induction d as [|[k' v'] d IH]; cbn; intros Hnd.
  - split; [contradiction | discriminate].
  - inversion Hnd as [|? ? Hnot Hnd']; subst.
    destruct (String.eqb_spec k' k) as [->|Hne].
    + split.
      * intros [[= ->]|Hin]; [reflexivity|].
        exfalso. apply Hnot. change k with (fst (k, v)). now apply in_map.
      * intros [= ->]. now left.
    + rewrite <- (IH Hnd'). split.
      * intros [[= -> _]|Hin]; [contradiction | exact Hin].
      * intros Hin. now right.
Qed.

Lemma last_such_in (p : Session -> bool) (l : list Session) (s : Session) :
  last_such p l = Some s -> In s l /\ p s = true.
Proof.
  induction l as [|x l IH]; cbn; [discriminate|].
  destruct (last_such p l) as [s'|].
  - intros [= ->]. destruct (IH eq_refl) as [Hin Hp]. auto.
  - destruct (p x) eqn:E; [|discriminate]. intros [= ->]. auto.
Qed.

Lemma last_such_unique (p : Session -> bool) (l : list Session) (s : Session) :
  In s l -> p s = true ->
  (forall s', In s' l -> p s' = true -> s' = s) ->
  last_such p l = Some s.
Proof.
  induction l as [|x l IH]; cbn; [contradiction|].
  intros Hin Hp Huniq.
  destruct (last_such p l) as [s'|] eqn:E.
  - destruct (last_such_in _ _ _ E) as [Hin' Hp'].
    f_equal. apply Huniq; auto.
  - destruct Hin as [->|Hin]; [now rewrite Hp|].
    assert (H : None = Some s); [|discriminate H].
    apply IH; [exact Hin | exact Hp |].
    intros s' Hin' Hp'. apply Huniq; [now right | exact Hp'].
Qed.

Lemma last_such_none (p : Session -> bool) (l : list Session) :
  (forall s, In s l -> p s = false) -> last_such p l = None.
Proof.
  induction l as [|x l IH]; cbn; [reflexivity|]. intros H.
  rewrite IH by auto. now rewrite (H x) by auto.
Qed.

Lemma restart_loads_the_store_lemma (base prefix : string) (w : World)
    (sid : string) (s : Session) :
  consistent (store w) ->
  (Dict.get sid (sessions (fst (init base prefix w))) = Some s
   <-> persisted sid s w).
Proof.
  intros [Hnd Hid]. destruct (init_registry base prefix w) as [-> _].
  rewrite fold_loaded_get. cbn. unfold persisted. split.
  - destruct (last_such (has_id sid) (readable (store w))) as [s'|] eqn:E;
      [|discriminate].
    intros [= ->]. destruct (last_such_in _ _ _ E) as [Hin Hp].
    apply readable_in in Hin as [d [items [Hin Hj]]].
    unfold has_id in Hp. apply String.eqb_eq in Hp.
    rewrite (Hid _ _ _ Hin Hj) in Hp. subst d.
    exists items. split; [|exact Hj]. now apply in_get_nodup.
  - intros [items [Hg Hj]]. apply in_get_nodup in Hg; [|exact Hnd].
    rewrite (last_such_unique (has_id sid) _ s); [reflexivity| | |].
    + apply readable_in. now exists sid, items.
    + unfold has_id. rewrite (Hid _ _ _ Hg Hj). apply String.eqb_refl.
    + intros s' Hin' Hp'. apply readable_in in Hin' as [d' [items' [Hin' Hj']]].
      unfold has_id in Hp'. apply String.eqb_eq in Hp'.
      rewrite (Hid _ _ _ Hin' Hj') in Hp'. subst d'.
      apply in_get_nodup in Hg, Hin'; try exact Hnd.
      rewrite Hg in Hin'. injection Hin' as <-. congruence.
Qed.

(** X4.  Restart, on a store as the registry writes it (one entry for a
    name, each record in the directory named by its id): the sessions of
    the new registry are the records of the store, each under its id and
    field for field as [session.json] holds it. *)
Theorem restart_loads_the_store (base prefix : string) (w : World)
    (sid : string) (s : Session) :
  consistent (store w) ->
  (Dict.get sid (sessions (fst (init base prefix w))) = Some s
   <-> persisted sid s w).
Proof.
  exact (restart_loads_the_store_lemma base prefix w sid s).
Qed.

End RestartFacts.

Section RestartMore.

Import SessionManager Notions Scenarios Stored.

Lemma consistent_two_sessions : consistent (store (snd two_sessions)).
Proof.
  split.
  - cbn. repeat constructor; cbn; intuition discriminate.
  - cbn. intros d items s [[= <- <-]|[[= <- <-]|[]]]; cbn; now intros [= <-].
Qed.

Lemma restart_loads_the_store_witness :
  Dict.get "002" (sessions (fst (init "/srv/sessions" "claude_" (snd two_sessions))))
  = Some (demo_session "002" None).
Proof.
  apply (proj2 (restart_loads_the_store "/srv/sessions" "claude_"
                  (snd two_sessions) "002" (demo_session "002" None)
                  consistent_two_sessions)).
  eexists. split; reflexivity.
Defined.

(** X5.  [kill_session] leaves the store as it is, so the killed session
    comes back with the next start: it is registered again, as its
    [session.json] holds it, and on a server without faults its tmux
    session is made again. *)
Theorem kill_is_undone_by_restart (base prefix : string) (st : state)
    (sid : string) (s s0 : Session) :
  consistent (store (snd st)) ->
  Dict.get sid (sessions (fst st)) = Some s0 ->
  persisted sid s (snd st) ->
  let killed := snd (kill_session sid st) in
  let restarted := init base prefix (snd killed) in
  Dict.get sid (sessions (fst killed)) = None
  /\ store (snd killed) = store (snd st)
  /\ Dict.get sid (sessions (fst restarted)) = Some s
  /\ (faults (snd st) = [] ->
      is_live (tmux_session s) (snd restarted) = true).
Proof.
  intros Hc Hreg Hp killed restarted. subst restarted killed.
  destruct st as [r w]. cbn [fst snd] in *.
  destruct (kill_session_registered sid s0 r w Hreg) as [ts [-> _]].
  cbn [fst snd].
  assert (Hload : Dict.get sid
                    (sessions (fst (init base prefix
                       (set_tmux
                          (filter (fun p => negb (String.eqb (fst p) (tmux_session s0)))
                             (tmux w)) w))))
                  = Some s).
  { apply restart_loads_the_store_lemma; [exact Hc | exact Hp]. }
  split; [apply get_del_same|]. split; [reflexivity|]. split; [exact Hload|].
  intros Hf. unfold init, load_sessions, bind, world in *. cbn in *.
  match goal with
  | |- context [load_entries ?e ?st0] =>
      destruct (load_entries_ok e st0 Hf) as [_ [_ _ _ _ Hl]]
  end.
  apply (Hl ltac:(intros k x; cbn; discriminate) sid s Hload).
Qed.

Lemma kill_is_undone_by_restart_witness :
  Dict.get "001"
    (sessions (fst (init "/srv/sessions" "claude_"
                      (snd (snd (kill_session "001" two_sessions))))))
  = Some (demo_session "001" (Some "general")).
Proof.
  apply (kill_is_undone_by_restart "/srv/sessions" "claude_" two_sessions "001"
           (demo_session "001" (Some "general"))
           (demo_session "001" (Some "general"))
           consistent_two_sessions eq_refl).
  eexists. split; reflexivity.
Defined.

Lemma loaded_global (s : Session) (r : Registry) :
  global_active_session (loaded s r)
  = if truthy (global_active_session r) then global_active_session r
    else Some (id s).
Proof.
  unfold loaded. destruct (topic s) as [[|c t]|]; cbn;
    destruct (truthy (global_active_session r)); reflexivity.
Qed.

Lemma fold_loaded_global (l : list Session) (r : Registry) :
  (forall s, In s l -> id s <> EmptyString) ->
  global_active_session (fold_left (fun r' s => loaded s r') l r)
  = if truthy (global_active_session r) then global_active_session r
    else match l with
         | [] => global_active_session r
         | s :: _ => Some (id s)
         end.
Proof.
  revert r. induction l as [|s l IH]; intros r Hne; cbn.
  - now destruct (truthy (global_active_session r)).
  - rewrite IH by (intros x Hx; apply Hne; now right). rewrite loaded_global.
    destruct (truthy (global_active_session r)) eqn:Eg.
    + now rewrite Eg.
    + cbn. destruct (id s) eqn:Ei; [now elim (Hne s (or_introl eq_refl))|].
      reflexivity.
Qed.

(** X6.  After a start, the global fallback is the first record of the
    store that can be read, in the order of the directory listing; later
    records do not replace it.  (No stored id is the empty string.) *)
Theorem restart_global_is_first (base prefix : string) (w : World) :
  stored_ids_nonempty (store w) ->
  global_active_session (fst (init base prefix w))
  = match readable (store w) with
    | [] => None
    | s :: _ => Some (id s)
    end.
Proof.
  intros Hne. destruct (init_registry base prefix w) as [-> _].
  rewrite fold_loaded_global; [reflexivity|].
  intros s Hin. apply readable_in in Hin as [d [items [Hin Hj]]].
  exact (Hne d items s Hin Hj).
Qed.

Lemma stored_ids_two_sessions : stored_ids_nonempty (store (snd two_sessions)).
Proof.
  intros d items s [[= <- <-]|[[= <- <-]|[]]]; cbn; intros [= <-]; discriminate.
Qed.

Lemma restart_global_is_first_witness :
  global_active_session (fst (init "/srv/sessions" "claude_" (snd two_sessions)))
  = Some "001".
Proof.
  exact (restart_global_is_first "/srv/sessions" "claude_" (snd two_sessions)
           stored_ids_two_sessions).
Defined.

Lemma loaded_topics (s : Session) (r : Registry) (t : string) :
  t <> EmptyString ->
  Dict.get t (topic_sessions (loaded s r))
  = if has_topic t s then Some (id s) else Dict.get t (topic_sessions r).
Proof.
  intros Hne. unfold loaded, has_topic.
  destruct (topic s) as [[|c t']|].
  - destruct t as [|a t0]; [contradiction|].
    destruct (negb _); reflexivity.
  - destruct (negb _); apply get_set_get.
  - destruct (negb _); reflexivity.
Qed.

Lemma fold_loaded_topics (l : list Session) (r : Registry) (t : string) :
  t <> EmptyString ->
  Dict.get t (topic_sessions (fold_left (fun r' s => loaded s r') l r))
  = match last_such (has_topic t) l with
    | Some s => Some (id s)
    | None => Dict.get t (topic_sessions r)
    end.
Proof.
  intros Hne. revert r. induction l as [|s l IH]; intros r; cbn; [reflexivity|].
  rewrite IH. destruct (last_such (has_topic t) l); [reflexivity|].
  rewrite loaded_topics by exact Hne. now destruct (has_topic t s).
Qed.

Lemma restart_rebuilds_topics_lemma (base prefix : string) (w : World) (t : string) :
  Dict.get t (topic_sessions (fst (init base prefix w)))
  = if String.eqb t EmptyString then None
    else match last_such (has_topic t) (readable (store w)) with
         | Some s => Some (id s)
         | None => None
         end.
Proof.
  destruct (init_registry base prefix w) as [-> _].
  destruct (String.eqb_spec t EmptyString) as [->|Hne].
  - generalize (readable (store w)). intros l.
    assert (H : forall r, Dict.get EmptyString (topic_sessions r) = None ->
                Dict.get EmptyString
                  (topic_sessions (fold_left (fun r' s => loaded s r') l r)) = None).
    { induction l as [|s l IH]; intros r Hr; cbn; [exact Hr|]. apply IH.
      unfold loaded. destruct (topic s) as [[|c t']|];
        destruct (negb _); cbn; rewrite ?get_set_get; cbn; exact Hr. }
    apply H. reflexivity.
  - now rewrite fold_loaded_topics.
Qed.

(** X7.  After a start the topic index is rebuilt from the [topic] fields
    of the stored records alone: a topic maps to the id of the last
    readable record that carries it, and to nothing when no record does. *)
Theorem restart_rebuilds_topics (base prefix : string) (w : World) (t : string) :
  Dict.get t (topic_sessions (fst (init base prefix w)))
  = if String.eqb t EmptyString then None
    else match last_such (has_topic t) (readable (store w)) with
         | Some s => Some (id s)
         | None => None
         end.
Proof.
  exact (restart_rebuilds_topics_lemma base prefix w t).
Qed.

End RestartMore.

Section Persistence.

Import SessionManager Notions Scenarios Stored.

Lemma in_set {V} (k k' : string) (v e : V) (d : Dict.t V) :
  In (k', e) (Dict.set k v d) -> (k' = k /\ e = v) \/ In (k', e) d.
Proof.
  induction d as [|[k0 v0] d IH]; cbn.
  - intros [[= <- <-]|[]]. now left.
  - destruct (String.eqb_spec k0 k) as [->|Hne]; cbn.
    + intros [[= <- <-]|Hin]; [now left | right; now right].
    + intros [Heq|Hin]; [right; now left|].
      destruct (IH Hin) as [H|H]; [now left | right; now right].
Qed.

Lemma keys_set_present {V} (k : string) (v v0 : V) (d : Dict.t V) :
  Dict.get k d = Some v0 -> Dict.keys (Dict.set k v d) = Dict.keys d.
Proof.
  unfold Dict.keys. induction d as [|[k' v'] d IH]; cbn; [discriminate|].
  destruct (String.eqb_spec k' k) as [->|Hne]; cbn; [reflexivity|].
  intros H. now rewrite IH.
Qed.

Lemma keys_set_absent {V} (k : string) (v : V) (d : Dict.t V) :
  Dict.get k d = None -> Dict.keys (Dict.set k v d) = Dict.keys d ++ [k].
Proof.
  unfold Dict.keys. induction d as [|[k' v'] d IH]; cbn; [reflexivity|].
  destruct (String.eqb_spec k' k) as [->|Hne]; cbn; [discriminate|].
  intros H. now rewrite IH.
Qed.

Lemma get_none_not_key {V} (k : string) (d : Dict.t V) :
  Dict.get k d = None -> ~ In k (Dict.keys d).
Proof.
  induction d as [|[k' v'] d IH]; cbn; [tauto|].
  destruct (String.eqb_spec k' k) as [->|Hne]; [discriminate|].
  intros H [Heq|Hin]; [contradiction | now apply IH].
Qed.

Lemma nodup_keys_set {V} (k : string) (v : V) (d : Dict.t V) :
  NoDup (Dict.keys d) -> NoDup (Dict.keys (Dict.set k v d)).
Proof.
  intros Hnd. destruct (Dict.get k d) as [v0|] eqn:E.
  - now rewrite (keys_set_present k v v0 d E).
  - rewrite (keys_set_absent k v d E).
    apply NoDup_app; [exact Hnd | repeat constructor; tauto |].
    intros x Hx [<-|[]]. now apply (get_none_not_key _ _ E).
Qed.

(** Putting a directory under its name keeps the store consistent when the
    record in it, if there is one, has that name as its id. *)
Lemma consistent_set (k : string) (items : Dict.t item) (entries : Dict.t entry) :
  consistent entries ->
  (forall s, Dict.get session_json items = Some (ItemFile (Stored s)) -> id s = k) ->
  consistent (Dict.set k (EntryDir items) entries).
Proof.
  intros [Hnd Hid] Hk. split; [now apply nodup_keys_set|].
  intros d i s Hin Hj. apply in_set in Hin as [[-> [= ->]]|Hin].
  - now apply Hk.
  - exact (Hid d i s Hin Hj).
Qed.

(** What [write_session_json] does to the world. *)
Lemma write_session_json_world (base name : string) (data : Session)
    (r : Registry) (w : World) :
  let out := write_session_json base name data (r, w) in
  tmux (snd (snd out)) = tmux w
  /\ faults (snd (snd out)) = faults w
  /\ clock (snd (snd out)) = clock w
  /\ match fst out with
     | Ok _ =>
         exists items,
           Dict.get name (store w) = Some (EntryDir items)
           /\ store (snd (snd out))
              = Dict.set name
                  (EntryDir (Dict.set session_json (ItemFile (Stored data)) items))
                  (store w)
     | Raise _ => snd (snd out) = w
     end.
Proof.
  unfold write_session_json, bind, world. cbn.
  destruct (Dict.get name (store w)) as [[|items]|] eqn:E; cbn; auto.
  destruct (Dict.get session_json items) as [[|c]|]; cbn; auto;
    (repeat split; try reflexivity; exists items; auto).
Qed.

Lemma save_session_world (sid : string) (s : Session) (r : Registry) (w : World) :
  Dict.get sid (sessions r) = Some s ->
  save_session sid (r, w) = write_session_json (base_dir r) sid s (r, w).
Proof.
  intros H. unfold save_session, bind, registry. cbn. now rewrite H.
Qed.

(** The world after [switch_session] on a registered id. *)
Lemma switch_session_world (sid topic : string) (s : Session)
    (r : Registry) (w : World) :
  Dict.get sid (sessions r) = Some s ->
  let out := switch_session sid topic (r, w) in
  let w' := snd (snd out) in
  let s' := with_last_active (clock w) s in
  tmux w' = tmux w /\ faults w' = faults w
  /\ match fst out with
     | Ok b =>
         b = true
         /\ exists items,
              Dict.get sid (store w) = Some (EntryDir items)
              /\ store w'
                 = Dict.set sid
                     (EntryDir (Dict.set session_json (ItemFile (Stored s')) items))
                     (store w)
     | Raise _ => store w' = store w
     end.
Proof.
  intros H. cbn zeta. unfold switch_session, bind, registry, Dict.mem. cbn.
  rewrite H. cbn. rewrite H. cbn. rewrite get_set_same.
  match goal with
  | |- context [write_session_json ?b ?n ?d (?r0, ?w0)] =>
      pose proof (write_session_json_world b n d r0 w0) as Hw;
      cbn zeta in Hw;
      destruct (write_session_json b n d (r0, w0)) as [[u|e] [r' w']]
  end; cbn in *; destruct Hw as [Ht [Hf [Hc Hs]]].
  - split; [exact Ht|]. split; [exact Hf|]. split; [reflexivity|]. exact Hs.
  - subst w'. auto.
Qed.

End Persistence.

Section SwitchAndRestart.

Import SessionManager Notions Scenarios Stored.

Lemma readable_set (k : string) (items : Dict.t item) (entries : Dict.t entry)
    (s : Session) :
  In s (readable (Dict.set k (EntryDir items) entries)) ->
  Dict.get session_json items = Some (ItemFile (Stored s))
  \/ In s (readable entries).
Proof.
  intros Hin. apply readable_in in Hin as [d [i [Hin Hj]]].
  apply in_set in Hin as [[-> [= ->]]|Hin]; [now left|].
  right. apply readable_in. now exists d, i.
Qed.

(** X8.  A record that [switch_session] has saved is what the next start
    loads: when the call returns [True], on a consistent store and for a
    record registered under its own id, the store stays consistent and the
    session of the restarted registry is the session of the registry
    before the restart, new [last_active] included. *)
Theorem switch_survives_restart (base prefix : string) (r : Registry) (w : World)
    (sid t : string) (s : Session) :
  Dict.get sid (sessions r) = Some s ->
  id s = sid ->
  consistent (store w) ->
  fst (switch_session sid t (r, w)) = Ok true ->
  let st1 := snd (switch_session sid t (r, w)) in
  consistent (store (snd st1))
  /\ Dict.get sid (sessions (fst st1)) = Some (with_last_active (clock w) s)
  /\ Dict.get sid (sessions (fst (init base prefix (snd st1))))
     = Some (with_last_active (clock w) s).
Proof.
  intros Hreg Hid Hc Hok st1. subst st1.
  pose proof (switch_session_registered sid t s r w Hreg) as Hr.
  pose proof (switch_session_world sid t s r w Hreg) as Hw. cbn zeta in Hw.
  destruct (switch_session sid t (r, w)) as [[b|e] [r1 w1]]; cbn [fst snd] in *;
    [|discriminate].
  destruct Hw as [_ [_ [_ [items [Hg Hs]]]]].
  assert (Hc1 : consistent (store w1)).
  { rewrite Hs. apply consistent_set; [exact Hc|].
    intros s'. rewrite get_set_same. now intros [= <-]. }
  split; [exact Hc1|]. split.
  - rewrite Hr. cbn. apply get_set_same.
  - apply restart_loads_the_store_lemma; [exact Hc1|].
    exists (Dict.set session_json (ItemFile (Stored (with_last_active (clock w) s))) items).
    rewrite Hs. split; apply get_set_same.
Qed.

Lemma switch_survives_restart_witness :
  let st1 := snd (switch_session "002" "ops" two_sessions) in
  Dict.get "002" (sessions (fst (init "/srv/sessions" "claude_" (snd st1))))
  = Some (with_last_active 5 (demo_session "002" None)).
Proof.
  exact (proj2 (proj2 (switch_survives_restart "/srv/sessions" "claude_"
                         (fst two_sessions) (snd two_sessions) "002" "ops"
                         (demo_session "002" None) eq_refl eq_refl
                         consistent_two_sessions eq_refl))).
Defined.

(** X9.  The mapping that [switch_session] makes lives in memory only.
    When neither the switched session nor any stored record carries the
    topic in its [topic] field, the topic maps to the session after the
    call and to nothing after the next start. *)
Theorem switch_mapping_is_forgotten (base prefix : string) (r : Registry)
    (w : World) (sid t : string) (s : Session) :
  Dict.get sid (sessions r) = Some s ->
  t <> EmptyString ->
  topic s <> Some t ->
  (forall s', In s' (readable (store w)) -> topic s' <> Some t) ->
  let st1 := snd (switch_session sid t (r, w)) in
  Dict.get t (topic_sessions (fst st1)) = Some sid
  /\ Dict.get t (topic_sessions (fst (init base prefix (snd st1)))) = None.
Proof.
  intros Hreg Hne Hts Hstore st1. subst st1.
  pose proof (switch_session_registered sid t s r w Hreg) as Hr.
  pose proof (switch_session_world sid t s r w Hreg) as Hw. cbn zeta in Hw.
  destruct (switch_session sid t (r, w)) as [out [r1 w1]]; cbn [fst snd] in *.
  split; [rewrite Hr; cbn; apply get_set_same|].
  rewrite restart_rebuilds_topics_lemma.
  destruct (String.eqb_spec t EmptyString) as [->|_]; [contradiction|].
  rewrite last_such_none; [reflexivity|].
  intros s' Hin. unfold has_topic.
  assert (Hno : topic s' <> Some t).
  { destruct Hw as [_ [_ Hw]]. destruct out as [b|e].
    - destruct Hw as [_ [items [Hg Hs]]]. rewrite Hs in Hin.
      apply readable_set in Hin as [Hj|Hin]; [|now apply Hstore].
      rewrite get_set_same in Hj. injection Hj as <-. exact Hts.
    - rewrite Hw in Hin. now apply Hstore. }
  destruct (topic s') as [t'|]; [|reflexivity].
  destruct (String.eqb_spec t' t) as [->|]; [now elim Hno | reflexivity].
Qed.

Lemma switch_mapping_is_forgotten_witness :
  let st1 := snd (switch_session "002" "ops" two_sessions) in
  Dict.get "ops" (topic_sessions (fst st1)) = Some "002"
  /\ Dict.get "ops" (topic_sessions (fst (init "/srv/sessions" "claude_" (snd st1))))
     = None.
Proof.
  apply (switch_mapping_is_forgotten "/srv/sessions" "claude_"
           (fst two_sessions) (snd two_sessions) "002" "ops"
           (demo_session "002" None) eq_refl);
    [discriminate | discriminate |].
  cbn. intros s' [<-|[<-|[]]]; discriminate.
Defined.

End SwitchAndRestart.

Section CreateAndRestart.

Import SessionManager Notions Scenarios Stored.

Lemma get_in {V} (k : string) (v : V) (d : Dict.t V) :
  Dict.get k d = Some v -> In (k, v) d.
Proof.
  induction d as [|[k' v'] d IH]; cbn; [discriminate|].
  destruct (String.eqb_spec k' k) as [->|Hne].
  - intros [= ->]. now left.
  - intros H. right. now apply IH.
Qed.

(** Whatever its outcome, [create_session] leaves a consistent store
    consistent. *)
Lemma create_session_keeps_consistent (name : string) (topic : option string)
    (r : Registry) (w : World) :
  consistent (store w) ->
  consistent (store (snd (snd (create_session name topic (r, w))))).
Proof.
  intros Hc. unfold create_session, generate_session_id.
  unfold bind at 1. unfold bind at 1. cbn -[first_unused].
  destruct (first_unused (Dict.keys (sessions r)) 1 999) as [sid0|e] eqn:Hid;
    cbn -[first_unused]; [|exact Hc].
  assert (Hold : forall items s,
             Dict.get sid0 (store w) = Some (EntryDir items) ->
             Dict.get session_json items = Some (ItemFile (Stored s)) ->
             id s = sid0).
  { intros items s Hg Hj. apply get_in in Hg. exact (proj2 Hc _ _ _ Hg Hj). }
  unfold bind, mkdir_entry, mkdir_item, write_session_json, entry_exists,
    rmdir_entry, Dict.mem, world. cbn.
  repeat (first
    [ step_store
    | match goal with
      | |- context [if existsb ?f ?l then _ else _] => destruct (existsb f l)
      | |- context [match faults w with _ => _ end] =>
          destruct (faults w) as [|[|] ?]
      | |- context [match Dict.set ?k ?v ?d with _ => _ end] =>
          let E := fresh "E" in
          destruct (set_nonempty k v d) as [? [? E]]; rewrite E
      end ]; cbn);
  try exact Hc;
  try (destruct topic as [[|c0 t0]|]; cbn);
  repeat match goal with
         | E : Dict.set _ _ _ = _ :: _ |- _ => rewrite <- E; clear E
         end;
  repeat (apply consistent_set; [|
    intros s0; rewrite ?get_set_get; cbn;
    first [ discriminate | now intros [= <-]
          | intros H; eapply Hold; [reflexivity | exact H]
          | intros H; rewrite H in *; discriminate ] ]);
  try exact Hc.
Qed.


(** X10.  A session that [create_session] made is there after a restart:
    on a consistent store, when the call succeeds, the restarted registry
    has the record under its id, field for field as the call registered
    it. *)
Theorem create_survives_restart (base prefix : string) (r : Registry) (w : World)
    (name : string) (topic : option string) (sid : string) :
  consistent (store w) ->
  first_unused (Dict.keys (sessions r)) 1 999 = Ok sid ->
  dir_usable sid w = true ->
  hd false (faults w) = false ->
  let st1 := snd (create_session name topic (r, w)) in
  Dict.get sid (sessions (fst st1)) = Some (new_record r (clock w) sid name topic)
  /\ Dict.get sid (sessions (fst (init base prefix (snd st1))))
     = Some (new_record r (clock w) sid name topic).
Proof.
  intros Hc Hid Hdir Hf st1. subst st1.
  pose proof (create_session_keeps_consistent name topic r w Hc) as Hc1.
  destruct (create_session_ok_lemma r w name topic sid Hid Hdir Hf)
    as [_ [Hs [_ [_ [_ [[items [Hg [_ Hj]]] _]]]]]].
  split.
  - rewrite Hs. apply get_set_same.
  - apply restart_loads_the_store_lemma; [exact Hc1|]. now exists items.
Qed.

Lemma create_survives_restart_witness :
  let st1 := snd (create_session "demo" (Some "general")
                    (fresh_registry, fresh_world false)) in
  Dict.get "001" (sessions (fst (init "/srv/sessions" "claude_" (snd st1))))
  = Some (new_record fresh_registry 0 "001" "demo" (Some "general")).
Proof.
  refine (proj2 (create_survives_restart "/srv/sessions" "claude_" fresh_registry
                   (fresh_world false) "demo" (Some "general") "001"
                   _ eq_refl eq_refl eq_refl)).
  split; [constructor | intros d i s []].
Defined.

(** X11.  The session that [create_session] made for a topic that is not
    empty is the current session of that topic; the sessions that were
    registered are as they were, none under the new id; and the tmux
    session of the new record is alive. *)
Theorem create_session_takes_topic (r : Registry) (w : World) (name t : string)
    (sid : string) :
  first_unused (Dict.keys (sessions r)) 1 999 = Ok sid ->
  dir_usable sid w = true ->
  hd false (faults w) = false ->
  t <> EmptyString ->
  let st1 := snd (create_session name (Some t) (r, w)) in
  get_current_session t (fst st1)
  = Some (new_record r (clock w) sid name (Some t))
  /\ Dict.get sid (sessions r) = None
  /\ (forall other, other <> sid ->
        Dict.get other (sessions (fst st1)) = Dict.get other (sessions r))
  /\ is_live (tmux_session (new_record r (clock w) sid name (Some t))) (snd st1)
     = true.
Proof.
  intros Hid Hdir Hf Hne st1. subst st1.
  destruct (create_session_ok_lemma r w name (Some t) sid Hid Hdir Hf)
    as [_ [Hs [Ht [_ [Htm _]]]]].
  assert (Hsid : sid <> EmptyString) by exact (first_unused_nonempty _ _ _ _ Hid).
  assert (Hfree : Dict.get sid (sessions r) = None).
  { destruct (first_unused_ok _ _ _ _ Hid) as [j [_ [_ [Hm _]]]].
    rewrite mem_keys in Hm. unfold Dict.mem in Hm.
    now destruct (Dict.get sid (sessions r)). }
  split; [|split; [exact Hfree | split]].
  - unfold get_current_session. rewrite Ht, Hs.
    destruct t as [|c t']; [contradiction|]. cbn.
    rewrite get_set_same. destruct sid as [|a sid']; [contradiction|]. cbn.
    now rewrite get_set_same.
  - intros other Hother. rewrite Hs. now apply get_set_other.
  - unfold is_live. rewrite Htm, existsb_app. cbn.
    rewrite String.eqb_refl. apply orb_true_r.
Qed.

Lemma create_session_takes_topic_witness :
  get_current_session "general"
    (fst (snd (create_session "demo" (Some "general")
                 (fresh_registry, fresh_world false))))
  = Some (new_record fresh_registry 0 "001" "demo" (Some "general")).
Proof.
  apply (create_session_takes_topic fresh_registry (fresh_world false) "demo"
           "general" "001" eq_refl eq_refl eq_refl).
  discriminate.
Defined.

End CreateAndRestart.

Section Routing.

Import SessionManager SessionOps Notions Scenarios Stored.

(** [get_current_session] returns registered sessions only, found through
    the topic index or through the global fallback, under an id that is
    not empty. *)
Lemma get_current_session_registered (topic : string) (r : Registry) (s : Session) :
  get_current_session topic r = Some s ->
  exists sid, sid <> EmptyString
              /\ Dict.get sid (sessions r) = Some s
              /\ (Dict.get topic (topic_sessions r) = Some sid
                  \/ global_active_session r = Some sid).
Proof.
  unfold get_current_session.
  destruct (Dict.get topic (topic_sessions r)) as [[|c sid]|] eqn:Et; cbn.
  2:{ destruct (Dict.get (String c sid) (sessions r)) as [s'|] eqn:Es.
      - intros [= <-]. exists (String c sid). repeat split; auto. discriminate.
      - destruct (global_active_session r) as [[|c' g]|] eqn:Eg; cbn; try discriminate.
        intros H. exists (String c' g). repeat split; auto. discriminate. }
  all: destruct (global_active_session r) as [[|c' g]|] eqn:Eg; cbn; try discriminate;
       intros H; exists (String c' g); repeat split; auto; discriminate.
Qed.

(** X12.  After [kill_session] no topic reaches the killed session: what
    [get_current_session] returns, for any topic, is registered under
    another id, also when the topic index or the global fallback still
    name the killed id. *)
Theorem killed_session_is_never_current (sid topic : string) (st : state)
    (s : Session) :
  get_current_session topic (fst (snd (kill_session sid st))) = Some s ->
  exists other, other <> sid
                /\ Dict.get other (sessions (fst st)) = Some s
                /\ Dict.get other (sessions (fst (snd (kill_session sid st)))) = Some s.
Proof.
  intros H. apply get_current_session_registered in H as [other [_ [Hg _]]].
  destruct st as [r w]. cbn [fst] in *.
  destruct (Dict.get sid (sessions r)) as [s0|] eqn:E.
  - destruct (kill_session_registered sid s0 r w E) as [ts [Hk _]].
    rewrite Hk in *. cbn [fst snd] in *. cbn in Hg.
    destruct (String.eqb_spec other sid) as [->|Hne].
    + rewrite get_del_same in Hg. discriminate.
    + exists other. rewrite get_del_other in Hg by exact Hne. split; [exact Hne|].
      split; [exact Hg|]. cbn. now rewrite get_del_other.
  - rewrite (kill_session_unknown sid (r, w) E) in *. cbn [fst snd] in *.
    exists other. split; [congruence|]. auto.
Qed.

Lemma killed_session_is_never_current_witness :
  let st := snd (switch_session "002" "ops" two_sessions) in
  exists other, other <> "001"
    /\ Dict.get other (sessions (fst st))
       = Some (with_last_active 5 (demo_session "002" None))
    /\ Dict.get other (sessions (fst (snd (kill_session "001" st))))
       = Some (with_last_active 5 (demo_session "002" None)).
Proof.
  exact (killed_session_is_never_current "001" "ops"
           (snd (switch_session "002" "ops" two_sessions))
           (with_last_active 5 (demo_session "002" None)) eq_refl).
Defined.

Lemma save_session_registry (sid : string) (st : state) :
  fst (snd (save_session sid st)) = fst st.
Proof.
  destruct st as [r w]. unfold save_session, bind, registry. cbn.
  destruct (Dict.get sid (sessions r)); [|reflexivity].
  apply write_session_json_registry.
Qed.

Lemma save_session_tmux (sid : string) (st : state) :
  tmux (snd (snd (save_session sid st))) = tmux (snd st).
Proof.
  destruct st as [r w]. unfold save_session, bind, registry. cbn.
  destruct (Dict.get sid (sessions r)); [|reflexivity].
  apply write_session_json_world.
Qed.

(** X13.  [sleep_session] only marks the record: the session stays the
    current session of its topic, now with the status [sleeping], its tmux
    session is not touched, and nothing else in the registry changes. *)
Theorem sleeping_session_stays_current (sid t : string) (s : Session)
    (r : Registry) (w : World) :
  Dict.get sid (sessions r) = Some s ->
  Dict.get t (topic_sessions r) = Some sid ->
  sid <> EmptyString ->
  let st1 := snd (sleep_session sid (r, w)) in
  get_current_session t r = Some s
  /\ get_current_session t (fst st1) = Some (with_status "sleeping" s)
  /\ tmux (snd st1) = tmux w
  /\ topic_sessions (fst st1) = topic_sessions r
  /\ global_active_session (fst st1) = global_active_session r
  /\ (forall other, other <> sid ->
        Dict.get other (sessions (fst st1)) = Dict.get other (sessions r)).
Proof.
  intros Hreg Ht Hne st1. subst st1.
  unfold sleep_session, bind, registry. cbn -[save_session]. rewrite Hreg.
  cbn -[save_session].
  match goal with
  | |- context [save_session ?k ?st0] =>
      pose proof (save_session_registry k st0) as Hr;
      pose proof (save_session_tmux k st0) as Htm;
      destruct (save_session k st0) as [[u|e] [r1 w1]]
  end; cbn [fst snd] in *; subst r1; unfold ret; cbn [fst snd];
  (split; [unfold get_current_session; rewrite Ht;
           destruct sid; [contradiction|]; cbn; now rewrite Hreg |]);
  (split; [unfold get_current_session; cbn; rewrite Ht;
           destruct sid; [contradiction|]; cbn; now rewrite get_set_same |]);
  (split; [exact Htm|]); (split; [reflexivity|]); (split; [reflexivity|]);
  intros other Hother; cbn; now apply get_set_other.
Qed.

Lemma sleeping_session_stays_current_witness :
  get_current_session "general"
    (fst (snd (sleep_session "001" two_sessions)))
  = Some (with_status "sleeping" (demo_session "001" (Some "general"))).
Proof.
  apply (sleeping_session_stays_current "001" "general"
           (demo_session "001" (Some "general"))
           (fst two_sessions) (snd two_sessions) eq_refl eq_refl).
  discriminate.
Defined.

Lemma add_context_file_present (sid filename : string) (s : Session) (st : state) :
  Dict.get sid (sessions (fst st)) = Some s ->
  Py.mem filename (context_files s) = true ->
  add_context_file sid filename st = (Ok true, st).
Proof.
  destruct st as [r w]. cbn [fst]. intros Hreg Hm.
  unfold add_context_file, bind, registry. cbn -[save_session].
  rewrite Hreg. cbn -[save_session]. now rewrite Hm.
Qed.

Lemma add_context_file_new (sid filename : string) (s : Session)
    (r : Registry) (w : World) :
  Dict.get sid (sessions r) = Some s ->
  Py.mem filename (context_files s) = false ->
  fst (snd (add_context_file sid filename (r, w)))
  = set_sessions
      (Dict.set sid (with_context_files (context_files s ++ [filename]) s)
         (sessions r)) r.
Proof.
  intros Hreg Hm.
  unfold add_context_file, bind, registry. cbn -[save_session].
  rewrite Hreg. cbn -[save_session]. rewrite Hm. cbn -[save_session].
  match goal with
  | |- context [save_session ?k ?st0] =>
      pose proof (save_session_registry k st0) as Hr;
      destruct (save_session k st0) as [[u|e] [r1 w1]]
  end; cbn [fst snd] in *; now subst r1.
Qed.

(** X14.  [add_context_file] keeps the list of context files free of
    repetitions and in the order of arrival: a new name goes to the end, a
    name that is there changes nothing, not even the store.  Adding the
    same name a second time is such a call. *)
Theorem add_context_file_once (sid filename : string) (s : Session)
    (r : Registry) (w : World) :
  Dict.get sid (sessions r) = Some s ->
  NoDup (context_files s) ->
  let st1 := snd (add_context_file sid filename (r, w)) in
  (exists s1,
     Dict.get sid (sessions (fst st1)) = Some s1
     /\ context_files s1
        = (if Py.mem filename (context_files s) then context_files s
           else context_files s ++ [filename])
     /\ NoDup (context_files s1)
     /\ In filename (context_files s1)
     /\ with_context_files (context_files s) s1 = s)
  /\ add_context_file sid filename st1 = (Ok true, st1).
Proof.
  intros Hreg Hnd st1. subst st1.
  destruct (Py.mem filename (context_files s)) eqn:Em.
  - rewrite (add_context_file_present sid filename s (r, w) Hreg Em). cbn [fst snd].
    split; [|exact (add_context_file_present sid filename s (r, w) Hreg Em)].
    exists s. repeat split; auto; [now apply mem_iff | now destruct s].
  - pose proof (add_context_file_new sid filename s r w Hreg Em) as Hr.
    destruct (add_context_file sid filename (r, w)) as [out [r1 w1]].
    cbn [fst snd] in *. subst r1.
    assert (Hm : Py.mem filename (context_files s ++ [filename]) = true)
      by (apply mem_iff, in_or_app; right; now left).
    split.
    + exists (with_context_files (context_files s ++ [filename]) s). cbn.
      rewrite get_set_same. repeat split; auto.
      * apply NoDup_app; [exact Hnd | repeat constructor; tauto |].
        intros x Hx [<-|[]]. apply mem_iff in Hx. congruence.
      * apply in_or_app. right. now left.
      * now destruct s.
    + eapply add_context_file_present; [cbn; apply get_set_same | exact Hm].
Qed.

Lemma add_context_file_once_witness :
  let st1 := snd (add_context_file "001" "notes.md" two_sessions) in
  add_context_file "001" "notes.md" st1 = (Ok true, st1).
Proof.
  refine (proj2 (add_context_file_once "001" "notes.md"
                   (demo_session "001" (Some "general"))
                   (fst two_sessions) (snd two_sessions) eq_refl _)).
  constructor.
Defined.


(** X15.  [set_working_directory] changes nothing and returns [False] for
    an id that is not registered and for a path that, expanded, does not
    exist.  Otherwise the record gets the expanded path, whether or not the
    tmux session is alive to receive the [cd]; the other sessions, the
    topic index and the tmux sessions are as they were. *)
Theorem set_working_directory_checks (expanduser : string -> string)
    (path_exists : string -> bool) (sid dir : string) (r : Registry) (w : World) :
  (Dict.get sid (sessions r) = None \/ path_exists (expanduser dir) = false ->
   set_working_directory expanduser path_exists sid dir (r, w) = (Ok false, (r, w)))
  /\ (forall s,
        Dict.get sid (sessions r) = Some s ->
        path_exists (expanduser dir) = true ->
        let st1 := snd (set_working_directory expanduser path_exists sid dir (r, w)) in
        Dict.get sid (sessions (fst st1))
        = Some (with_working_dir (expanduser dir) s)
        /\ (forall other, other <> sid ->
              Dict.get other (sessions (fst st1)) = Dict.get other (sessions r))
        /\ topic_sessions (fst st1) = topic_sessions r
        /\ tmux (snd st1) = tmux w).
Proof.
  split.
  - intros H. unfold set_working_directory, bind, registry. cbn -[save_session].
    destruct (Dict.get sid (sessions r)) as [s|]; [|reflexivity].
    destruct H as [H|H]; [discriminate|]. now rewrite H.
  - intros s Hreg Hex st1. subst st1.
    unfold set_working_directory, bind, registry, tmux_send_keys, world.
    cbn -[save_session]. rewrite Hreg, Hex. cbn -[save_session].
    match goal with
    | |- context [save_session ?k ?st0] =>
        pose proof (save_session_registry k st0) as Hr;
        pose proof (save_session_tmux k st0) as Htm;
        destruct (save_session k st0) as [[u|e] [r1 w1]]
    end; cbn [fst snd] in *; subst r1; unfold ret; cbn [fst snd];
    (split; [cbn; apply get_set_same|]);
    (split; [intros other Hother; cbn; now apply get_set_other|]);
    (split; [reflexivity | exact Htm]).
Qed.

Lemma set_working_directory_checks_witness :
  set_working_directory (fun p => p) (fun p => String.eqb p "/tmp")
    "001" "/nowhere" two_sessions
  = (Ok false, two_sessions).
Proof.
  apply (proj1 (set_working_directory_checks (fun p => p)
                  (fun p => String.eqb p "/tmp") "001" "/nowhere"
                  (fst two_sessions) (snd two_sessions))).
  right. reflexivity.
Defined.

End Routing.

(* ================================================================== *)
(** * The scrapers, line by line *)
(* ================================================================== *)

Section ShellScraper.

Import TerminalBridge Lines.

Lemma clean_cons (raw : string) (lines : list string) :
  clean (raw :: lines)
  = if nonempty (Py.strip raw) then Py.strip raw :: clean lines else clean lines.
Proof. reflexivity. Qed.

Lemma scan_found (command : string) (lines out : list string) :
  fold_left (scan_line command) lines (true, out)
  = (true, out ++ filter (fun l => negb (is_command command l)) (clean lines)).
Proof.
  revert out. induction lines as [|raw lines IH]; intros out; cbn [fold_left].
  - cbn. now rewrite app_nil_r.
  - rewrite clean_cons. unfold scan_line at 2.
    destruct (nonempty (Py.strip raw)) eqn:En; cbn [negb]; [|apply IH].
    cbn [filter]. unfold is_command at 1.
    destruct (String.eqb (Py.strip raw) command) eqn:Ec; cbn [negb andb].
    + apply IH.
    + rewrite IH. now rewrite <- app_assoc.
Qed.

Lemma scan_lines_after_anchor_lemma (command : string) (lines : list string) :
  scan_lines command lines
  = match after_first (is_command command) (clean lines) with
    | None => (false, [])
    | Some rest => (true, filter (fun l => negb (is_command command l)) rest)
    end.
Proof.
  unfold scan_lines. induction lines as [|raw lines IH]; cbn [fold_left].
  - reflexivity.
  - rewrite clean_cons. unfold scan_line at 2.
    destruct (nonempty (Py.strip raw)) eqn:En; cbn [negb]; [|exact IH].
    cbn [after_first]. unfold is_command at 1.
    destruct (String.eqb (Py.strip raw) command) eqn:Ec.
    + now rewrite scan_found.
    + cbn [negb andb].
      destruct (Py.has_char "$" (Py.strip raw) || Py.has_char ">" (Py.strip raw));
        exact IH.
Qed.

(** X16.  The scan of shell mode.  With no line equal to the command, it
    keeps nothing.  Otherwise it keeps, in order, every line after the
    first such line, prompts included, except further lines equal to the
    command.  (Lines are stripped and blank lines dropped first.) *)
Theorem scan_lines_after_anchor (command : string) (lines : list string) :
  scan_lines command lines
  = match after_first (is_command command) (clean lines) with
    | None => (false, [])
    | Some rest => (true, filter (fun l => negb (is_command command l)) rest)
    end.
Proof.
  exact (scan_lines_after_anchor_lemma command lines).
Qed.

Lemma collect_meaningful_is (command : string) (todo acc : list string) :
  List.length acc < 3 ->
  collect_meaningful command todo acc
  = acc ++ firstn (3 - List.length acc) (filter (meaningful command) (clean todo)).
Proof.
  revert acc. induction todo as [|raw todo IH]; intros acc Hlen.
  - cbn. rewrite firstn_nil. now rewrite app_nil_r.
  - cbn [collect_meaningful]. rewrite clean_cons. unfold meaningful at 1.
    destruct (nonempty (Py.strip raw)) eqn:En; cbn [andb]; [|now apply IH].
    cbn [filter]. fold (meaningful command (Py.strip raw)).
    unfold meaningful at 1 2.
    destruct (negb (Py.strip raw =? command)%string && negb (Py.endswith (Py.strip raw) "$"))
      eqn:Em; [|now apply IH].
    rewrite length_app. cbn [List.length].
    destruct (Nat.leb_spec 3 (List.length acc + 1)) as [Hge|Hlt].
    + assert (Hl : List.length acc = 2) by lia. rewrite Hl. reflexivity.
    + rewrite IH by (rewrite length_app; cbn; lia).
      rewrite length_app. cbn [List.length]. rewrite <- app_assoc. cbn [app].
      destruct (3 - List.length acc) as [|n] eqn:E; [lia|].
      cbn [firstn]. do 3 f_equal. lia.
Qed.

Lemma clean_rev (lines : list string) : clean (rev lines) = rev (clean lines).
Proof.
  unfold clean. rewrite map_rev. 
  induction (map Py.strip lines) as [|x l IH]; [reflexivity|].
  cbn. rewrite filter_app, IH. cbn.
  destruct (nonempty x); cbn; [reflexivity | now rewrite app_nil_r].
Qed.

Lemma filter_rev' {A} (p : A -> bool) (l : list A) :
  filter p (rev l) = rev (filter p l).
Proof.
  induction l as [|x l IH]; [reflexivity|].
  cbn. rewrite filter_app, IH. cbn.
  destruct (p x); cbn; [reflexivity | now rewrite app_nil_r].
Qed.

Lemma rev_firstn_rev {A} (n : nat) (l : list A) :
  rev (firstn n (rev l)) = skipn (List.length l - n) l.
Proof.
  rewrite firstn_rev. apply rev_involutive.
Qed.

Lemma fallback_is_last_three_lemma (command : string) (lines : list string) :
  with_fallback command lines []
  = Py.slice_last 3 (filter (meaningful command) (clean lines)).
Proof.
  unfold with_fallback, Py.slice_last.
  rewrite collect_meaningful_is by (cbn; lia). cbn [app List.length].
  rewrite clean_rev, filter_rev'. apply rev_firstn_rev.
Qed.

(** X17.  The fallback of shell mode: the last three, in their order, of
    the lines that are not blank, not equal to the command and not ended
    by a dollar sign; fewer when there are fewer. *)
Theorem fallback_is_last_three (command : string) (lines : list string) :
  with_fallback command lines []
  = Py.slice_last 3 (filter (meaningful command) (clean lines)).
Proof.
  exact (fallback_is_last_three_lemma command lines).
Qed.

End ShellScraper.

Section ReplyShape.

Import TerminalBridge Lines.

Lemma clean_nonempty (lines : list string) (l : string) :
  In l (clean lines) -> l <> EmptyString.
Proof.
  unfold clean. intros H. apply filter_In in H as [_ H]. now destruct l.
Qed.

Lemma after_first_incl (p : string -> bool) (l rest : list string) :
  after_first p l = Some rest -> incl rest l.
Proof.
  induction l as [|x l IH]; cbn; [discriminate|].
  destruct (p x).
  - intros [= <-]. intros y Hy. now right.
  - intros H y Hy. right. now apply IH.
Qed.

Lemma skipn_incl {A} (n : nat) (l : list A) : incl (skipn n l) l.
Proof.
  revert l. induction n as [|n IH]; intros l; [apply incl_refl|].
  destruct l as [|x l]; [apply incl_refl|]. cbn. intros y Hy. right. now apply IH.
Qed.

Lemma firstn_incl {A} (n : nat) (l : list A) : incl (firstn n l) l.
Proof.
  revert l. induction n as [|n IH]; intros l; [intros y []|].
  destruct l as [|x l]; [apply incl_refl|]. cbn.
  intros y [<-|Hy]; [now left | right; now apply IH].
Qed.

(** The lines that shell mode keeps, before the cap, are lines of the
    pane. *)
Lemma kept_lines_incl (command : string) (lines : list string) :
  incl (with_fallback command lines (snd (scan_lines command lines))) (clean lines).
Proof.
  rewrite scan_lines_after_anchor_lemma.
  destruct (after_first (is_command command) (clean lines)) as [rest|] eqn:E;
    cbn [snd].
  - destruct (filter _ rest) as [|x out] eqn:Ef.
    + rewrite fallback_is_last_three_lemma. unfold Py.slice_last.
      intros y Hy. apply skipn_incl in Hy. now apply filter_In in Hy.
    + cbn [with_fallback]. rewrite <- Ef. intros y Hy.
      apply filter_In in Hy as [Hy _]. exact (after_first_incl _ _ _ E y Hy).
  - rewrite fallback_is_last_three_lemma. unfold Py.slice_last.
    intros y Hy. apply skipn_incl in Hy. now apply filter_In in Hy.
Qed.

Lemma join_nonempty (sep x : string) (l : list string) :
  x <> EmptyString -> Py.join sep (x :: l) <> EmptyString.
Proof.
  intros Hx. destruct x as [|c x]; [contradiction|].
  destruct l; cbn; discriminate.
Qed.

Lemma limit_output_in (kept : list string) (l : string) :
  In l (limit_output kept) -> l = truncation_marker \/ In l kept.
Proof.
  unfold limit_output, Py.slice_to, Py.slice_last.
  destruct (Nat.ltb 15 (List.length kept)); [|now right].
  intros H. apply in_app_or in H as [H|H].
  - right. now apply firstn_incl in H.
  - apply in_app_or in H as [[<-|[]]|H]; [now left|].
    right. now apply skipn_incl in H.
Qed.

Lemma split_on_no_sep (sep : ascii) (s x : string) :
  In x (Py.split_on sep s) -> Py.has_char sep x = false.
Proof.
  revert x. induction s as [|c s IH]; intros x; cbn [Py.split_on].
  - intros [<-|[]]. reflexivity.
  - destruct (Ascii.eqb c sep) eqn:Ec.
    + intros [<-|H]; [reflexivity | now apply IH].
    + destruct (Py.split_on sep s) as [|w ws] eqn:Es.
      * intros [<-|[]]. cbn. now rewrite Ec.
      * intros [<-|H].
        -- cbn. rewrite Ec. apply IH. now left.
        -- apply IH. now right.
Qed.

Lemma lstrip_no_char (c : ascii) (s : string) :
  Py.has_char c s = false -> Py.has_char c (Py.lstrip s) = false.
Proof.
  induction s as [|b s IH]; [reflexivity|]. cbn [Py.lstrip]. intros H.
  destruct (Py.isspace b); [|exact H].
  apply IH. cbn in H. now apply orb_false_iff in H.
Qed.

Lemma rstrip_no_char (c : ascii) (s : string) :
  Py.has_char c s = false -> Py.has_char c (Py.rstrip s) = false.
Proof.
  induction s as [|b s IH]; [reflexivity|]. cbn [Py.rstrip Py.has_char].
  intros H. apply orb_false_iff in H as [Hb Hs]. specialize (IH Hs).
  destruct (Py.rstrip s) as [|b' r'].
  - destruct (Py.isspace b); [reflexivity|]. cbn. now rewrite Hb.
  - cbn [Py.has_char]. rewrite Hb. exact IH.
Qed.

(** A stripped line of a text that was split at the line feeds holds no
    line feed. *)
Lemma clean_no_newline (text l : string) :
  In l (clean (Py.splitlines_n text)) -> Py.has_char Py.newline l = false.
Proof.
  unfold clean. intros H. apply filter_In in H as [H _].
  apply in_map_iff in H as [x [<- Hx]].
  apply rstrip_no_char, lstrip_no_char. exact (split_on_no_sep _ _ _ Hx).
Qed.

Lemma split_on_none (sep : ascii) (x : string) :
  Py.has_char sep x = false -> Py.split_on sep x = [x].
Proof.
  induction x as [|c x IH]; [reflexivity|]. cbn [Py.has_char Py.split_on].
  intros H. apply orb_false_iff in H as [Hc Hx]. rewrite Hc, (IH Hx). reflexivity.
Qed.

Lemma split_on_app (sep : ascii) (x rest : string) :
  Py.has_char sep x = false ->
  Py.split_on sep (x ++ String sep rest) = x :: Py.split_on sep rest.
Proof.
  induction x as [|c x IH]; intros H.
  - cbn [append Py.split_on]. now rewrite Ascii.eqb_refl.
  - cbn [Py.has_char] in H. apply orb_false_iff in H as [Hc Hx].
    cbn [append Py.split_on]. rewrite Hc, (IH Hx). reflexivity.
Qed.

(** The lines of a text that was joined with line feeds are the lines that
    were joined. *)
Lemma splitlines_join (l : list string) :
  l <> [] ->
  (forall x, In x l -> Py.has_char Py.newline x = false) ->
  Py.splitlines_n (Py.join (String Py.newline EmptyString) l) = l.
Proof.
  unfold Py.splitlines_n. induction l as [|x l IH]; [contradiction|].
  intros _ H. destruct l as [|y l].
  - cbn [Py.join]. apply split_on_none. apply H. now left.
  - change (Py.join (String Py.newline EmptyString) (x :: y :: l))
      with (x ++ String Py.newline (Py.join (String Py.newline EmptyString) (y :: l)))%string.
    rewrite split_on_app by (apply H; now left).
    f_equal. apply IH; [discriminate|]. intros z Hz. apply H. now right.
Qed.

(** X18.  The reply that shell mode makes of a captured pane is never
    empty.  When no line was kept, it is the notice that the command was
    executed with no output, which names the command.  Otherwise it has at
    most 15 lines, and each of its lines is the truncation marker or a line
    of the pane, stripped and not blank. *)
Theorem shell_reply_is_bounded (command stdout : string) :
  let lines := Py.splitlines_n (Py.strip stdout) in
  let out := limit_output
               (with_fallback command lines (snd (scan_lines command lines))) in
  scrape command stdout <> EmptyString
  /\ (out = [] ->
      scrape command stdout
      = ("Command '" ++ command ++ "' executed (no output)")%string)
  /\ (out <> [] -> Py.splitlines_n (scrape command stdout) = out)
  /\ List.length out <= 15
  /\ (forall l, In l out ->
        l <> EmptyString /\ (l = truncation_marker \/ In l (clean lines))).
Proof.
  intros lines out.
  pose proof (kept_lines_incl command lines) as Hincl.
  set (kept := with_fallback command lines (snd (scan_lines command lines))) in *.
  assert (Hlen : List.length out <= 15).
  { subst out. unfold limit_output, Py.slice_to, Py.slice_last.
    destruct (Nat.ltb_spec 15 (List.length kept)) as [Hlt|Hle]; [|exact Hle].
    rewrite !length_app, length_firstn, length_skipn. cbn [List.length]. lia. }
  assert (Hin : forall l, In l out ->
                  l <> EmptyString /\ (l = truncation_marker \/ In l (clean lines))).
  { intros l Hl. subst out. apply limit_output_in in Hl as [->|Hl].
    - split; [discriminate | now left].
    - apply Hincl in Hl. split; [now apply clean_nonempty in Hl | now right]. }
  assert (Htext : scrape command stdout = render command out) by reflexivity.
  split; [|split; [|split; [|split; [exact Hlen | exact Hin]]]].
  - rewrite Htext. destruct out as [|x out'] eqn:E; [cbn; discriminate|].
    rewrite render_nonempty. apply join_nonempty. apply (Hin x). now left.
  - intros E. rewrite Htext, E. reflexivity.
  - intros Hne. rewrite Htext. destruct out as [|x out'] eqn:E; [contradiction|].
    rewrite render_nonempty. apply splitlines_join; [discriminate|].
    intros l Hl. destruct (Hin l Hl) as [_ [->|Hc]]; [reflexivity|].
    exact (clean_no_newline _ _ Hc).
Qed.

End ReplyShape.

Section AssistantScraper.

Import TerminalBridge Bridge Lines.

Lemma claude_scan_found (message : string) (lines out : list string) :
  fold_left (claude_scan_line message) lines (true, out)
  = (true, out ++ filter (is_answer message) (clean lines)).
Proof.
  revert out. induction lines as [|raw lines IH]; intros out; cbn [fold_left].
  - cbn. now rewrite app_nil_r.
  - rewrite clean_cons. unfold claude_scan_line at 2.
    destruct (nonempty (Py.strip raw)) eqn:En; cbn [negb]; [|apply IH].
    cbn [filter]. unfold is_answer at 1, names.
    destruct (Py.contains (Py.lower (Py.strip raw)) (Py.lower message)) eqn:Ec;
      cbn [negb andb]; [apply IH|].
    destruct (negb (Py.endswith (Py.strip raw) "$")
              && negb (Py.startswith (Py.strip raw) border)) eqn:Ea.
    + rewrite IH. now rewrite <- app_assoc.
    + apply IH.
Qed.

Lemma claude_scan_lines_after_anchor_lemma (message : string) (lines : list string) :
  claude_scan_lines message lines
  = match after_first (names message) (clean lines) with
    | None => (false, [])
    | Some rest => (true, filter (is_answer message) rest)
    end.
Proof.
  unfold claude_scan_lines. induction lines as [|raw lines IH]; cbn [fold_left].
  - reflexivity.
  - rewrite clean_cons. unfold claude_scan_line at 2.
    destruct (nonempty (Py.strip raw)) eqn:En; cbn [negb]; [|exact IH].
    cbn [after_first]. unfold names at 1.
    destruct (Py.contains (Py.lower (Py.strip raw)) (Py.lower message)) eqn:Ec.
    + now rewrite claude_scan_found.
    + exact IH.
Qed.

(** X19.  The scan of assistant mode.  The anchor is the first line that
    holds the message, whatever the case of its letters.  With no such
    line it keeps nothing; otherwise it keeps the later lines, except
    those that hold the message again, those ended by a dollar sign and
    those that start with the border character. *)
Theorem claude_scan_lines_after_anchor (message : string) (lines : list string) :
  claude_scan_lines message lines
  = match after_first (names message) (clean lines) with
    | None => (false, [])
    | Some rest => (true, filter (is_answer message) rest)
    end.
Proof.
  exact (claude_scan_lines_after_anchor_lemma message lines).
Qed.

Lemma collect_recent_is (todo acc : list string) :
  List.length acc < 10 ->
  collect_recent todo acc
  = acc ++ firstn (10 - List.length acc) (filter no_dollar (clean todo)).
Proof.
  revert acc. induction todo as [|raw todo IH]; intros acc Hlen.
  - cbn. rewrite firstn_nil. now rewrite app_nil_r.
  - cbn [collect_recent]. rewrite clean_cons.
    destruct (nonempty (Py.strip raw)) eqn:En; cbn [andb]; [|now apply IH].
    cbn [filter]. unfold no_dollar at 1.
    destruct (negb (Py.endswith (Py.strip raw) "$")) eqn:Em; [|now apply IH].
    rewrite length_app. cbn [List.length].
    destruct (Nat.leb_spec 10 (List.length acc + 1)) as [Hge|Hlt].
    + assert (Hl : List.length acc = 9) by lia. rewrite Hl. reflexivity.
    + rewrite IH by (rewrite length_app; cbn; lia).
      rewrite length_app. cbn [List.length]. rewrite <- app_assoc. cbn [app].
      destruct (10 - List.length acc) as [|n] eqn:E; [lia|].
      cbn [firstn]. do 3 f_equal. lia.
Qed.

Lemma claude_fallback_is_last_ten_lemma (lines : list string) :
  claude_with_fallback lines []
  = Py.slice_last 10 (filter no_dollar (clean (Py.slice_last 20 lines))).
Proof.
  unfold claude_with_fallback.
  rewrite collect_recent_is by (cbn; lia). cbn [app List.length].
  rewrite clean_rev, filter_rev'. apply rev_firstn_rev.
Qed.

(** X20.  The fallback of assistant mode: of the last 20 lines of the pane,
    the last ten that are not blank and not ended by a dollar sign, in
    their order.  Lines that hold the message and border lines are not
    left out here. *)
Theorem claude_fallback_is_last_ten (lines : list string) :
  claude_with_fallback lines []
  = Py.slice_last 10 (filter no_dollar (clean (Py.slice_last 20 lines))).
Proof.
  exact (claude_fallback_is_last_ten_lemma lines).
Qed.

Lemma contains_empty (s : string) : Py.contains s EmptyString = true.
Proof. destruct s; reflexivity. Qed.

(** X21.  The empty message.  Every line that is not blank holds it, so
    every such line is an anchor: the scan keeps nothing, and the reply is
    made by the fallback alone. *)
Theorem claude_empty_message (lines : list string) :
  snd (claude_scan_lines EmptyString lines) = []
  /\ claude_scrape_lines EmptyString lines
     = claude_render EmptyString
         (Py.slice_last 10 (filter no_dollar (clean (Py.slice_last 20 lines)))).
Proof.
  assert (H : snd (claude_scan_lines EmptyString lines) = []).
  { rewrite claude_scan_lines_after_anchor_lemma.
    destruct (after_first (names EmptyString) (clean lines)) as [rest|];
      [|reflexivity].
    cbn [snd]. induction rest as [|x rest IH]; [reflexivity|].
    cbn [filter]. unfold is_answer at 1, names. cbn [Py.lower].
    now rewrite contains_empty. }
  split; [exact H|].
  unfold claude_scrape_lines. rewrite H. now rewrite claude_fallback_is_last_ten_lemma.
Qed.

End AssistantScraper.

(* ================================================================== *)
(** * The bridge: what it sends to tmux, and when *)
(* ================================================================== *)

Section BridgeCalls.

Import SessionManager SessionOps TerminalBridge Bridge Notions Scenarios.

Variable out : Outside.

(** X22.  The gate comes first: a command that holds an entry of the
    deny-list reaches tmux with no call at all, whether the session sends
    its input to the shell or to the assistant; the reply names the
    command and the state is as before. *)
Theorem blocked_command_reaches_nothing (cfg : SecurityConfig)
    (command blocked_cmd : string) (session : Session) (st : state) :
  In blocked_cmd (get_list (blocked_commands cfg)) ->
  occurs_in blocked_cmd command ->
  execute_command out cfg command session st
  = ((Ok ("Command blocked for security: " ++ command)%string, st), []).
Proof.
  intros Hin Hocc.
  assert (Hb : hits_blocked (get_list (blocked_commands cfg)) command = true).
  { apply hits_blocked_iff. now exists blocked_cmd. }
  assert (Hne : config_is_empty cfg = false).
  { unfold config_is_empty. destruct (blocked_commands cfg); [reflexivity|].
    destruct Hin. }
  unfold execute_command, btry, is_command_allowed. rewrite Hne, Hb. reflexivity.
Qed.

Lemma execute_command_run (cfg : SecurityConfig) (command : string)
    (session : Session) (st : state) :
  is_command_allowed cfg command = Ok true ->
  let tmux_name := tmux_session session in
  let live := is_live tmux_name (snd st) in
  let to_assistant :=
    claude_code_active session && negb (Py.startswith command "/") in
  execute_command out cfg command session st
  = ((Ok (if to_assistant
          then if live then claude_scrape command (pane_text out tmux_name 30)
               else ("Claude Code communication error: "
                     ++ str_exn out CalledProcessError)%string
          else if live then scrape command (pane_text out tmux_name 10)
               else ("Command execution failed: "
                     ++ str_exn out CalledProcessError)%string), st),
     (if to_assistant then [] else [SendKeys tmux_name ["C-c"]])
     ++ SendKeys tmux_name [command; "Enter"]
     :: (if live then [CapturePane tmux_name (if to_assistant then 30 else 10)]
         else [])).
Proof.
  intros Hal tmux_name live to_assistant.
  unfold execute_command. rewrite Hal. fold tmux_name. fold to_assistant.
  subst live. destruct st as [r w]. cbn [snd].
  destruct to_assistant;
    unfold btry, send_to_claude_code, btry, bbind, send_keys_to, capture_pane, bret;
    fold tmux_name; cbn [snd];
    destruct (is_live tmux_name w) eqn:E;
    repeat (cbv -[is_live scrape claude_scrape String.append pane_text str_exn tmux_name]; rewrite ?E); reflexivity.
Qed.

(** X23.  What [execute_command] does with a command that the gate lets
    pass.  Input for the assistant (the flag of the session is set and the
    command has no leading slash) is typed as it is and 30 lines are read
    back; other input is typed after an interrupt key and 10 lines are
    read back.  When the tmux session is gone the command is still sent,
    nothing is read back, and the reply is the text of the failure.  In
    every case the registry is as before, and the bridge itself does
    nothing to the store or to the list of tmux sessions. *)
Theorem execute_command_calls (cfg : SecurityConfig) (command : string)
    (session : Session) (st : state) :
  is_command_allowed cfg command = Ok true ->
  let tmux_name := tmux_session session in
  let live := is_live tmux_name (snd st) in
  let to_assistant :=
    claude_code_active session && negb (Py.startswith command "/") in
  execute_command out cfg command session st
  = ((Ok (if to_assistant
          then if live then claude_scrape command (pane_text out tmux_name 30)
               else ("Claude Code communication error: "
                     ++ str_exn out CalledProcessError)%string
          else if live then scrape command (pane_text out tmux_name 10)
               else ("Command execution failed: "
                     ++ str_exn out CalledProcessError)%string), st),
     (if to_assistant then [] else [SendKeys tmux_name ["C-c"]])
     ++ SendKeys tmux_name [command; "Enter"]
     :: (if live then [CapturePane tmux_name (if to_assistant then 30 else 10)]
         else [])).
Proof.
  exact (execute_command_run cfg command session st).
Qed.

Lemma send_to_claude_code_state (message : string) (session : Session) (st : state) :
  exists text calls,
    send_to_claude_code out message session st = ((Ok text, st), calls).
Proof.
  unfold send_to_claude_code, btry, bbind, send_keys_to, capture_pane, bret.
  destruct st as [r w]. cbn [snd].
  destruct (is_live (tmux_session session) w) eqn:E;
    repeat (cbv -[is_live claude_scrape String.append pane_text str_exn tmux_session];
            rewrite ?E); eexists; eexists; reflexivity.
Qed.

Lemma load_files_state (session : Session) (files : list string) (st : state) :
  exists calls, load_files out session files st = ((Ok tt, st), calls).
Proof.
  induction files as [|f files IH].
  - eexists. reflexivity.
  - destruct IH as [calls IH]. cbn [load_files]. unfold bbind at 1.
    destruct (path_exists out (path_under (working_dir session) f)).
    + unfold bbind at 1.
      destruct (send_to_claude_code_state ("@" ++ path_under (working_dir session) f)
                  session st) as [text [calls0 H]].
      rewrite H. unfold bret. cbn. rewrite IH. eexists. reflexivity.
    + unfold bret. cbn. rewrite IH. eexists. reflexivity.
Qed.

Lemma load_project_context_state (cfg : ClaudeConfig) (session : Session) (st : state) :
  exists calls, load_project_context out cfg session st = ((Ok tt, st), calls).
Proof.
  unfold load_project_context, btry.
  destruct (load_files_state session
              (match project_files cfg with Some l => l | None => [] end) st)
    as [calls H].
  rewrite H. eexists. reflexivity.
Qed.

Lemma start_claude_code_run (cfg : ClaudeConfig) (session : Session) (st : state) :
  let exe := match executable cfg with Some e => e | None => "claude_code" end in
  let ready := on_path out exe && is_live (tmux_session session) (snd st) in
  exists text calls,
    start_claude_code out cfg session st
    = ((Ok text,
        if ready then snd (fst (set_claude_code_active session true st)) else st),
       calls)
    /\ nonempty text = true
    /\ (ready = false -> exists rest, text = ("❌" ++ rest)%string).
Proof.
  intros exe ready. subst ready.
  unfold start_claude_code. fold exe.
  unfold btry at 1, bbind at 1, which.
  destruct (on_path out exe) eqn:Ep; cbn [negb andb].
  2:{ unfold bret. eexists. eexists. split; [reflexivity|].
      split; [reflexivity|]. intros _. eexists. reflexivity. }
  unfold bbind at 1, send_keys_to at 1. cbn [orb negb].
  destruct (is_live (tmux_session session) (snd st)) eqn:El; cbn [orb].
  2:{ unfold bret. eexists. eexists. split; [reflexivity|].
      split; [reflexivity|]. intros _. eexists. reflexivity. }
  unfold bbind at 1, send_keys_to at 1. rewrite El. cbn [orb].
  unfold bbind at 1, capture_pane at 1. rewrite El.
  unfold bbind at 1.
  destruct (set_claude_code_active session true st) as [[o st1] calls1] eqn:Es.
  assert (Ho : o = Ok tt).
  { unfold set_claude_code_active in Es. now injection Es as <- _ _. }
  subst o. cbn [fst snd].
  unfold bbind at 1.
  assert (Hl : exists calls,
             (if match auto_context cfg with Some b => b | None => false end
              then load_project_context out cfg session else bret tt) st1
             = ((Ok tt, st1), calls)).
  { destruct (match auto_context cfg with Some b => b | None => false end).
    - apply load_project_context_state.
    - eexists. reflexivity. }
  destruct Hl as [calls Hl]. rewrite Hl. unfold bret.
  eexists. eexists. split; [reflexivity|]. split; [reflexivity | discriminate].
Qed.

(** X24.  [start_claude_code] sets the flag in the record of the registry
    and nowhere else: the bridge writes nothing to the session store and
    starts or ends no tmux session, so the stored [session.json] does not
    know of the flag.  The flag is
    set only when the program is on the path and the tmux session is
    alive; in the other cases the state is as before and the reply begins
    with the cross mark. *)
Theorem start_claude_code_marks_registry_only (cfg : ClaudeConfig)
    (session : Session) (st : state) :
  Dict.get (id session) (sessions (fst st)) = Some session ->
  let exe := match executable cfg with Some e => e | None => "claude_code" end in
  let ready := on_path out exe && is_live (tmux_session session) (snd st) in
  let st' := snd (fst (start_claude_code out cfg session st)) in
  snd st' = snd st
  /\ topic_sessions (fst st') = topic_sessions (fst st)
  /\ global_active_session (fst st') = global_active_session (fst st)
  /\ (forall other, other <> id session ->
        Dict.get other (sessions (fst st')) = Dict.get other (sessions (fst st)))
  /\ Dict.get (id session) (sessions (fst st'))
     = Some (if ready then with_claude_code_active true session else session)
  /\ (ready = false ->
      st' = st
      /\ exists rest, fst (fst (start_claude_code out cfg session st))
                      = Ok ("❌" ++ rest)%string).
Proof.
  intros Hreg exe ready st'. subst st'.
  destruct (start_claude_code_run cfg session st) as [text [calls [H [_ Hx]]]].
  fold exe in H, Hx. fold ready in H, Hx. rewrite H. cbn [fst snd].
  destruct ready.
  - unfold set_claude_code_active. cbn [fst snd]. rewrite Hreg. cbn [fst snd].
    split; [reflexivity|]. split; [reflexivity|]. split; [reflexivity|].
    split; [intros other Ho; cbn; now apply get_set_other|].
    split; [cbn; apply get_set_same|]. discriminate.
  - split; [reflexivity|]. split; [reflexivity|]. split; [reflexivity|].
    split; [reflexivity|]. split; [exact Hreg|].
    intros _. split; [reflexivity|].
    destruct (Hx eq_refl) as [rest ->]. now exists rest.
Qed.

(** X25.  A flag that outlives its tmux session.  For a registered session
    whose flag is set and whose tmux session is gone: [stop_claude_code]
    fails after its first call and leaves the flag set;
    [get_claude_code_status] is what clears it, in the registry, and asked
    again about the record of the registry it answers without a call to
    tmux. *)
Theorem stale_flag_is_cleared_by_status (session : Session) (st : state) :
  Dict.get (id session) (sessions (fst st)) = Some session ->
  claude_code_active session = true ->
  is_live (tmux_session session) (snd st) = false ->
  let cleared := with_claude_code_active false session in
  let st' := (set_sessions (Dict.set (id session) cleared (sessions (fst st))) (fst st),
              snd st) in
  stop_claude_code out session st
  = ((Ok ("Error stopping Claude Code: " ++ str_exn out CalledProcessError)%string, st),
     [SendKeys (tmux_session session) ["exit"; "Enter"]])
  /\ get_claude_code_status session st
     = ((Ok "Claude Code session appears to be dead", st'),
        [HasSession (tmux_session session)])
  /\ Dict.get (id session) (sessions (fst st')) = Some cleared
  /\ get_claude_code_status cleared st' = ((Ok "Claude Code is not active", st'), []).
Proof.
  intros Hreg Hflag Hdead cleared st'. subst st'. destruct st as [r w].
  cbn [fst snd] in *.
  split; [|split; [|split]].
  - unfold stop_claude_code, btry, bbind, send_keys_to, bret. cbn [snd].
    rewrite Hdead. reflexivity.
  - unfold get_claude_code_status. rewrite Hflag. cbn [negb].
    unfold btry, bbind, has_session, bret. cbn [fst snd].
    rewrite Hdead. unfold set_claude_code_active. cbn [fst snd].
    rewrite Hreg. reflexivity.
  - cbn. apply get_set_same.
  - reflexivity.
Qed.

End BridgeCalls.

Section BridgeRuns.

Import SessionManager SessionOps TerminalBridge Bridge Notions Scenarios.

Lemma blocked_command_reaches_nothing_witness :
  execute_command (Stage.outside "x") rm_rf_config "sudo rm -rf /"
    Stage.flagged two_sessions
  = ((Ok "Command blocked for security: sudo rm -rf /", two_sessions), []).
Proof.
  apply (blocked_command_reaches_nothing (Stage.outside "x") rm_rf_config
           "sudo rm -rf /" "rm -rf").
  - now left.
  - exists "sudo ", " /". reflexivity.
Defined.

Lemma execute_command_calls_witness :
  snd (execute_command (Stage.outside "x") rm_rf_config "ls -la"
         (demo_session "001" (Some "general")) two_sessions)
  = [SendKeys "claude_001" ["C-c"]; SendKeys "claude_001" ["ls -la"; "Enter"];
     CapturePane "claude_001" 10].
Proof.
  rewrite (execute_command_calls (Stage.outside "x") rm_rf_config "ls -la"
             (demo_session "001" (Some "general")) two_sessions eq_refl).
  reflexivity.
Defined.

Lemma start_claude_code_marks_registry_only_witness :
  Dict.get "001"
    (sessions (fst (snd (fst (start_claude_code (Stage.outside "x")
                                (Stage.claude_config true)
                                (demo_session "001" (Some "general"))
                                two_sessions)))))
  = Some Stage.flagged.
Proof.
  exact (proj1 (proj2 (proj2 (proj2 (proj2
           (start_claude_code_marks_registry_only (Stage.outside "x")
              (Stage.claude_config true) (demo_session "001" (Some "general"))
              two_sessions eq_refl)))))).
Defined.

Lemma stale_flag_is_cleared_by_status_witness :
  stop_claude_code (Stage.outside "x") Stage.flagged Stage.stale
  = ((Ok "Error stopping Claude Code: Command returned non-zero exit status 1.",
      Stage.stale),
     [SendKeys "claude_001" ["exit"; "Enter"]]).
Proof.
  exact (proj1 (stale_flag_is_cleared_by_status (Stage.outside "x") Stage.flagged
                  Stage.stale eq_refl eq_refl eq_refl)).
Defined.

End BridgeRuns.

(* ================================================================== *)
(** * The bot: from a message to its reply *)
(* ================================================================== *)

Section Replies.

Import SessionManager SessionOps TerminalBridge Bridge Aliases ClaudeBot Lines.

Variable cfg : Bot.Config.
Variable out : Outside.

Lemma nonempty_iff (s : string) : nonempty s = true <-> s <> EmptyString.
Proof. destruct s; cbn; split; congruence. Qed.

Lemma render_all_nonempty (command : string) (l : list string) :
  (forall x, In x l -> x <> EmptyString) -> render command l <> EmptyString.
Proof.
  intros H. destruct l as [|x l]; [cbn; discriminate|].
  rewrite render_nonempty. apply join_nonempty. apply H. now left.
Qed.

Lemma scrape_nonempty (command stdout : string) :
  scrape command stdout <> EmptyString.
Proof.
  unfold scrape, scrape_lines. apply render_all_nonempty. intros x Hx.
  apply limit_output_in in Hx as [->|Hx]; [discriminate|].
  apply kept_lines_incl in Hx. now apply clean_nonempty in Hx.
Qed.

Lemma claude_render_all_nonempty (message : string) (l : list string) :
  (forall x, In x l -> x <> EmptyString) -> claude_render message l <> EmptyString.
Proof.
  intros H. destruct l as [|x l]; [cbn; discriminate|].
  cbn [claude_render]. apply join_nonempty. apply H. now left.
Qed.

Lemma claude_scrape_nonempty (message stdout : string) :
  claude_scrape message stdout <> EmptyString.
Proof.
  unfold claude_scrape, claude_scrape_lines.
  set (lines := Py.splitlines_n (Py.strip stdout)).
  apply claude_render_all_nonempty. intros x Hx.
  rewrite claude_scan_lines_after_anchor_lemma in Hx.
  destruct (after_first (names message) (clean lines)) as [rest|] eqn:E; cbn [snd] in Hx.
  - destruct (filter (is_answer message) rest) as [|y kept] eqn:Ef.
    + rewrite claude_fallback_is_last_ten_lemma in Hx. unfold Py.slice_last in Hx.
      apply skipn_incl in Hx. apply filter_In in Hx as [Hx _].
      now apply clean_nonempty in Hx.
    + cbn [claude_with_fallback] in Hx. rewrite <- Ef in Hx.
      apply filter_In in Hx as [Hx _].
      apply (after_first_incl _ _ _ E) in Hx. now apply clean_nonempty in Hx.
  - rewrite claude_fallback_is_last_ten_lemma in Hx. unfold Py.slice_last in Hx.
    apply skipn_incl in Hx. apply filter_In in Hx as [Hx _].
    now apply clean_nonempty in Hx.
Qed.

(** [execute_command] always returns a text, it is never empty, and the
    state is as before. *)
Lemma execute_command_total (security_config : SecurityConfig) (command : string)
    (session : Session) (st : state) :
  exists result calls,
    execute_command out security_config command session st = ((Ok result, st), calls)
    /\ nonempty result = true.
Proof.
  destruct (is_command_allowed security_config command) as [[|]|e] eqn:Ea.
  - rewrite (execute_command_run out security_config command session st Ea).
    eexists. eexists. split; [reflexivity|]. apply nonempty_iff.
    destruct (claude_code_active session && negb (Py.startswith command "/"));
      destruct (is_live (tmux_session session) (snd st));
      first [apply claude_scrape_nonempty | apply scrape_nonempty | discriminate].
  - unfold execute_command, btry. rewrite Ea. unfold bret.
    eexists. eexists. split; reflexivity.
  - unfold execute_command, btry. rewrite Ea. unfold braise, bret.
    destruct e; eexists; eexists; split; reflexivity.
Qed.

(** X26.  Terminal input leaves the registry as it is, and the bot itself
    does nothing to the store or to the list of tmux sessions.  With a
    current session the reply is the text of
    [execute_command] between two fences, and that text is never empty:
    the reply for no output is never given. *)
Theorem terminal_input_reply_is_fenced (content topic sender : string) (st : state) :
  snd (Bot.handle_terminal_input cfg out content topic sender st) = st
  /\ match get_current_session topic (fst st) with
     | None =>
         fst (Bot.handle_terminal_input cfg out content topic sender st)
         = "No active session. Use /new-session to create one."
     | Some current_session =>
         exists result,
           result <> EmptyString
           /\ fst (fst (execute_command out (Bot.security cfg) content
                          current_session st)) = Ok result
           /\ fst (Bot.handle_terminal_input cfg out content topic sender st)
              = (Bot.fence ++ nl ++ result ++ nl ++ Bot.fence)%string
     end.
Proof.
  unfold Bot.handle_terminal_input.
  destruct (get_current_session topic (fst st)) as [s|]; [|split; reflexivity].
  destruct (execute_command_total (Bot.security cfg) content s st)
    as [result [calls [H Hne]]].
  rewrite H. cbn [fst snd]. rewrite Hne. split; [reflexivity|].
  exists result. split; [now apply nonempty_iff|]. split; reflexivity.
Qed.

Lemma terminal_input_says_something (content topic sender : string) (st : state) :
  nonempty (fst (Bot.handle_terminal_input cfg out content topic sender st)) = true.
Proof.
  unfold Bot.handle_terminal_input.
  destruct (get_current_session topic (fst st)) as [s|]; [|reflexivity].
  destruct (execute_command_total (Bot.security cfg) content s st)
    as [result [calls [H Hne]]].
  rewrite H. cbn [fst snd]. rewrite Hne. reflexivity.
Qed.

Lemma run_command_says_something
    (swd : string -> string -> M bool) (start : Session -> M string)
    (cmd : string) (args : list string) (topic : string) (st st' : state)
    (text : string) :
  (forall s st0 text0 st1, start s st0 = (Ok text0, st1) -> nonempty text0 = true) ->
  run_command swd start cmd args topic st = (Ok text, st') ->
  nonempty text = true.
Proof.
  intros Hstart. unfold run_command.
  repeat match goal with
         | |- context [if String.eqb ?a ?b then _ else _] =>
             destruct (String.eqb a b)
         end;
    unfold bind, registry, ret;
    repeat match goal with
           | |- context [match ?x with _ => _ end] => destruct x eqn:?
           end;
    try (intros [= <- <-]; reflexivity); try discriminate.
  all: intros H; eapply Hstart; eassumption.
Qed.

Lemma handle_command_says_something (command topic sender : string) (st : state) :
  nonempty (fst (Bot.handle_command cfg out command topic sender st)) = true.
Proof.
  unfold Bot.handle_command, ClaudeBot.handle_command.
  match goal with
  | |- context [run_command ?swd ?start ?cmd ?args ?topic ?st] =>
      pose proof (run_command_says_something swd start cmd args topic st) as H;
      destruct (run_command swd start cmd args topic st) as [[text|e] st1]
  end.
  - cbn [fst Bot.reply_text]. eapply H; [|reflexivity].
    intros s st0 text0 st2 Hs.
    destruct (start_claude_code_run out (Bot.claude_code cfg) s st0)
      as [t [calls [Hr [Hne _]]]].
    rewrite Hr in Hs. cbn [fst] in Hs. now injection Hs as <- _.
  - reflexivity.
Qed.

Lemma id_in_head (i : option nat) (l : list (option nat)) :
  Bot.id_in i (i :: l) = true.
Proof.
  cbn. destruct i as [n|]; [|reflexivity]. now rewrite Nat.eqb_refl.
Qed.

(** X27.  A message is handled once.  Whatever [handle_message] does with
    a message, its id is on record afterwards, and a message whose id is
    on record is dropped: nothing is sent and the bot is as before.  A
    message without an id counts as seen once one without an id has been
    handled.  A message from the bot itself is recorded and gets no reply
    and no effect on the sessions. *)
Theorem handle_message_once (message : Bot.Message) (bot : Bot.BotState) :
  Bot.id_in (Bot.msg_id message)
    (Bot.processed_messages (fst (Bot.handle_message cfg out message bot))) = true
  /\ (Bot.id_in (Bot.msg_id message) (Bot.processed_messages bot) = true ->
      Bot.handle_message cfg out message bot = (bot, []))
  /\ Bot.handle_message cfg out message
       (fst (Bot.handle_message cfg out message bot))
     = (fst (Bot.handle_message cfg out message bot), [])
  /\ (Bot.sender_email message = Bot.zulip_email cfg ->
      snd (Bot.handle_message cfg out message bot) = []
      /\ Bot.core (fst (Bot.handle_message cfg out message bot)) = Bot.core bot).
Proof.
  assert (H1 : Bot.id_in (Bot.msg_id message)
                 (Bot.processed_messages
                    (fst (Bot.handle_message cfg out message bot))) = true).
  { unfold Bot.handle_message.
    destruct (Bot.id_in (Bot.msg_id message) (Bot.processed_messages bot)) eqn:E;
      [exact E|].
    destruct (String.eqb (Bot.sender_email message) (Bot.zulip_email cfg));
      [apply id_in_head|].
    match goal with
    | |- context [let '(response, st') := ?x in _] => destruct x as [response st']
    end.
    apply id_in_head. }
  assert (H2 : forall b, Bot.id_in (Bot.msg_id message) (Bot.processed_messages b) = true ->
                         Bot.handle_message cfg out message b = (b, [])).
  { intros b Hb. unfold Bot.handle_message. now rewrite Hb. }
  split; [exact H1|]. split; [apply H2|]. split; [now apply H2|].
  intros Hown. unfold Bot.handle_message.
  destruct (Bot.id_in (Bot.msg_id message) (Bot.processed_messages bot));
    [split; reflexivity|].
  rewrite Hown, String.eqb_refl. split; reflexivity.
Qed.

(** X28.  Every message that is new and not the bot's own gets exactly one
    reply, with a text that is not empty, and in kind: a private message
    is answered to its sender, a stream message in its stream and topic,
    [general] standing in for either when the message does not name it. *)
Theorem every_message_is_answered (message : Bot.Message) (bot : Bot.BotState) :
  Bot.id_in (Bot.msg_id message) (Bot.processed_messages bot) = false ->
  Bot.sender_email message <> Bot.zulip_email cfg ->
  exists response,
    response <> EmptyString
    /\ snd (Bot.handle_message cfg out message bot)
       = [if String.eqb (Bot.or_default (Bot.msg_type message) "stream") "private"
          then Bot.SendPrivate (Bot.sender_email message) response
          else Bot.SendStream
                 (Bot.or_default (Bot.display_recipient message) "general")
                 (Bot.or_default (Bot.subject message) "general")
                 response].
Proof.
  intros Hnew Hother. unfold Bot.handle_message. rewrite Hnew.
  apply String.eqb_neq in Hother. rewrite Hother.
  match goal with
  | |- context [let '(response, st') := ?x in _] =>
      assert (Hne : nonempty (fst x) = true); [|destruct x as [response st']]
  end.
  { repeat match goal with
           | |- context [if ?b then _ else _] => destruct b
           end;
      first [apply handle_command_says_something
            | apply terminal_input_says_something]. }
  cbn [fst] in Hne. cbn [snd]. rewrite Hne.
  exists response. split; [now apply nonempty_iff|].
  destruct (String.eqb (Bot.or_default (Bot.msg_type message) "stream") "private");
    reflexivity.
Qed.

End Replies.

Section RepliesRun.

Import Scenarios.

Lemma handle_message_once_witness :
  snd (Bot.handle_message Stage.bot_config (Stage.outside "x")
         {| Bot.msg_id := Some 7; Bot.content := "/new-session loop";
            Bot.sender_email := "bot@example.com";
            Bot.msg_type := Some "stream"; Bot.subject := Some "general";
            Bot.display_recipient := Some "ops" |}
         {| Bot.core := two_sessions; Bot.processed_messages := [] |}) = []
  /\ Bot.core
       (fst (Bot.handle_message Stage.bot_config (Stage.outside "x")
               {| Bot.msg_id := Some 7; Bot.content := "/new-session loop";
                  Bot.sender_email := "bot@example.com";
                  Bot.msg_type := Some "stream"; Bot.subject := Some "general";
                  Bot.display_recipient := Some "ops" |}
               {| Bot.core := two_sessions; Bot.processed_messages := [] |}))
     = two_sessions.
Proof.
  exact (proj2 (proj2 (proj2
           (handle_message_once Stage.bot_config (Stage.outside "x")
              {| Bot.msg_id := Some 7; Bot.content := "/new-session loop";
                 Bot.sender_email := "bot@example.com";
                 Bot.msg_type := Some "stream"; Bot.subject := Some "general";
                 Bot.display_recipient := Some "ops" |}
              {| Bot.core := two_sessions; Bot.processed_messages := [] |})))
           eq_refl).
Defined.

Lemma every_message_is_answered_witness :
  exists response,
    response <> EmptyString
    /\ snd (Bot.handle_message Stage.bot_config (Stage.outside "x")
              (Stage.stream_message 1 "/help")
              {| Bot.core := two_sessions; Bot.processed_messages := [] |})
       = [Bot.SendStream "ops" "general" response].
Proof.
  exact (every_message_is_answered Stage.bot_config (Stage.outside "x")
           (Stage.stream_message 1 "/help")
           {| Bot.core := two_sessions; Bot.processed_messages := [] |}
           eq_refl ltac:(discriminate)).
Defined.

End RepliesRun.

Section StartThenInput.

Import SessionManager SessionOps TerminalBridge Bridge Aliases ClaudeBot Lines.

Variable cfg : Bot.Config.
Variable out : Outside.

Lemma get_current_session_by_topic (topic : string) (r : Registry) (s : Session)
    (sid : string) :
  Dict.get topic (topic_sessions r) = Some sid ->
  sid <> EmptyString ->
  Dict.get sid (sessions r) = Some s ->
  get_current_session topic r = Some s.
Proof.
  intros Ht Hne Hs. unfold get_current_session. rewrite Ht.
  destruct sid as [|c sid]; [contradiction|]. cbn [truthy]. now rewrite Hs.
Qed.

Lemma claude_start_runs (topic sender : string) (s : Session) (st : state) :
  get_current_session topic (fst st) = Some s ->
  Bot.handle_command cfg out "/claude-start" topic sender st
  = (match fst (fst (start_claude_code out (Bot.claude_code cfg) s st)) with
     | Ok text => text
     | Raise e => ("Command failed: " ++ str_exn out e)%string
     end,
     snd (fst (start_claude_code out (Bot.claude_code cfg) s st))).
Proof.
  intros Hcur. unfold Bot.handle_command, ClaudeBot.handle_command.
  change (Py.split (Py.drop1 "/claude-start")) with ["claude-start"].
  cbn [List.length Nat.ltb Nat.leb tl].
  unfold run_command. cbn [String.eqb Ascii.eqb Bool.eqb].
  unfold bind, registry. rewrite Hcur.
  destruct (start_claude_code out (Bot.claude_code cfg) s st) as [[[text|e] st1] calls];
    reflexivity.
Qed.

(** X29.  After [/claude-start] has succeeded for the session of a topic,
    input on that topic goes to the assistant: the record that
    [get_current_session] hands out has the flag set, the input is typed
    with no interrupt key before it, 30 lines are read back, and the reply
    is what the scraper of assistant mode makes of them.  The gate is
    asked about this input as about any command. *)
Theorem claude_start_then_input (topic sender content : string) (s : Session)
    (st : state) :
  Dict.get topic (topic_sessions (fst st)) = Some (id s) ->
  id s <> EmptyString ->
  Dict.get (id s) (sessions (fst st)) = Some s ->
  on_path out (match executable (Bot.claude_code cfg) with
               | Some e => e
               | None => "claude_code"
               end) = true ->
  is_live (tmux_session s) (snd st) = true ->
  is_command_allowed (Bot.security cfg) content = Ok true ->
  Py.startswith content "/" = false ->
  let st1 := snd (Bot.handle_command cfg out "/claude-start" topic sender st) in
  let started := with_claude_code_active true s in
  get_current_session topic (fst st1) = Some started
  /\ Bot.handle_terminal_input cfg out content topic sender st1
     = ((Bot.fence ++ nl
         ++ claude_scrape content (pane_text out (tmux_session s) 30)
         ++ nl ++ Bot.fence)%string, st1)
  /\ snd (execute_command out (Bot.security cfg) content started st1)
     = [SendKeys (tmux_session s) [content; "Enter"];
        CapturePane (tmux_session s) 30].
Proof.
  intros Ht Hne Hs Hp Hl Ha Hslash st1 started.
  assert (Hcur : get_current_session topic (fst st) = Some s).
  { now apply (get_current_session_by_topic topic (fst st) s (id s)). }
  assert (Hst1 : st1 = (set_sessions (Dict.set (id s) started (sessions (fst st)))
                          (fst st), snd st)).
  { subst st1. rewrite (claude_start_runs topic sender s st Hcur). cbn [snd].
    destruct (start_claude_code_run out (Bot.claude_code cfg) s st)
      as [text [calls [H _]]].
    rewrite H, Hp, Hl. cbn [andb fst snd].
    unfold set_claude_code_active. cbn [fst snd]. now rewrite Hs. }
  clearbody st1. subst st1.
  assert (Hcur1 : get_current_session topic
                    (set_sessions (Dict.set (id s) started (sessions (fst st)))
                       (fst st)) = Some started).
  { apply (get_current_session_by_topic topic _ started (id s)).
    - exact Ht.
    - exact Hne.
    - cbn. apply get_set_same. }
  assert (Hrun := execute_command_run out (Bot.security cfg) content started
                    (set_sessions (Dict.set (id s) started (sessions (fst st)))
                       (fst st), snd st) Ha).
  cbn [snd] in Hrun.
  change (tmux_session started) with (tmux_session s) in Hrun.
  change (claude_code_active started) with true in Hrun.
  rewrite Hslash, Hl in Hrun. cbn [andb negb app] in Hrun.
  split; [exact Hcur1|]. split.
  - unfold Bot.handle_terminal_input. cbn [fst]. rewrite Hcur1, Hrun. cbn [fst].
    destruct (claude_scrape content (pane_text out (tmux_session s) 30)) eqn:E.
    + now apply claude_scrape_nonempty in E.
    + reflexivity.
  - now rewrite Hrun.
Qed.

End StartThenInput.

Section StartThenInputRun.

Import SessionManager SessionOps TerminalBridge Bridge Scenarios.

Lemma claude_start_then_input_witness :
  snd (execute_command (Stage.outside "x") rm_rf_config "ls src" Stage.flagged
         (snd (Bot.handle_command Stage.bot_config (Stage.outside "x")
                 "/claude-start" "general" "ann@example.com" two_sessions)))
  = [SendKeys "claude_001" ["ls src"; "Enter"]; CapturePane "claude_001" 30].
Proof.
  exact (proj2 (proj2
           (claude_start_then_input Stage.bot_config (Stage.outside "x")
              "general" "ann@example.com" "ls src"
              (demo_session "001" (Some "general")) two_sessions
              eq_refl ltac:(discriminate) eq_refl eq_refl eq_refl eq_refl eq_refl))).
Defined.

End StartThenInputRun.

Section Tags.

Import TerminalBridge.

Lemma more_suffix (p : ascii -> bool) (s : string) (k : string -> option Re.found)
    (r : Re.found) :
  Re.more p s k = Some r ->
  exists rest, String.length rest <= String.length s /\ k rest = Some r.
Proof.
  induction s as [|c s IH]; cbn [Re.more].
  - intros H. exists EmptyString. split; [reflexivity | exact H].
  - destruct (p c).
    + unfold Re.or_else. destruct (Re.more p s k) as [r'|] eqn:E.
      * intros [= <-]. destruct (IH eq_refl) as [rest [Hl Hk]].
        exists rest. split; [cbn; lia | exact Hk].
      * intros H. exists (String c s). split; [reflexivity | exact H].
    + intros H. exists (String c s). split; [reflexivity | exact H].
Qed.

Lemma drop_length (n : nat) (s : string) :
  String.length (Re.drop n s) <= String.length s.
Proof.
  revert s. induction n as [|n IH]; intros s; [destruct s; reflexivity|].
  destruct s as [|c s]; [reflexivity|]. cbn. specialize (IH s). lia.
Qed.

(** A tag that matches at the start of a text leaves less than the text. *)
Lemma tag_match_shorter (text rest : string) :
  Re.run Bot.re_tag text None (fun rest _ => Some (Some rest)) = Some (Some rest) ->
  String.length rest < String.length text.
Proof.
  unfold Bot.re_tag. cbn [Re.run].
  destruct (Py.startswith text "<") eqn:Es; [|discriminate].
  destruct text as [|c0 text]; [discriminate|].
  cbn [String.length Re.drop].
  destruct text as [|c text]; [discriminate|].
  destruct (Bot.not_gt c); [|discriminate].
  intros H. apply more_suffix in H as [rest' [Hl Hk]].
  destruct (Py.startswith rest' ">"); [|discriminate].
  injection Hk as <-. destruct rest'; cbn in *; lia.
Qed.

(** More steps than the text has characters change nothing. *)
Lemma strip_tags_from_enough (n m : nat) (text : string) :
  String.length text <= n -> String.length text <= m ->
  Bot.strip_tags_from n text = Bot.strip_tags_from m text.
Proof.
  revert m text. induction n as [|n IH]; intros m text Hn Hm.
  - destruct text; [|cbn in Hn; lia]. destruct m; reflexivity.
  - destruct m as [|m].
    + destruct text; [|cbn in Hm; lia]. reflexivity.
    + cbn [Bot.strip_tags_from].
      destruct (Re.run Bot.re_tag text None (fun rest _ => Some (Some rest)))
        as [[rest|]|] eqn:E.
      * apply tag_match_shorter in E. apply IH; lia.
      * destruct text as [|c text]; [reflexivity|]. cbn in Hn, Hm.
        f_equal. apply IH; lia.
      * destruct text as [|c text]; [reflexivity|]. cbn in Hn, Hm.
        f_equal. apply IH; lia.
Qed.

Lemma length_append_string (a b : string) :
  String.length (a ++ b) = String.length a + String.length b.
Proof. induction a as [|c a IH]; cbn; [reflexivity | now rewrite IH]. Qed.

Lemma more_to_gt (b c : string) (k : string -> option Re.found) :
  Py.has_char ">" b = false ->
  (forall rest, Py.startswith rest ">" = false -> k rest = None) ->
  Re.more Bot.not_gt (b ++ String ">" c) k = k (String ">" c).
Proof.
  intros Hb Hk. induction b as [|ch b IH]; [reflexivity|].
  cbn [Py.has_char] in Hb. apply orb_false_iff in Hb as [Hch Hb].
  cbn [append Re.more]. change (Bot.not_gt ch) with (negb (Ascii.eqb ch ">")).
  rewrite Hch. cbn [negb].
  rewrite (IH Hb). unfold Re.or_else.
  destruct (k (String ">" c)); [reflexivity|].
  apply Hk. cbn [Py.startswith]. now rewrite Ascii.eqb_sym, Hch.
Qed.

Lemma tag_match (b c : string) :
  Py.has_char ">" b = false -> b <> EmptyString ->
  Re.run Bot.re_tag (String "<" (b ++ String ">" c)) None
    (fun rest _ => Some (Some rest)) = Some (Some c).
Proof.
  intros Hb Hne. destruct b as [|ch b]; [contradiction|].
  cbn [Py.has_char] in Hb. apply orb_false_iff in Hb as [Hch Hb].
  unfold Bot.re_tag. cbn [Re.run].
  change (Py.startswith (String "<" (String ch b ++ String ">" c)) "<") with true.
  change (Re.drop (String.length "<") (String "<" (String ch b ++ String ">" c)))
    with (String ch (b ++ String ">" c)).
  cbv iota.
  change (Bot.not_gt ch) with (negb (Ascii.eqb ch ">")).
  rewrite Hch. cbn [negb].
  rewrite more_to_gt.
  - destruct c; reflexivity.
  - exact Hb.
  - intros rest Hr. now rewrite Hr.
Qed.

Lemma no_tag_without_lt (c : ascii) (text : string) :
  Ascii.eqb c "<" = false ->
  Re.run Bot.re_tag (String c text) None (fun rest _ => Some (Some rest)) = None.
Proof.
  intros Hc. unfold Bot.re_tag. cbn [Re.run Py.startswith].
  now rewrite Ascii.eqb_sym, Hc.
Qed.

(** X30.  What [handle_message] takes for an HTML tag.  A text with no
    opening angle bracket is left as it is.  From the first opening
    bracket to the next closing one everything goes, provided something
    stands between them: a shell redirection from one file to another
    loses the first file and both brackets. *)
Theorem strip_tags_eats_redirections (a b c : string) :
  Py.has_char "<" a = false ->
  (Bot.strip_tags a = a)
  /\ (Py.has_char ">" b = false -> b <> EmptyString ->
      Bot.strip_tags (a ++ String "<" (b ++ String ">" c))
      = (a ++ Bot.strip_tags c)%string).
Proof.
  intros Ha. split.
  - unfold Bot.strip_tags. induction a as [|ch a IH]; [reflexivity|].
    cbn [Py.has_char] in Ha. apply orb_false_iff in Ha as [Hch Ha].
    cbn [String.length Bot.strip_tags_from].
    rewrite (no_tag_without_lt ch a Hch). f_equal. now apply IH.
  - intros Hb Hne. unfold Bot.strip_tags. induction a as [|ch a IH].
    + cbn [append String.length Bot.strip_tags_from].
      rewrite (tag_match b c Hb Hne).
      apply strip_tags_from_enough; [|lia].
      rewrite length_append_string. cbn. lia.
    + cbn [Py.has_char] in Ha. apply orb_false_iff in Ha as [Hch Ha].
      cbn [append String.length Bot.strip_tags_from].
      rewrite (no_tag_without_lt ch _ Hch). f_equal. now apply IH.
Qed.

Lemma strip_tags_eats_redirections_witness :
  Bot.strip_tags "sort < in > out" = "sort  out".
Proof.
  exact (proj2 (strip_tags_eats_redirections "sort " " in " " out" eq_refl)
           eq_refl ltac:(discriminate)).
Defined.

End Tags.
